(** * Monitoring of PowerCenter and MDM: the notification cycle

    A shallow embedding of [infa/pc_mdm_monitor.py]: the status
    normalisation done by its queries, the reporting window, the health
    checks, the four summary builders and the delivery of the summaries,
    followed by the properties of the reports that the specification
    states.  The start-up validation of the script and the window, the
    cards and the status tables of the dashboard of [usage/pc_jobs.py] are
    embedded too, with properties of their own.

    Python [str] values are modelled by [string] holding their UTF-8
    encoding, integers by [Z] and counts by [nat], a [dict] that is
    iterated by an association list in insertion order and a [dict] that
    is only looked up by a [gmap]. *)

From Stdlib Require Import ZArith String Ascii List Bool Lia.
From Stdlib Require QArith.QArith_base.
From stdpp Require Import gmap strings list fin_maps pretty.

Local Open Scope string_scope.
Local Open Scope list_scope.
Local Open Scope Z_scope.

(* ===================================================================== *)
(** ** Python strings *)
(* ===================================================================== *)

Module PyStr.

(** The line feed, [chr(10)] and the escape [\n] of the source. *)
Definition nl : string := String (ascii_of_nat 10) EmptyString.

Definition is_upper (c : ascii) : bool :=
  let n := N_of_ascii c in (65 <=? n)%N && (n <=? 90)%N.

(** [str.lower] on one character.  Only the letters [A]..[Z] have an
    ASCII lower-case form; the bytes of a non-ASCII code point are left as
    they are (no code point outside ASCII lower-cases to an ASCII letter
    of the word looked for below, so the containment test is unaffected). *)
Definition lower_char (c : ascii) : ascii :=
  if is_upper c then ascii_of_N (N_of_ascii c + 32) else c.

(** [s.lower()] *)
Fixpoint lower (s : string) : string :=
  match s with
  | EmptyString => EmptyString
  | String c s' => String (lower_char c) (lower s')
  end.

(** [sub in s]: some suffix of [s] starts with [sub]. *)
Fixpoint contains (sub s : string) : bool :=
  String.prefix sub s ||
  match s with
  | EmptyString => false
  | String _ s' => contains sub s'
  end.

(** [sep.join(parts)] *)
Definition join (sep : string) (parts : list string) : string :=
  String.concat sep parts.

(** [str(n)] of a non-negative integer, as an f-string renders a count. *)
Definition str_of_nat (n : nat) : string := pretty n.

(** [str(z)] of an integer. *)
Definition str_of_Z (z : Z) : string := pretty z.

End PyStr.

(* ===================================================================== *)
(** ** The [datetime] arithmetic the window computation calls *)
(* ===================================================================== *)

Module PyDatetime.

Record datetime := mkDatetime {
  year : Z; month : Z; day : Z;
  hour : Z; minute : Z; second : Z; microsecond : Z
}.

(** A [timedelta] in its normal form: [0 <= seconds < 86400] and
    [0 <= microseconds < 1000000]; [days] carries the sign. *)
Record timedelta := mkTimedelta {
  days : Z; seconds : Z; microseconds : Z
}.

Definition MAXORDINAL : Z := 3652059.
Definition DI400Y : Z := 146097.
Definition DI100Y : Z := 36524.
Definition DI4Y : Z := 1461.

(** The two month tables; index 0 is the placeholder [-1] and the
    months are indexed from 1. *)
Definition DAYS_IN_MONTH : list Z :=
  [-1; 31; 28; 31; 30; 31; 30; 31; 31; 30; 31; 30; 31].

Definition DAYS_BEFORE_MONTH : list Z :=
  [-1; 0; 31; 59; 90; 120; 151; 181; 212; 243; 273; 304; 334].

(** [table[i]] for an index inside the table (every use below has
    [1 <= i <= 12]). *)
Definition index (table : list Z) (i : Z) : Z := nth (Z.to_nat i) table (-1).

Definition Z_of_bool (b : bool) : Z := if b then 1 else 0.

Definition is_leap (y : Z) : bool :=
  (y mod 4 =? 0) && (negb (y mod 100 =? 0) || (y mod 400 =? 0)).

Definition days_before_year (y : Z) : Z :=
  let y := y - 1 in y * 365 + y / 4 - y / 100 + y / 400.

Definition days_in_month (y m : Z) : Z :=
  if (m =? 2) && is_leap y then 29 else index DAYS_IN_MONTH m.

Definition days_before_month (y m : Z) : Z :=
  index DAYS_BEFORE_MONTH m + Z_of_bool ((2 <? m) && is_leap y).

Definition ymd2ord (y m d : Z) : Z :=
  days_before_year y + days_before_month y m + d.

(** The part of [_ord2ymd] after the 400-year cycle has been split off:
    [year0] is the first year of the cycle and [n] the offset in it. *)
Definition ord2ymd_cycle (year0 n : Z) : Z * Z * Z :=
  let n100 := n / DI100Y in
  let n := n mod DI100Y in
  let n4 := n / DI4Y in
  let n := n mod DI4Y in
  let n1 := n / 365 in
  let n := n mod 365 in
  let year := year0 + (n100 * 100 + n4 * 4 + n1) in
  if (n1 =? 4) || (n100 =? 4) then (year - 1, 12, 31)
  else
    let leapyear := (n1 =? 3) && (negb (n4 =? 24) || (n100 =? 3)) in
    let month := Z.shiftr (n + 50) 5 in
    let preceding :=
      index DAYS_BEFORE_MONTH month + Z_of_bool ((2 <? month) && leapyear) in
    if n <? preceding then
      let month := month - 1 in
      let preceding :=
        preceding
        - (index DAYS_IN_MONTH month + Z_of_bool ((month =? 2) && leapyear)) in
      (year, month, n - preceding + 1)
    else (year, month, n - preceding + 1).

Definition ord2ymd (n : Z) : Z * Z * Z :=
  let n := n - 1 in
  let n400 := n / DI400Y in
  let n := n mod DI400Y in
  ord2ymd_cycle (n400 * 400 + 1) n.

Definition toordinal (dt : datetime) : Z :=
  ymd2ord (year dt) (month dt) (day dt).

(** [timedelta(days, seconds, microseconds)]: the constructor carries the
    microseconds into the seconds and the seconds into the days. *)
Definition make_timedelta (d s us : Z) : timedelta :=
  let s := s + us / 1000000 in
  let us := us mod 1000000 in
  let d := d + s / 86400 in
  let s := s mod 86400 in
  mkTimedelta d s us.

(** [timedelta(hours=h)] *)
Definition timedelta_hours (h : Z) : timedelta := make_timedelta 0 (h * 3600) 0.

(** [-td] *)
Definition timedelta_neg (td : timedelta) : timedelta :=
  make_timedelta (- days td) (- seconds td) (- microseconds td).

(** [td1 + td2] *)
Definition timedelta_add (a b : timedelta) : timedelta :=
  make_timedelta (days a + days b) (seconds a + seconds b)
                 (microseconds a + microseconds b).

(** [dt + td]; [None] is the [OverflowError] raised when the result
    leaves the years 1..9999. *)
Definition datetime_add (dt : datetime) (td : timedelta) : option datetime :=
  let delta :=
    make_timedelta (toordinal dt)
                   (hour dt * 3600 + minute dt * 60 + second dt)
                   (microsecond dt) in
  let delta := timedelta_add delta td in
  let h := seconds delta / 3600 in
  let rem := seconds delta mod 3600 in
  let mi := rem / 60 in
  let s := rem mod 60 in
  if (0 <? days delta) && (days delta <=? MAXORDINAL) then
    let '(y, m, d) := ord2ymd (days delta) in
    Some (mkDatetime y m d h mi s (microseconds delta))
  else None.

(** [dt - td] is [dt + -td]. *)
Definition datetime_sub (dt : datetime) (td : timedelta) : option datetime :=
  datetime_add dt (timedelta_neg td).

(** [dt.replace(hour=0, minute=0, second=0, microsecond=0)] *)
Definition replace_midnight (dt : datetime) : datetime :=
  mkDatetime (year dt) (month dt) (day dt) 0 0 0 0.

(** The invariant of every [datetime] object. *)
Definition valid_datetime (dt : datetime) : bool :=
  (1 <=? year dt) && (year dt <=? 9999) &&
  (1 <=? month dt) && (month dt <=? 12) &&
  (1 <=? day dt) && (day dt <=? days_in_month (year dt) (month dt)) &&
  (0 <=? hour dt) && (hour dt <? 24) &&
  (0 <=? minute dt) && (minute dt <? 60) &&
  (0 <=? second dt) && (second dt <? 60) &&
  (0 <=? microsecond dt) && (microsecond dt <? 1000000).

(** The fields in the order in which two datetimes are compared. *)
Definition fields (dt : datetime) : list Z :=
  [year dt; month dt; day dt; hour dt; minute dt; second dt; microsecond dt].

Fixpoint cmp (a b : list Z) : comparison :=
  match a, b with
  | x :: a', y :: b' =>
      match x ?= y with
      | Eq => cmp a' b'
      | c => c
      end
  | [], [] => Eq
  | [], _ :: _ => Lt
  | _ :: _, [] => Gt
  end.

(** [a <= b] and [a < b] on datetimes. *)
Definition dt_leb (a b : datetime) : bool :=
  match cmp (fields a) (fields b) with Gt => false | _ => true end.

Definition dt_ltb (a b : datetime) : bool :=
  match cmp (fields a) (fields b) with Lt => true | _ => false end.

(** Microseconds since 0001-01-01T00:00:00, the position of a datetime
    on the time line. *)
Definition to_micros (dt : datetime) : Z :=
  (((toordinal dt - 1) * 24 + hour dt) * 60 + minute dt) * 60000000
  + second dt * 1000000 + microsecond dt.

Definition MONTH_NAMES : list string :=
  ["January"; "February"; "March"; "April"; "May"; "June"; "July";
   "August"; "September"; "October"; "November"; "December"].

(** [dt.strftime(fmt)] for the directives the report header uses: [%B]
    the month name, [%Y] the year, and the day of the month without a
    leading zero, which the Windows runtime spells [%#d] and the other
    platforms [%-d].  Every other character is copied. *)
Fixpoint strftime (fmt : string) (dt : datetime) : string :=
  match fmt with
  | String "%" (String "B" rest) =>
      nth (Z.to_nat (month dt - 1)) MONTH_NAMES EmptyString +:+ strftime rest dt
  | String "%" (String "Y" rest) =>
      PyStr.str_of_Z (year dt) +:+ strftime rest dt
  | String "%" (String "#" (String "d" rest)) =>
      PyStr.str_of_Z (day dt) +:+ strftime rest dt
  | String "%" (String "-" (String "d" rest)) =>
      PyStr.str_of_Z (day dt) +:+ strftime rest dt
  | String c rest => String c (strftime rest dt)
  | EmptyString => EmptyString
  end.

(** [%0wd]: the decimal digits of a non-negative [z], zero-padded on the
    left to the width [w]. *)
Definition pad0 (w : nat) (z : Z) : string :=
  let digits := PyStr.str_of_Z z in
  String.concat EmptyString (replicate (w - String.length digits)%nat "0") +:+ digits.

(** [str(dt)], the ISO form with a space between the date and the time;
    the microseconds are printed only when they are not zero. *)
Definition str_of_datetime (dt : datetime) : string :=
  pad0 4 (year dt) +:+ "-" +:+ pad0 2 (month dt) +:+ "-" +:+ pad0 2 (day dt)
  +:+ " " +:+ pad0 2 (hour dt) +:+ ":" +:+ pad0 2 (minute dt)
  +:+ ":" +:+ pad0 2 (second dt)
  +:+ (if microsecond dt =? 0 then EmptyString
       else "." +:+ pad0 6 (microsecond dt)).

End PyDatetime.

(* ===================================================================== *)
(** ** Effects: raised exceptions, standard output, the clock, the posts *)
(* ===================================================================== *)

Module Effects.

(** A raised [Exception], with the text [str(e)] that a handler prints. *)
Inductive exn := Exception (msg : string).

Definition exn_msg (e : exn) : string := let 'Exception m := e in m.

Inductive result (A : Type) :=
| Ok (a : A)
| Raise (e : exn).
Arguments Ok {A} a.
Arguments Raise {A} e.

(** What one run leaves behind: the lines given to [print], the webhook
    posts attempted (target and message), and how often the clock has
    been read. *)
Record Trace := mkTrace {
  stdout : list string;
  posts : list (string * string);
  clock_reads : nat
}.

Definition empty_trace : Trace := mkTrace [] [] 0.

Definition M (A : Type) : Type := Trace -> result A * Trace.

Definition ret {A} (a : A) : M A := fun t => (Ok a, t).

Definition raise {A} (e : exn) : M A := fun t => (Raise e, t).

Definition bind {A B} (c : M A) (k : A -> M B) : M B :=
  fun t =>
    match c t with
    | (Ok a, t') => k a t'
    | (Raise e, t') => (Raise e, t')
    end.

(** [try: body  except Exception as e: handler(e)] *)
Definition try_except {A} (body : M A) (handler : exn -> M A) : M A :=
  fun t =>
    match body t with
    | (Ok a, t') => (Ok a, t')
    | (Raise e, t') => handler e t'
    end.

(** [print(line)] *)
Definition print (line : string) : M unit :=
  fun t => (Ok tt, mkTrace (stdout t ++ [line]) (posts t) (clock_reads t)).

(** A value or an exception that the surroundings hand to the program. *)
Definition lift {A} (r : result A) : M A := fun t => (r, t).

End Effects.

Notation "x <- c ;; k" := (Effects.bind c (fun x => k))
  (at level 100, c at next level, right associativity).
Notation "c ;;; k" := (Effects.bind c (fun _ => k))
  (at level 100, right associativity).

(* ===================================================================== *)
(** ** The monitoring script *)
(* ===================================================================== *)

Module Monitor.
Import PyStr PyDatetime Effects.

Definition ok_glyph : string := "✅".
Definition fail_glyph : string := "❌".

(** *** Configuration read from the environment at start-up *)

Record Config := mkConfig {
  BAT_DEV : string; BAT_SIT : string; BAT_PRD : string;
  WEBHOOK_POST : string; WEBHOOK_CHAT : string;
  SIT_JBOSS_URL : string; SIT_JBOSS_USER : string; SIT_JBOSS_PASS : string;
  PRD_JBOSS_URL : string; PRD_JBOSS_USER : string; PRD_JBOSS_PASS : string
}.

Definition BAT_FILES (cfg : Config) : list (string * string) :=
  [("DEV", BAT_DEV cfg); ("SIT", BAT_SIT cfg); ("PRD", BAT_PRD cfg)].

Record Creds := mkCreds {
  JBOSS_URL : string; JBOSS_USER : string; JBOSS_PASS : string
}.

Definition ENVIRONMENTS (cfg : Config) : list (string * Creds) :=
  [("SIT", mkCreds (SIT_JBOSS_URL cfg) (SIT_JBOSS_USER cfg) (SIT_JBOSS_PASS cfg));
   ("PRD", mkCreds (PRD_JBOSS_URL cfg) (PRD_JBOSS_USER cfg) (PRD_JBOSS_PASS cfg))].

(** Job order *)
Definition CUSTOM_ORDER : list string :=
  ["Party"; "Party Relationship"; "Party Source ID"; "Party Status"; "Party Postal Address";
   "Postal Address"; "Party Electronic Address"; "Party Phone Communication"; "STG_PARTY";
   "STG_PARTY_REL"; "Staging Party Source ID"; "STG_PARTY_STATUS"; "STG_PARTY_POSTAL_ADD";
   "STG_POSTAL_ADD"; "STG_PARTY_ETRC_ADD"; "STG_PARTY_PH_COMM"; "STG_PARTY_WD";
   "STG_PARTY_REL_WD"; "S_PARTY_SOURCE_ID_WD"; "STG_PARTY_STATUS_WD"; "STG_PARTY_PSTL_ADD_WD";
   "STG_PSTL_ADD_WD"; "STG_PARTY_ERTC_ADD_WD"; "STG_PARTY_PH_COMM_WD"; "STG_PARTY_AD";
   "STG_PARTY_REL_AD"; "S_PARTY_SOURCE_ID_AD"; "STG_PARTY_STATUS_AD"; "STG_PARTY_PSTL_ADD_AD";
   "STG_PSTL_ADD_AD"; "STG_PARTY_ETRC_ADD_AD"; "STG_PARTY_PH_COMM_AD"].

(** *** The repository tables and the rows the queries return *)

(** A run of [REP_WFLOW_RUN]; a time that is [None] is SQL [NULL]. *)
Module REP_WFLOW_RUN.
Record row := mk {
  SUBJECT_AREA : string;
  WORKFLOW_NAME : string;
  WORKFLOW_RUN_ID : Z;
  START_TIME : option datetime;
  END_TIME : option datetime;
  RUN_STATUS_CODE : Z
}.
End REP_WFLOW_RUN.

Module REP_SESS_LOG.
Record row := mk {
  SUBJECT_AREA : string;
  WORKFLOW_NAME : string;
  WORKFLOW_RUN_ID : Z;
  SESSION_NAME : string;
  RUN_STATUS_CODE : Z;
  ACTUAL_START : option datetime
}.
End REP_SESS_LOG.

(** A row of the workflow query, with the columns of its select list. *)
Module Workflow.
Record row := mk {
  SUBJECT_AREA : string;
  WORKFLOW_NAME : string;
  WORKFLOW_RUN_ID : Z;
  START_TIME : option datetime;
  END_TIME : option datetime;
  Duration : option Z;
  Status : string
}.
End Workflow.

(** A row of the session query. *)
Module Session.
Record row := mk {
  SUBJECT_AREA : string;
  WORKFLOW_NAME : string;
  WORKFLOW_RUN_ID : Z;
  SESSION_NAME : string;
  Status : string
}.
End Session.

(** A row of the batch-job query: [row[0]] .. [row[6]] are [GroupName],
    [Display], [Start], [End], [Status], [Message] and [Rejects].  The
    same record stands for the rows of the joined job tables with the
    select list applied, before the [WHERE] clause keeps some of them.
    [Status] is cut out of the description that the [LEFT JOIN] with the
    status types brings: it is [None], SQL [NULL], for a job whose run
    status has no status type.  [Display] is only used as a dictionary
    key and compared with the names of the job order; a [NULL] there
    behaves like a text that is not in the job order and stands as
    one. *)
Module Job.
Record row := mk {
  GroupName : string;
  Display : string;
  Start : option datetime;
  End_ : option datetime;
  Status : option string;
  Message : string;
  Rejects : Z
}.
End Job.

(** The PowerCenter repository as the script sees it.  [collation_eq] is
    the equality of the database collation on text. *)
Record PcDatabase := mkPcDatabase {
  pc_collation_eq : string -> string -> bool;
  pc_REP_WFLOW_RUN : list REP_WFLOW_RUN.row;
  pc_REP_SESS_LOG : list REP_SESS_LOG.row
}.

Record MdmDatabase := mkMdmDatabase {
  mdm_collation_eq : string -> string -> bool;
  mdm_job_rows : list Job.row
}.

(** *** What the surroundings answer during one run *)

(** [subprocess.run(..., timeout=30)]: it returns the captured output, or
    raises [TimeoutExpired], or raises something else. *)
Inductive run_outcome :=
| Completed (stdout_ stderr_ : option string)
| TimeoutExpired
| RunError (e : exn).

(** [requests.post(...)]: a response with its status code and body, or a
    raised exception (connection refused, time-out, ...). *)
Inductive http_outcome (B : Type) :=
| HttpError (e : exn)
| Response (status_code : Z) (body : B).
Arguments HttpError {B} e.
Arguments Response {B} status_code body.

(** [status_resp.json().get("result", {})] of a deployment: what
    [result.get("status")] holds when it is a string, and whether
    [result.get("enabled")] is truthy. *)
Record DeploymentRuntime := mkRuntime {
  runtime_status : option string;
  runtime_enabled : bool
}.

Record Host := mkHost {
  (** [platform.system()] *)
  platform_system : string;
  (** [datetime.datetime.now()], by the number of earlier readings *)
  clock : nat -> datetime;
  (** running the [.bat] file of an environment *)
  subprocess_run : string -> string -> run_outcome;
  (** the deployment listing of an environment (the TLS flag and the
      time-out of the request are part of what is answered); the body is
      [resp.json().get("result", [])] or the exception it raises *)
  jboss_list : string -> Creds -> http_outcome (result (list string));
  (** the runtime resource of the [i]-th listed deployment of an
      environment *)
  jboss_read : string -> Creds -> nat -> string ->
               http_outcome (result DeploymentRuntime);
  (** [pyodbc.connect] to the two schemas: the database, or the exception
      raised when it cannot be reached; on a database that is reached the
      queries are taken to run to the end *)
  pc_db : result PcDatabase;
  mdm_db : result MdmDatabase;
  (** the webhook post to Teams, by the number of earlier posts, the
      target and the message; the body is [resp.text] *)
  teams_post : nat -> string -> string -> http_outcome string
}.

(** [datetime.datetime.now()] *)
Definition datetime_now (h : Host) : M datetime :=
  fun t => (Ok (clock h (clock_reads t)),
            mkTrace (stdout t) (posts t) (S (clock_reads t))).

(** *** Status normalisation of workflows and sessions *)

(** [CASE RUN_STATUS_CODE WHEN 1 THEN 'Succeeded' ... ELSE 'Unknown' END],
    the same expression in the workflow and in the session query. *)
Definition run_status_case (code : Z) : string :=
  if code =? 1 then "Succeeded"
  else if code =? 2 then "Disabled"
  else if code =? 3 then "Failed"
  else if code =? 4 then "Stopped"
  else if code =? 5 then "Aborted"
  else if code =? 6 then "Running"
  else if code =? 15 then "Terminated"
  else "Unknown".

(** *** The reporting window and the three queries *)

(** [v BETWEEN lo AND hi]; a comparison with [NULL] is not true. *)
Definition sql_between (v : option datetime) (lo hi : datetime) : bool :=
  match v with
  | Some t => dt_leb lo t && dt_leb t hi
  | None => false
  end.

(** [v >= lo AND v < hi] *)
Definition sql_ge_and_lt (v : option datetime) (lo hi : datetime) : bool :=
  match v with
  | Some t => dt_leb lo t && dt_ltb t hi
  | None => false
  end.

(** [DATEDIFF(MINUTE, a, b)]: the minute boundaries crossed from [a] to
    [b], [NULL] when one of them is. *)
Definition datediff_minute (a b : option datetime) : option Z :=
  match a, b with
  | Some a, Some b => Some (to_micros b / 60000000 - to_micros a / 60000000)
  | _, _ => None
  end.

Definition wf_query (db : PcDatabase) (p1 p2 : datetime) : list Workflow.row :=
  map (fun run =>
         Workflow.mk (REP_WFLOW_RUN.SUBJECT_AREA run)
                     (REP_WFLOW_RUN.WORKFLOW_NAME run)
                     (REP_WFLOW_RUN.WORKFLOW_RUN_ID run)
                     (REP_WFLOW_RUN.START_TIME run)
                     (REP_WFLOW_RUN.END_TIME run)
                     (datediff_minute (REP_WFLOW_RUN.START_TIME run)
                                      (REP_WFLOW_RUN.END_TIME run))
                     (run_status_case (REP_WFLOW_RUN.RUN_STATUS_CODE run)))
      (List.filter
         (fun run =>
            pc_collation_eq db (REP_WFLOW_RUN.SUBJECT_AREA run) "GLENCORE_HR_PROD"
            && sql_between (REP_WFLOW_RUN.START_TIME run) p1 p2)
         (pc_REP_WFLOW_RUN db)).

Definition sess_query (db : PcDatabase) (p1 p2 : datetime) : list Session.row :=
  map (fun s =>
         Session.mk (REP_SESS_LOG.SUBJECT_AREA s)
                    (REP_SESS_LOG.WORKFLOW_NAME s)
                    (REP_SESS_LOG.WORKFLOW_RUN_ID s)
                    (REP_SESS_LOG.SESSION_NAME s)
                    (run_status_case (REP_SESS_LOG.RUN_STATUS_CODE s)))
      (List.filter
         (fun s =>
            pc_collation_eq db (REP_SESS_LOG.SUBJECT_AREA s) "<modify this>"
            && sql_between (REP_SESS_LOG.ACTUAL_START s) p1 p2)
         (pc_REP_SESS_LOG db)).

Definition JOB_GROUPS : list string :=
  ["StgBatchGroupSAP"; "BOBatchGroupAD"; "StgBatchGroupAD";
   "BOBatchGroupSap"; "TokenMatchMergeGrp";
   "BOBatchGroup_SRC_ID_SAPNO_FLAG_LDG_STG_BO";
   "StgBatchGroupWorkday"; "BOBatchGroupWorkday"].

Definition jobs_query (db : MdmDatabase) (p1 p2 : datetime) : list Job.row :=
  List.filter
    (fun jc =>
       existsb (mdm_collation_eq db (Job.GroupName jc)) JOB_GROUPS
       && sql_ge_and_lt (Job.Start jc) p1 p2)
    (mdm_job_rows db).

(** [today_midnight - datetime.timedelta(hours=2)], raising the
    [OverflowError] of the subtraction when there is no such date. *)
Definition minus_two_hours (today_midnight : datetime) : M datetime :=
  match datetime_sub today_midnight (timedelta_hours 2) with
  | Some d => ret d
  | None => raise (Exception "date value out of range")
  end.

Definition get_recent_workflows_and_sessions (h : Host)
  : M (list Workflow.row * list Session.row) :=
  print "Fetching PC workflows and sessions" ;;;
  conn <- lift (pc_db h) ;;
  now <- datetime_now h ;;
  let today_midnight := replace_midnight now in
  yesterday_10pm <- minus_two_hours today_midnight ;;
  let workflows := wf_query conn yesterday_10pm today_midnight in
  let sessions := sess_query conn yesterday_10pm today_midnight in
  ret (workflows, sessions).

Definition get_recent_jobs (h : Host) : M (list Job.row) :=
  print "Fetching MDM jobs" ;;;
  conn <- lift (mdm_db h) ;;
  now <- datetime_now h ;;
  let today_midnight := replace_midnight now in
  yesterday_10pm <- minus_two_hours today_midnight ;;
  let jobs := jobs_query conn yesterday_10pm today_midnight in
  ret jobs.

(** *** Loops and insertion-ordered dictionaries *)

(** [for x in xs: body], with the variables the body assigns as [s]. *)
Fixpoint for_each {A S : Type} (xs : list A) (body : A -> S -> M S) (s : S)
  : M S :=
  match xs with
  | [] => ret s
  | x :: xs' => s' <- body x s ;; for_each xs' body s'
  end.

(** [d[k] = v] on a dictionary kept in insertion order: a key that is
    present keeps its place, a new key goes to the end. *)
Fixpoint dict_set {V : Type} (k : string) (v : V) (d : list (string * V))
  : list (string * V) :=
  match d with
  | [] => [(k, v)]
  | (k', v') :: d' =>
      if String.eqb k' k then (k', v) :: d' else (k', v') :: dict_set k v d'
  end.

(** [d.get(k)] *)
Fixpoint dict_get {V : Type} (k : string) (d : list (string * V)) : option V :=
  match d with
  | [] => None
  | (k', v') :: d' => if String.eqb k' k then Some v' else dict_get k d'
  end.

(** *** PowerCenter service check *)

(** [s or ""] *)
Definition or_empty (s : option string) : string :=
  match s with
  | Some s => s
  | None => EmptyString
  end.

Definition check_pc_service (cfg : Config) (h : Host) : M (list (string * bool)) :=
  print "Checking PowerCenter services" ;;;
  for_each (BAT_FILES cfg)
    (fun '(env, bat_file) status =>
       match subprocess_run h env bat_file with
       | Completed out err =>
           let output := or_empty out +:+ or_empty err in
           ret (dict_set env (contains "Integration Service is alive" output) status)
       | TimeoutExpired =>
           print (env +:+ " - Timeout") ;;;
           ret (dict_set env false status)
       | RunError e =>
           print (env +:+ " - Error: " +:+ exn_msg e) ;;;
           ret (dict_set env false status)
       end)
    [].

(** *** JBoss / MDM application check *)

Module Dep.
Record row := mk {
  Deployment : string;
  Status : string;
  Enabled : string
}.
End Dep.

Definition NOT_REACHABLE : list Dep.row :=
  [Dep.mk "N/A" fail_glyph "Not Reachable"].

(** The body of the loop over the listed deployments: a deployment whose
    resource is read with status 200 is appended, any other status skips
    it, and an exception leaves the loop. *)
Definition read_deployment (h : Host) (env : string) (creds : Creds)
  (dep : string) (st : nat * list Dep.row) : M (nat * list Dep.row) :=
  let '(i, deployments) := st in
  match jboss_read h env creds i dep with
  | HttpError e => raise e
  | Response status_code body =>
      if status_code =? 200 then
        result <- lift body ;;
        ret (S i,
             deployments ++
             [Dep.mk dep
                (if match runtime_status result with
                    | Some v => String.eqb v "OK"
                    | None => false
                    end then ok_glyph else fail_glyph)
                (if runtime_enabled result then ok_glyph else fail_glyph)])
      else ret (S i, deployments)
  end.

(** The value stored at [data[env]] by one turn of the loop over the
    environments. *)
Definition check_mdm_env (h : Host) (env : string) (creds : Creds)
  : M (list Dep.row) :=
  try_except
    (match jboss_list h env creds with
     | HttpError e => raise e
     | Response status_code body =>
         if negb (status_code =? 200) then
           print (env +:+ " returned HTTP " +:+ str_of_Z status_code) ;;;
           ret NOT_REACHABLE
         else
           deps <- lift body ;;
           st <- for_each deps (read_deployment h env creds) (0%nat, []) ;;
           let deployments := snd st in
           ret (match deployments with
                | [] => NOT_REACHABLE
                | _ :: _ => deployments
                end)
     end)
    (fun e =>
       print (env +:+ " error: " +:+ exn_msg e) ;;;
       ret NOT_REACHABLE).

Definition check_mdm_apps (cfg : Config) (h : Host)
  : M (list (string * list Dep.row)) :=
  print "Checking Master Data Management apps" ;;;
  for_each (ENVIRONMENTS cfg)
    (fun '(env, creds) data =>
       entry <- check_mdm_env h env creds ;;
       ret (dict_set env entry data))
    [].

(** *** Formatting helpers *)

Definition get_date_str (h : Host) : M string :=
  let fmt := if String.eqb (platform_system h) "Windows"
             then "%B %#d, %Y" else "%B %-d, %Y" in
  now <- datetime_now h ;;
  ret (strftime fmt now).

(** [[x for x in xs if x.Status != 'Succeeded']] *)
Definition failed_wf (workflows : list Workflow.row) : list Workflow.row :=
  List.filter (fun wf => negb (String.eqb (Workflow.Status wf) "Succeeded")) workflows.

Definition failed_sess (sessions : list Session.row) : list Session.row :=
  List.filter (fun s => negb (String.eqb (Session.Status s) "Succeeded")) sessions.

(** ['✅' if up else '❌'] *)
Definition env_status_icon (up : bool) : string :=
  if up then ok_glyph else fail_glyph.

(** ['✅' if s == 'Succeeded' else '❌'] *)
Definition wf_status_icon (s : string) : string :=
  if String.eqb s "Succeeded" then ok_glyph else fail_glyph.

Definition service_lines (service_status : list (string * bool)) : string :=
  join nl (map (fun '(env, up) => env +:+ " " +:+ env_status_icon up) service_status).

Definition wf_lines (workflows : list Workflow.row) : list string :=
  map (fun row => Workflow.WORKFLOW_NAME row +:+ " | "
                  +:+ wf_status_icon (Workflow.Status row)) workflows.

Definition sess_lines (sessions : list Session.row) : list string :=
  map (fun row => Session.SESSION_NAME row +:+ " | "
                  +:+ wf_status_icon (Session.Status row)) sessions.

Definition format_pc_chat (h : Host) (service_status : list (string * bool))
  (workflows : list Workflow.row) (sessions : list Session.row)
  (detailed : bool) : M string :=
  let failed_wf := failed_wf workflows in
  let failed_sess := failed_sess sessions in
  let env_lines := service_lines service_status in
  date_str <- get_date_str h ;;
  let summary :=
    date_str +:+ nl +:+ nl
    +:+ "**🔍 PowerCenter Monitoring Summary**" +:+ nl +:+ nl
    +:+ "**Service Status:**" +:+ nl +:+ env_lines +:+ nl +:+ nl
    +:+ "**📦 Workflows and Sessions**" +:+ nl +:+ nl
    +:+ "**Workflows Failed:** " +:+ str_of_nat (length failed_wf)
    +:+ " / " +:+ str_of_nat (length workflows) +:+ nl +:+ nl
    +:+ "**Sessions Failed:** " +:+ str_of_nat (length failed_sess)
    +:+ " / " +:+ str_of_nat (length sessions) +:+ nl +:+ nl in
  if detailed then
    ret (summary
         +:+ ("📊 **Workflow List:**" +:+ nl +:+ "```" +:+ nl
              +:+ "Workflow Name | Status" +:+ nl
              +:+ join nl (wf_lines workflows) +:+ nl +:+ "```" +:+ nl +:+ nl
              +:+ "📊 **Session List:**" +:+ nl +:+ "```" +:+ nl
              +:+ "Session Name | Status" +:+ nl
              +:+ join nl (sess_lines sessions) +:+ nl +:+ "```"))
  else ret summary.

Definition format_pc_summary (h : Host) (service_status : list (string * bool))
  (workflows : list Workflow.row) (sessions : list Session.row) : M string :=
  print "Formatting PC summary" ;;;
  let failed_wf := failed_wf workflows in
  let failed_sess := failed_sess sessions in
  let wf_lines := wf_lines workflows in
  let sess_lines := sess_lines sessions in
  let service_lines := service_lines service_status in
  let date_format := if String.eqb (platform_system h) "Windows"
                     then "%B %#d, %Y" else "%B %-d, %Y" in
  now <- datetime_now h ;;
  let current_date := strftime date_format now in
  ret (current_date +:+ nl +:+ nl
       +:+ "**🔍 PowerCenter Monitoring Summary**" +:+ nl +:+ nl
       +:+ "**Service Status:**" +:+ nl +:+ service_lines +:+ nl +:+ nl
       +:+ "**📦 Workflows and Sessions**" +:+ nl +:+ nl
       +:+ "**Workflows" +:+ nl +:+ "Failed:** " +:+ str_of_nat (length failed_wf)
       +:+ " / " +:+ str_of_nat (length workflows) +:+ nl +:+ nl
       +:+ "**Sessions" +:+ nl +:+ "Failed:** " +:+ str_of_nat (length failed_sess)
       +:+ " / " +:+ str_of_nat (length sessions) +:+ nl +:+ nl
       +:+ "📊 **Workflow List:**" +:+ nl
       +:+ "```" +:+ nl
       +:+ "Workflow Name | Status" +:+ nl
       +:+ "-----------------------" +:+ nl
       +:+ join nl wf_lines +:+ nl
       +:+ "```" +:+ nl +:+ nl
       +:+ "📊 **Session List:**" +:+ nl
       +:+ "```" +:+ nl
       +:+ "Session Name | Status" +:+ nl
       +:+ "-----------------------" +:+ nl
       +:+ join nl sess_lines +:+ nl
       +:+ "```").

(** ['✅' if 'completed' in s.lower() else '❌'] *)
Definition status_icon (s : string) : string :=
  if contains "completed" (lower s) then ok_glyph else fail_glyph.

(** The [AttributeError] that [row[4].lower()] raises for a row whose
    status is [None]. *)
Definition no_lower : exn :=
  Exception "'NoneType' object has no attribute 'lower'".

(** [row[4]] as the receiver of [.lower()]: the text, or the error
    raised on [None]. *)
Definition status_text (row : Job.row) : result string :=
  match Job.Status row with
  | Some s => Ok s
  | None => Raise no_lower
  end.

(** The rows entered into a dictionary in fetch order, a later row
    replacing the value of an equal key; the first row whose status is
    [None] raises. *)
Fixpoint enter_rows (d : gmap string string) (jobs : list Job.row)
  : result (gmap string string) :=
  match jobs with
  | [] => Ok d
  | row :: jobs' =>
      match status_text row with
      | Ok s => enter_rows (<[Job.Display row := status_icon s]> d) jobs'
      | Raise e => Raise e
      end
  end.

(** [{row[1]: status_icon(row[4]) for row in jobs}] *)
Definition status_dict (jobs : list Job.row) : result (gmap string string) :=
  enter_rows ∅ jobs.

(** The sum below, continued from [n]. *)
Fixpoint count_failed (n : nat) (jobs : list Job.row) : result nat :=
  match jobs with
  | [] => Ok n
  | row :: jobs' =>
      match status_text row with
      | Ok s =>
          count_failed (if contains "completed" (lower s) then n else S n) jobs'
      | Raise e => Raise e
      end
  end.

(** [sum(1 for row in jobs if 'completed' not in row[4].lower())] *)
Definition failed_jobs (jobs : list Job.row) : result nat :=
  count_failed 0 jobs.

(** [sum(1 for d in deployments if d["Status"] == "✅" and d["Enabled"] == "✅")] *)
Definition ok_count (deployments : list Dep.row) : nat :=
  length (List.filter
            (fun d => String.eqb (Dep.Status d) ok_glyph
                      && String.eqb (Dep.Enabled d) ok_glyph)
            deployments).

Definition env_summary_line (env : string) (deployments : list Dep.row) : string :=
  let ok := ok_count deployments in
  let fail := (length deployments - ok)%nat in
  env +:+ " " +:+ str_of_nat ok +:+ " ✅ | " +:+ str_of_nat fail +:+ " ❌".

Definition table_lines (deployments : list Dep.row) : list string :=
  map (fun d => Dep.Deployment d +:+ " | " +:+ Dep.Status d
                +:+ " | " +:+ Dep.Enabled d) deployments.

Definition format_mdm_chat (h : Host) (jboss_data : list (string * list Dep.row))
  (jobs : list Job.row) (detailed : bool) : M string :=
  status_dict <- lift (status_dict jobs) ;;
  let ordered_results :=
    map (fun job => job +:+ " | " +:+ default fail_glyph (status_dict !! job))
        CUSTOM_ORDER in
  let total := length jobs in
  failed <- lift (failed_jobs jobs) ;;
  let '(env_lines, env_tables) :=
    foldl (fun '(env_lines, env_tables) '(env, deployments) =>
             (env_lines ++ [env_summary_line env deployments],
              if detailed then
                env_tables ++
                ["**" +:+ env +:+ " Applications**" +:+ nl +:+ "```" +:+ nl
                 +:+ "Deployment | Status | Enabled" +:+ nl
                 +:+ join nl (table_lines deployments) +:+ nl +:+ "```"]
              else env_tables))
          ([], []) jboss_data in
  date_str <- get_date_str h ;;
  let summary :=
    date_str +:+ nl +:+ nl
    +:+ "**🔍 MDM Monitoring Summary**" +:+ nl +:+ nl
    +:+ "**Services Status**" +:+ nl +:+ join nl env_lines
    +:+ nl +:+ nl +:+ "**📦 Batch Jobs**" +:+ nl +:+ nl
    +:+ "Failed: " +:+ str_of_nat failed +:+ " / " +:+ str_of_nat total
    +:+ nl +:+ nl in
  if detailed then
    ret (summary
         +:+ (join nl env_tables
              +:+ nl +:+ nl +:+ "```" +:+ nl +:+ "Job Name | Status" +:+ nl
              +:+ join nl ordered_results +:+ nl +:+ "```"))
  else ret summary.

(** The loop of [format_mdm_summary] over the job order, appending one
    line for each name. *)
Definition ordered_results (status_dict : gmap string string) : list string :=
  foldl (fun ordered_results job =>
           let emoji := default fail_glyph (status_dict !! job) in
           ordered_results ++ [job +:+ " | " +:+ emoji])
        [] CUSTOM_ORDER.

Definition format_mdm_summary (h : Host) (jboss_data : list (string * list Dep.row))
  (jobs : list Job.row) : M string :=
  print "Formatting MDM summary" ;;;
  status_dict <- lift (status_dict jobs) ;;
  let ordered_results := ordered_results status_dict in
  let total := length jobs in
  failed <- lift (failed_jobs jobs) ;;
  let '(env_summary_lines, env_tables) :=
    foldl (fun '(env_summary_lines, env_tables) '(env, deployments) =>
             (env_summary_lines ++ [env_summary_line env deployments],
              env_tables ++
              ["**" +:+ env +:+ " Applications**" +:+ nl
               +:+ "```" +:+ nl
               +:+ "Deployment | Status | Enabled" +:+ nl
               +:+ "-------------------------------" +:+ nl
               +:+ join nl (table_lines deployments) +:+ nl
               +:+ "```"]))
          ([], []) jboss_data in
  let date_format := if String.eqb (platform_system h) "Windows"
                     then "%B %#d, %Y" else "%B %-d, %Y" in
  now <- datetime_now h ;;
  let current_date := strftime date_format now in
  ret (current_date +:+ nl +:+ nl
       +:+ "**🔍 MDM Monitoring Summary**" +:+ nl +:+ nl
       +:+ "**Services Status**" +:+ nl
       +:+ join nl env_summary_lines +:+ nl +:+ nl
       +:+ join (nl +:+ nl) env_tables +:+ nl +:+ nl
       +:+ "**📦 Batch Jobs**" +:+ nl +:+ nl
       +:+ "Failed: " +:+ str_of_nat failed +:+ " / " +:+ str_of_nat total
       +:+ nl +:+ nl
       +:+ "```" +:+ nl
       +:+ "Job Name | Status" +:+ nl
       +:+ "----------------------" +:+ nl
       +:+ join nl ordered_results +:+ nl
       +:+ "```" +:+ nl +:+ nl).

(** *** Teams messaging *)

(** [requests.post(webhook_url, json={"text": message})]: the post is
    recorded, then the answer of the webhook is returned or raised. *)
Definition requests_post (h : Host) (webhook_url message : string)
  : M (Z * string) :=
  fun t =>
    let t' := mkTrace (stdout t) (posts t ++ [(webhook_url, message)])
                      (clock_reads t) in
    match teams_post h (length (posts t)) webhook_url message with
    | HttpError e => (Raise e, t')
    | Response status_code text => (Ok (status_code, text), t')
    end.

Definition send_to_teams (h : Host) (webhook_url message : string) : M unit :=
  print "Posting summary to Teams" ;;;
  resp <- requests_post h webhook_url message ;;
  if negb (fst resp =? 200) then
    print ("❌ Teams post failed: " +:+ str_of_Z (fst resp) +:+ " - " +:+ snd resp)
  else ret tt.

(** *** Main orchestration *)

Definition monitor (cfg : Config) (h : Host) : M unit :=
  now <- datetime_now h ;;
  print (nl +:+ "📅 Running Monitoring at " +:+ str_of_datetime now) ;;;
  try_except
    (pc_service <- check_pc_service cfg h ;;
     mdm_apps <- check_mdm_apps cfg h ;;
     fetched <- get_recent_workflows_and_sessions h ;;
     let workflows := fst fetched in
     let sessions := snd fetched in
     jobs <- get_recent_jobs h ;;
     pc_chat <- format_pc_chat h pc_service workflows sessions false ;;
     mdm_chat <- format_mdm_chat h mdm_apps jobs false ;;
     send_to_teams h (WEBHOOK_CHAT cfg) pc_chat ;;;
     send_to_teams h (WEBHOOK_CHAT cfg) mdm_chat ;;;
     pc_summary <- format_pc_summary h pc_service workflows sessions ;;
     mdm_summary <- format_mdm_summary h mdm_apps jobs ;;
     send_to_teams h (WEBHOOK_POST cfg) pc_summary ;;;
     send_to_teams h (WEBHOOK_POST cfg) mdm_summary ;;;
     print "✅ Monitoring complete and sent to Teams.")
    (fun e => print ("❌ Error during monitoring: " +:+ exn_msg e)).

End Monitor.

(* ===================================================================== *)
(** ** Vocabulary of the statements *)
(* ===================================================================== *)

Module Spec.
Import PyStr PyDatetime Effects Monitor.

(** Two characters that are equal when the case of ASCII letters is
    ignored: the same character, or an upper-case letter and its
    lower-case form, 32 code points later. *)
Inductive char_nocase : ascii -> ascii -> Prop :=
| same_char c : char_nocase c c
| upper_lower c :
    is_upper c = true -> char_nocase c (ascii_of_N (N_of_ascii c + 32))
| lower_upper c :
    is_upper c = true -> char_nocase (ascii_of_N (N_of_ascii c + 32)) c.

Inductive eq_nocase : string -> string -> Prop :=
| eq_nocase_nil : eq_nocase EmptyString EmptyString
| eq_nocase_cons a b s t :
    char_nocase a b -> eq_nocase s t -> eq_nocase (String a s) (String b t).

(** [s] contains [word] case-insensitively. *)
Definition contains_nocase (word s : string) : Prop :=
  exists pre mid post, s = pre +:+ mid +:+ post /\ eq_nocase mid word.

(** The display names of the fetched records. *)
Definition display_names (jobs : list Job.row) : list string :=
  map Job.Display jobs.

(** One line of the itemized listing. *)
Definition listing_line (name glyph : string) : string :=
  name +:+ " | " +:+ glyph.

(** Every fetched record has a status text: no status is [NULL]. *)
Definition statuses_known (jobs : list Job.row) : Prop :=
  Forall (fun row => Job.Status row <> None) jobs.

(** The glyph of a record, when its status is a text. *)
Definition glyph_of (row : Job.row) : option string :=
  status_icon <$> Job.Status row.

(** The number of fetched records whose glyph is the failure glyph. *)
Definition failed_count (jobs : list Job.row) : nat :=
  length (filter (fun row => glyph_of row = Some fail_glyph) jobs).

(** The glyph that the listing shows for [name]: the glyph of the last
    fetched record of that name, the failure glyph when there is none or
    when the status of that record is [NULL]. *)
Fixpoint shown_glyph (jobs : list Job.row) (name : string) : string :=
  match jobs with
  | [] => fail_glyph
  | row :: jobs' =>
      if bool_decide (name ∈ map Job.Display jobs') then shown_glyph jobs' name
      else if String.eqb (Job.Display row) name
           then default fail_glyph (glyph_of row)
           else fail_glyph
  end.

(** Whether an environment is reported up by the service check: its
    [.bat] file ran to the end and printed the sentence looked for. *)
Definition pc_up (h : Host) (env bat_file : string) : bool :=
  match subprocess_run h env bat_file with
  | Completed out err =>
      contains "Integration Service is alive" (or_empty out +:+ or_empty err)
  | TimeoutExpired => false
  | RunError _ => false
  end.

(** The run of the [.bat] file timed out or raised. *)
Definition pc_probe_fails (h : Host) (env bat_file : string) : Prop :=
  subprocess_run h env bat_file = TimeoutExpired \/
  exists e, subprocess_run h env bat_file = RunError e.

(** Reading the resource of the [i]-th deployment raises: the post
    itself, or the decoding of a body that came with status 200. *)
Definition read_raises (h : Host) (env : string) (creds : Creds) (i : nat)
  (dep : string) : Prop :=
  (exists e, jboss_read h env creds i dep = HttpError e) \/
  (exists e, jboss_read h env creds i dep = Response 200 (Raise e)).

(** The health probe of an MDM environment fails: the listing post
    raises (a time-out is raised too), or answers with a status other
    than 200, or its body cannot be decoded, or the post for one of the
    listed deployments raises. *)
Inductive mdm_probe_fails (h : Host) (env : string) (creds : Creds) : Prop :=
| listing_raised e :
    jboss_list h env creds = HttpError e -> mdm_probe_fails h env creds
| listing_not_200 status_code body :
    jboss_list h env creds = Response status_code body ->
    status_code <> 200 -> mdm_probe_fails h env creds
| listing_undecodable e :
    jboss_list h env creds = Response 200 (Raise e) ->
    mdm_probe_fails h env creds
| deployment_raised deps i dep :
    jboss_list h env creds = Response 200 (Ok deps) ->
    deps !! i = Some dep -> read_raises h env creds i dep ->
    mdm_probe_fails h env creds.

(** A bounded check of [p] on the [fuel] integers from [i] on, run by
    evaluation. *)
Fixpoint holds_upto (fuel : nat) (i : Z) (p : Z -> bool) : bool :=
  match fuel with
  | O => true
  | S k => if p i then holds_upto k (i + 1) p else false
  end.

(** What is checked of the day at offset [r] of the first 400-year
    cycle: the date found for it has that ordinal and is a date of the
    calendar, and only the last 366 days lie in the year 400. *)
Definition cycle_ok (r : Z) : bool :=
  let '(y, m, d) := ord2ymd_cycle 1 r in
  (ymd2ord y m d =? r + 1) && (1 <=? y) && (y <=? 400)
  && (implb (r <=? 145730) (y <=? 399))
  && (1 <=? m) && (m <=? 12) && (1 <=? d) && (d <=? days_in_month y m).

(** The last day of the year [y] is not after the last ordinal. *)
Definition year_ok (y : Z) : bool :=
  days_before_year y + (if is_leap y then 366 else 365) <=? MAXORDINAL.

End Spec.

(* ===================================================================== *)
(** ** Sample surroundings for the examples *)
(* ===================================================================== *)

Module Sample.
Import PyStr PyDatetime Effects Monitor.

Definition config : Config :=
  mkConfig "dev.bat" "sit.bat" "prd.bat"
           "https://teams.example/post" "https://teams.example/chat"
           "https://sit.example:9990/management" "monitor" "secret"
           "https://prd.example:9990/management" "monitor" "secret".

(** The morning of 2024-03-10, 06:00:00. *)
Definition six_in_the_morning : datetime := mkDatetime 2024 3 10 6 0 0 0.

Definition on_9th (h mi : Z) : option datetime := Some (mkDatetime 2024 3 9 h mi 0 0).
Definition midnight_10th : option datetime := Some (mkDatetime 2024 3 10 0 0 0 0).

(** Four workflow runs and four sessions of the boundary night, started
    at 21:59, 22:00, 23:59 and 00:00. *)
Definition boundary_pc_db : PcDatabase :=
  mkPcDatabase String.eqb
    [REP_WFLOW_RUN.mk "GLENCORE_HR_PROD" "wf_2159" 1 (on_9th 21 59) (on_9th 22 10) 1;
     REP_WFLOW_RUN.mk "GLENCORE_HR_PROD" "wf_2200" 2 (on_9th 22 0) (on_9th 22 10) 1;
     REP_WFLOW_RUN.mk "GLENCORE_HR_PROD" "wf_2359" 3 (on_9th 23 59) midnight_10th 3;
     REP_WFLOW_RUN.mk "GLENCORE_HR_PROD" "wf_0000" 4 midnight_10th None 6]
    [REP_SESS_LOG.mk "<modify this>" "wf_2159" 1 "s_2159" 1 (on_9th 21 59);
     REP_SESS_LOG.mk "<modify this>" "wf_2200" 2 "s_2200" 1 (on_9th 22 0);
     REP_SESS_LOG.mk "<modify this>" "wf_2359" 3 "s_2359" 3 (on_9th 23 59);
     REP_SESS_LOG.mk "<modify this>" "wf_0000" 4 "s_0000" 6 midnight_10th].

(** Four batch jobs started at the same four times. *)
Definition boundary_mdm_db : MdmDatabase :=
  mkMdmDatabase String.eqb
    [Job.mk "StgBatchGroupSAP" "STG_PARTY" (on_9th 21 59) (on_9th 22 0)
            (Some "Completed") "" 0;
     Job.mk "StgBatchGroupSAP" "STG_PARTY_REL" (on_9th 22 0) (on_9th 22 5)
            (Some "Completed") "" 0;
     Job.mk "BOBatchGroupSap" "Party" (on_9th 23 59) midnight_10th
            (Some "Completed") "" 0;
     Job.mk "BOBatchGroupSap" "Party Relationship" midnight_10th None
            (Some "Processing") "" 0].

(** Surroundings in which every service answers and is well; the
    answers of the Teams webhook are left open. *)
Definition host (teams : nat -> string -> string -> http_outcome string) : Host :=
  mkHost "Linux"
         (fun _ => six_in_the_morning)
         (fun _ _ => Completed (Some "Integration Service is alive") (Some EmptyString))
         (fun _ _ => Response 200 (Ok ["mdm-app.ear"]))
         (fun _ _ _ _ => Response 200 (Ok (mkRuntime (Some "OK") true)))
         (Ok boundary_pc_db) (Ok boundary_mdm_db)
         teams.

(** A webhook that accepts every post. *)
Definition teams_ok : nat -> string -> string -> http_outcome string :=
  fun _ _ _ => Response 200 "1".



(** Surroundings in which the DEV service check times out, the SIT
    listing raises and the PRD listing answers 503. *)
Definition unreachable_host : Host :=
  mkHost "Linux"
         (fun _ => six_in_the_morning)
         (fun env _ => if String.eqb env "DEV" then TimeoutExpired
                       else Completed (Some "Integration Service is alive") None)
         (fun env _ => if String.eqb env "SIT"
                       then HttpError (Exception "Read timed out")
                       else Response 503 (Raise (Exception "no body")))
         (fun _ _ _ _ => Response 200 (Ok (mkRuntime (Some "OK") true)))
         (Ok boundary_pc_db) (Ok boundary_mdm_db)
         teams_ok.

(** The same surroundings on Windows. *)
Definition windows_host : Host :=
  mkHost "Windows"
         (fun _ => six_in_the_morning)
         (fun _ _ => Completed (Some "Integration Service is alive") (Some EmptyString))
         (fun _ _ => Response 200 (Ok ["mdm-app.ear"]))
         (fun _ _ _ _ => Response 200 (Ok (mkRuntime (Some "OK") true)))
         (Ok boundary_pc_db) (Ok boundary_mdm_db)
         teams_ok.

(** A trace of a run that has already printed and read the clock. *)
Definition later_trace : Trace := mkTrace ["Checking PowerCenter services"] [] 3.

End Sample.

(* ===================================================================== *)
(** ** Start-up validation of the environment *)
(* ===================================================================== *)

Module Startup.
Import PyStr Effects.

Definition REQUIRED_VARS : list string :=
  ["PMCMD_PATH"; "BAT_DEV"; "BAT_SIT"; "BAT_PRD";
   "WEBHOOK_POST"; "WEBHOOK_CHAT";
   "DB_SERVER"; "DB_SCHEMA_PC"; "DB_USER_PC"; "DB_PASS_PC";
   "DB_SCHEMA_MDM"; "DB_USER_MDM"; "DB_PASS_MDM";
   "SIT_JBOSS_URL"; "SIT_JBOSS_USER"; "SIT_JBOSS_PASS";
   "PRD_JBOSS_URL"; "PRD_JBOSS_USER"; "PRD_JBOSS_PASS"].

(** [os.getenv(var)] on the environment of the process, after the
    [.env] file has been loaded into it. *)
Definition getenv (environ : gmap string string) (var : string) : option string :=
  environ !! var.

(** [not value] for the result of [os.getenv]: [None] and the empty
    string are falsy. *)
Definition is_falsy (value : option string) : bool :=
  match value with
  | None => true
  | Some EmptyString => true
  | Some (String _ _) => false
  end.

(** [[var for var in REQUIRED_VARS if not os.getenv(var)]] *)
Definition missing_vars (environ : gmap string string) : list string :=
  List.filter (fun var => is_falsy (getenv environ var)) REQUIRED_VARS.

Definition validate_env (environ : gmap string string) : M unit :=
  let missing_vars := missing_vars environ in
  match missing_vars with
  | _ :: _ =>
      raise (Exception
               ("❌ Missing required environment variables: "
                +:+ join ", " missing_vars +:+ nl
                +:+ "➡️ Please check your .env file."))
  | [] => print "✅ All required environment variables are loaded."
  end.

(** The configuration that the script reads after the validation, by
    the [os.getenv] calls at the top of the module; [None] when one of
    the variables is not set, where [os.getenv] gives [None], a value
    outside the strings of [Config]. *)
Definition load_config (environ : gmap string string) : option Monitor.Config :=
  bat_dev ← getenv environ "BAT_DEV";
  bat_sit ← getenv environ "BAT_SIT";
  bat_prd ← getenv environ "BAT_PRD";
  webhook_post ← getenv environ "WEBHOOK_POST";
  webhook_chat ← getenv environ "WEBHOOK_CHAT";
  sit_jboss_url ← getenv environ "SIT_JBOSS_URL";
  sit_jboss_user ← getenv environ "SIT_JBOSS_USER";
  sit_jboss_pass ← getenv environ "SIT_JBOSS_PASS";
  prd_jboss_url ← getenv environ "PRD_JBOSS_URL";
  prd_jboss_user ← getenv environ "PRD_JBOSS_USER";
  prd_jboss_pass ← getenv environ "PRD_JBOSS_PASS";
  Some (Monitor.mkConfig bat_dev bat_sit bat_prd webhook_post webhook_chat
                         sit_jboss_url sit_jboss_user sit_jboss_pass
                         prd_jboss_url prd_jboss_user prd_jboss_pass).

End Startup.

(* ===================================================================== *)
(** ** The PowerCenter dashboard: window and metric cards *)
(* ===================================================================== *)

(** The part of [load_pc_data] of [usage/pc_jobs.py] between the two
    queries and the figures: the dashboard window, the two frames of
    today and the counts shown on the cards. *)
Module PcJobs.
Import PyStr PyDatetime Effects Monitor.

Definition status_colors : gmap string string :=
  list_to_map
    [("Succeeded", "green"); ("Disabled", "grey"); ("Failed", "red");
     ("Stopped", "red"); ("Aborted", "red"); ("Terminated", "red");
     ("Running", "yellow")].

(** The numbers of the heat map; [0.0], [0.5], [0.75] and [1.0] are
    exact as floats and are written as the rationals they are. *)
Definition status_to_num : gmap string QArith_base.Q :=
  list_to_map
    [("Failed", QArith_base.Qmake 0 1);
     ("Stopped", QArith_base.Qmake 0 1);
     ("Aborted", QArith_base.Qmake 0 1);
     ("Terminated", QArith_base.Qmake 0 1);
     ("Running", QArith_base.Qmake 1 2);
     ("Disabled", QArith_base.Qmake 3 4);
     ("Succeeded", QArith_base.Qmake 1 1)].

(** The stops of the colour scale of the heat map. *)
Definition colorscale : list (QArith_base.Q * string) :=
  [(QArith_base.Qmake 0 1, "red");
   (QArith_base.Qmake 1 2, "yellow");
   (QArith_base.Qmake 3 4, "grey");
   (QArith_base.Qmake 1 1, "green")].

(** A row of the workflow frame [df_wf], with the columns of the select
    list; a time that is [None] is [NaT]. *)
Module Wf.
Record row := mk {
  Folder : string;
  Workflow : string;
  RunID : Z;
  START_TIME : option datetime;
  END_TIME : option datetime;
  Duration : option Z;
  Status : string;
  ErrCode : Z;
  ErrMsg : option string;
  UserName : string
}.
End Wf.

(** A row of the session frame [df_sess]. *)
Module Sess.
Record row := mk {
  Folder : string;
  Workflow : string;
  RunID : Z;
  SessionName : string;
  Status : string;
  ActualStart : option datetime;
  SuccessfulRows : Z
}.
End Sess.

(** [d - timedelta(days=n)] on the date of [dt]: the date with the
    ordinal [n] less, [None] for the [OverflowError] outside the years
    1..9999. *)
Definition date_minus_days (dt : datetime) (n : Z) : option (Z * Z * Z) :=
  let o := toordinal dt + - n in
  if (0 <? o) && (o <=? MAXORDINAL) then Some (ord2ymd o) else None.

(** [datetime.combine(date, time(h, 0))] *)
Definition combine (date : Z * Z * Z) (h : Z) : datetime :=
  let '(y, m, d) := date in mkDatetime y m d h 0 0 0.

(** [start_time] and [end_time]: 22:00 of the day before and 10:00 of
    the day of [now]. *)
Definition window (now : datetime) : option (datetime * datetime) :=
  match date_minus_days now 1 with
  | Some yesterday =>
      Some (combine yesterday 22,
            combine (year now, month now, day now) 10)
  | None => None
  end.

(** A comparison of a column value with a bound; with [NaT] it is
    false. *)
Definition ge (v : option datetime) (bound : datetime) : bool :=
  match v with
  | Some t => dt_leb bound t
  | None => false
  end.

Definition le (v : option datetime) (bound : datetime) : bool :=
  match v with
  | Some t => dt_leb t bound
  | None => false
  end.

(** [df_wf[(df_wf['START_TIME'] >= start_time) & (df_wf['START_TIME'] <= end_time)]] *)
Definition df_today (df_wf : list Wf.row) (start_time end_time : datetime)
  : list Wf.row :=
  List.filter (fun r => ge (Wf.START_TIME r) start_time
                        && le (Wf.START_TIME r) end_time) df_wf.

(** [df_sess[df_sess['ActualStart'].between(start_time, end_time)]] *)
Definition df_sess_today (df_sess : list Sess.row) (start_time end_time : datetime)
  : list Sess.row :=
  List.filter (fun r => ge (Sess.ActualStart r) start_time
                        && le (Sess.ActualStart r) end_time) df_sess.

(** The counts of the cards. *)
Record Metrics := mkMetrics {
  total_runs : nat;
  successes : nat;
  failures : nat;
  total_sessions : nat;
  failed_sessions : nat
}.

Definition metrics (df_wf : list Wf.row) (df_sess : list Sess.row)
  (start_time end_time : datetime) : Metrics :=
  let df_today := df_today df_wf start_time end_time in
  let df_sess_today := df_sess_today df_sess start_time end_time in
  mkMetrics
    (length df_today)
    (length (List.filter (fun r => String.eqb (Wf.Status r) "Succeeded") df_today))
    (length (List.filter (fun r => String.eqb (Wf.Status r) "Failed") df_today))
    (length df_sess_today)
    (length (List.filter (fun r => String.eqb (Sess.Status r) "Failed") df_sess_today)).

End PcJobs.

(* ===================================================================== *)
(** ** Vocabulary of the further statements, and their surroundings *)
(* ===================================================================== *)

Module Vocabulary.
Import PyStr PyDatetime Effects Monitor.

(** The listed deployments, from position [i] on, whose resource post
    is answered with status 200, each with the resource answered. *)
Fixpoint answered (h : Host) (env : string) (creds : Creds) (i : nat)
  (deps : list string) : list (string * DeploymentRuntime) :=
  match deps with
  | [] => []
  | dep :: deps' =>
      match jboss_read h env creds i dep with
      | Response status_code (Ok result) =>
          if status_code =? 200
          then (dep, result) :: answered h env creds (S i) deps'
          else answered h env creds (S i) deps'
      | _ => answered h env creds (S i) deps'
      end
  end.

(** A resource with the status [OK] that is enabled. *)
Definition healthy (rt : DeploymentRuntime) : bool :=
  match runtime_status rt with
  | Some v => String.eqb v "OK"
  | None => false
  end && runtime_enabled rt.

(** The row of a deployment shows what its resource says: the success
    glyph under Status exactly for the status [OK], and under Enabled
    exactly when the resource is enabled. *)
Definition row_shows (row : Dep.row) (rt : DeploymentRuntime) : Prop :=
  (Dep.Status row = ok_glyph <-> runtime_status rt = Some "OK") /\
  (Dep.Status row = ok_glyph \/ Dep.Status row = fail_glyph) /\
  (Dep.Enabled row = ok_glyph <-> runtime_enabled rt = true) /\
  (Dep.Enabled row = ok_glyph \/ Dep.Enabled row = fail_glyph).

(** What a computation adds to the posts: the targets of its new posts
    are [targets] when it returns, and the first of them when it
    raises. *)
Definition posts_to {A : Type} (targets : list string) (c : M A) : Prop :=
  forall t, exists new,
    posts (snd (c t)) = posts t ++ new /\
    match fst (c t) with
    | Ok _ => map fst new = targets
    | Raise _ => map fst new `prefix_of` targets
    end.

(** A computation that, when it returns, has printed [line] last. *)
Definition ends_with {A : Type} (line : string) (c : M A) : Prop :=
  forall t a t', c t = (Ok a, t') -> last (stdout t') = Some line.



(** The part of [monitor] inside the [try]. *)
Definition cycle_body (cfg : Config) (h : Host) : M unit :=
  pc_service <- check_pc_service cfg h ;;
  mdm_apps <- check_mdm_apps cfg h ;;
  fetched <- get_recent_workflows_and_sessions h ;;
  let workflows := fst fetched in
  let sessions := snd fetched in
  jobs <- get_recent_jobs h ;;
  pc_chat <- format_pc_chat h pc_service workflows sessions false ;;
  mdm_chat <- format_mdm_chat h mdm_apps jobs false ;;
  send_to_teams h (WEBHOOK_CHAT cfg) pc_chat ;;;
  send_to_teams h (WEBHOOK_CHAT cfg) mdm_chat ;;;
  pc_summary <- format_pc_summary h pc_service workflows sessions ;;
  mdm_summary <- format_mdm_summary h mdm_apps jobs ;;
  send_to_teams h (WEBHOOK_POST cfg) pc_summary ;;;
  send_to_teams h (WEBHOOK_POST cfg) mdm_summary ;;;
  print "✅ Monitoring complete and sent to Teams.".

(** The values of a configuration. *)
Definition config_values (cfg : Config) : list string :=
  [BAT_DEV cfg; BAT_SIT cfg; BAT_PRD cfg; WEBHOOK_POST cfg; WEBHOOK_CHAT cfg;
   SIT_JBOSS_URL cfg; SIT_JBOSS_USER cfg; SIT_JBOSS_PASS cfg;
   PRD_JBOSS_URL cfg; PRD_JBOSS_USER cfg; PRD_JBOSS_PASS cfg].

(** The colour of the stop of the colour scale that sits at [num]. *)
Definition stop_colour (num : QArith_base.Q) : option string :=
  snd <$> List.find (fun stop => QArith_base.Qeq_bool stop.1 num)
                    PcJobs.colorscale.

(** The four targets of a cycle. *)
Definition cycle_targets (cfg : Config) : list string :=
  [WEBHOOK_CHAT cfg; WEBHOOK_CHAT cfg; WEBHOOK_POST cfg; WEBHOOK_POST cfg].

End Vocabulary.

Module Scenes.
Import PyStr PyDatetime Effects Monitor.

(** Surroundings in which each environment lists three deployments: the
    first is well, the resource of the second is answered with 404, and
    the third is answered with a failed, disabled resource. *)
Definition mixed_host : Host :=
  mkHost "Linux"
         (fun _ => Sample.six_in_the_morning)
         (fun _ _ => Completed (Some "Integration Service is alive") (Some EmptyString))
         (fun _ _ => Response 200 (Ok ["mdm-app.ear"; "gone.war"; "broken.war"]))
         (fun _ _ i _ =>
            match i with
            | 0%nat => Response 200 (Ok (mkRuntime (Some "OK") true))
            | 1%nat => Response 404 (Raise (Exception "no body"))
            | _ => Response 200 (Ok (mkRuntime (Some "FAILED") false))
            end)
         (Ok Sample.boundary_pc_db) (Ok Sample.boundary_mdm_db)
         Sample.teams_ok.

(** Surroundings in which the listings are answered, but no resource
    is: every post for a deployment is answered with 404. *)
Definition hollow_host : Host :=
  mkHost "Linux"
         (fun _ => Sample.six_in_the_morning)
         (fun _ _ => Completed (Some "Integration Service is alive") (Some EmptyString))
         (fun _ _ => Response 200 (Ok ["mdm-app.ear"; "gone.war"]))
         (fun _ _ _ _ => Response 404 (Raise (Exception "no body")))
         (Ok Sample.boundary_pc_db) (Ok Sample.boundary_mdm_db)
         Sample.teams_ok.

(** Surroundings in which the PowerCenter repository cannot be
    reached. *)
Definition pc_down_host : Host :=
  mkHost "Linux"
         (fun _ => Sample.six_in_the_morning)
         (fun _ _ => Completed (Some "Integration Service is alive") (Some EmptyString))
         (fun _ _ => Response 200 (Ok ["mdm-app.ear"]))
         (fun _ _ _ _ => Response 200 (Ok (mkRuntime (Some "OK") true)))
         (Raise (Exception "Login timeout expired")) (Ok Sample.boundary_mdm_db)
         Sample.teams_ok.

(** A repository whose sessions are filed under the subject area of
    their workflows, as the repository writes them. *)
Definition production_pc_db : PcDatabase :=
  mkPcDatabase String.eqb
    [REP_WFLOW_RUN.mk "GLENCORE_HR_PROD" "wf_2200" 2 (Sample.on_9th 22 0)
                      (Sample.on_9th 22 10) 1;
     REP_WFLOW_RUN.mk "GLENCORE_HR_PROD" "wf_2359" 3 (Sample.on_9th 23 59)
                      Sample.midnight_10th 3]
    [REP_SESS_LOG.mk "GLENCORE_HR_PROD" "wf_2200" 2 "s_2200" 1 (Sample.on_9th 22 0);
     REP_SESS_LOG.mk "GLENCORE_HR_PROD" "wf_2359" 3 "s_2359" 3 (Sample.on_9th 23 59)].

Definition production_host : Host :=
  mkHost "Linux"
         (fun _ => Sample.six_in_the_morning)
         (fun _ _ => Completed None (Some "Integration Service is alive"))
         (fun _ _ => Response 200 (Ok ["mdm-app.ear"]))
         (fun _ _ _ _ => Response 200 (Ok (mkRuntime (Some "OK") true)))
         (Ok production_pc_db) (Ok Sample.boundary_mdm_db)
         Sample.teams_ok.

(** An MDM database in which the job of 22:30 has a run status without
    a status type, so that its status is [NULL]. *)
Definition null_status_mdm_db : MdmDatabase :=
  mkMdmDatabase String.eqb
    [Job.mk "StgBatchGroupSAP" "STG_PARTY_REL" (Sample.on_9th 22 0)
            (Sample.on_9th 22 5) (Some "Completed") "" 0;
     Job.mk "BOBatchGroupSap" "Party" (Sample.on_9th 22 30) None None "" 0].

Definition null_status_host : Host :=
  mkHost "Linux"
         (fun _ => Sample.six_in_the_morning)
         (fun _ _ => Completed (Some "Integration Service is alive") (Some EmptyString))
         (fun _ _ => Response 200 (Ok ["mdm-app.ear"]))
         (fun _ _ _ _ => Response 200 (Ok (mkRuntime (Some "OK") true)))
         (Ok Sample.boundary_pc_db) (Ok null_status_mdm_db)
         Sample.teams_ok.

(** An environment of the process in which every required variable is
    set. *)
Definition full_environ : gmap string string :=
  list_to_map
    [("PMCMD_PATH", "C:/Informatica/pmcmd.exe");
     ("BAT_DEV", "dev.bat"); ("BAT_SIT", "sit.bat"); ("BAT_PRD", "prd.bat");
     ("WEBHOOK_POST", "https://teams.example/post");
     ("WEBHOOK_CHAT", "https://teams.example/chat");
     ("DB_SERVER", "sql.example"); ("DB_SCHEMA_PC", "pc_repo");
     ("DB_USER_PC", "pc_reader"); ("DB_PASS_PC", "secret");
     ("DB_SCHEMA_MDM", "mdm_ors"); ("DB_USER_MDM", "mdm_reader");
     ("DB_PASS_MDM", "secret");
     ("SIT_JBOSS_URL", "https://sit.example:9990/management");
     ("SIT_JBOSS_USER", "monitor"); ("SIT_JBOSS_PASS", "secret");
     ("PRD_JBOSS_URL", "https://prd.example:9990/management");
     ("PRD_JBOSS_USER", "monitor"); ("PRD_JBOSS_PASS", "secret")].

End Scenes.

(* ===================================================================== *)
(** ** Strings *)
(* ===================================================================== *)

Section StringFacts.
Import PyStr Spec.

Lemma append_nil_l (s : string) : EmptyString +:+ s = s.
Proof. reflexivity. Qed.

Lemma append_cons (c : ascii) (a b : string) :
  String c a +:+ b = String c (a +:+ b).
Proof. reflexivity. Qed.

Lemma string_app_assoc (a b c : string) : (a +:+ b) +:+ c = a +:+ (b +:+ c).
Proof.
  induction a as [|x a IH]; [reflexivity|].
  now rewrite !append_cons, IH.
Qed.

Lemma string_app_nil_r (a : string) : a +:+ EmptyString = a.
Proof.
  induction a as [|x a IH]; [reflexivity|].
  now rewrite append_cons, IH.
Qed.

Lemma prefix_spec (sub s : string) :
  String.prefix sub s = true <-> exists post, s = sub +:+ post.
Proof.
  revert s; induction sub as [|a sub IH]; intros s.
  - destruct s; simpl; split; eauto.
  - destruct s as [|b s]; simpl.
    + split; [discriminate | intros [post H]; discriminate].
    + destruct (ascii_dec a b) as [->|Hne].
      * rewrite IH. split; intros [post H]; exists post.
        -- now rewrite append_cons, H.
        -- rewrite append_cons in H. congruence.
      * split; [discriminate | intros [post H]].
        rewrite append_cons in H. congruence.
Qed.

Lemma contains_nil (sub : string) :
  contains sub EmptyString = String.prefix sub EmptyString.
Proof. unfold contains. apply orb_false_r. Qed.

Lemma contains_cons (sub : string) (c : ascii) (s : string) :
  contains sub (String c s) = String.prefix sub (String c s) || contains sub s.
Proof. reflexivity. Qed.

Lemma contains_spec (sub s : string) :
  contains sub s = true <-> exists pre post, s = pre +:+ sub +:+ post.
Proof.
  split.
  - induction s as [|c s IH].
    + rewrite contains_nil. intros H.
      apply prefix_spec in H as [post H]. exists EmptyString, post. exact H.
    + rewrite contains_cons, orb_true_iff. intros [H | H].
      * apply prefix_spec in H as [post H]. exists EmptyString, post. exact H.
      * destruct (IH H) as (pre & post & ->). exists (String c pre), post.
        reflexivity.
  - intros (pre & post & ->).
    induction pre as [|c pre IH].
    + rewrite append_nil_l.
      assert (String.prefix sub (sub +:+ post) = true) as Hp
        by (apply prefix_spec; eauto).
      destruct (sub +:+ post).
      * now rewrite contains_nil.
      * now rewrite contains_cons, Hp.
    + rewrite append_cons, contains_cons, IH. apply orb_true_r.
Qed.

Lemma lower_app (a b : string) : lower (a +:+ b) = lower a +:+ lower b.
Proof.
  induction a as [|x a IH]; [reflexivity|].
  rewrite append_cons. simpl. now rewrite append_cons, IH.
Qed.

Lemma lower_split (s a b : string) :
  lower s = a +:+ b ->
  exists a' b', s = a' +:+ b' /\ lower a' = a /\ lower b' = b.
Proof.
  revert s; induction a as [|x a IH]; intros s H.
  - exists EmptyString, s. auto.
  - rewrite append_cons in H.
    destruct s as [|c s]; simpl in H; [discriminate|].
    injection H as Hc Hs. destruct (IH _ Hs) as (a' & b' & -> & Ha & Hb).
    exists (String c a'), b'. simpl. rewrite Hc, Ha. auto.
Qed.

Lemma N_of_lower_char (c : ascii) :
  N_of_ascii (lower_char c)
  = if is_upper c then (N_of_ascii c + 32)%N else N_of_ascii c.
Proof.
  unfold lower_char. destruct (is_upper c) eqn:E; [|reflexivity].
  apply N_ascii_embedding. unfold is_upper in E.
  apply andb_true_iff in E as [_ E]. apply N.leb_le in E. lia.
Qed.

Lemma lower_char_fixed_not_upper (c : ascii) :
  lower_char c = c -> is_upper c = false.
Proof.
  intros H. destruct (is_upper c) eqn:E; [|reflexivity].
  apply (f_equal N_of_ascii) in H. rewrite N_of_lower_char, E in H. lia.
Qed.

Lemma lower_char_nocase (a b : ascii) :
  lower_char b = b -> (lower_char a = b <-> char_nocase a b).
Proof.
  intros Hb. split.
  - intros <-. unfold lower_char. destruct (is_upper a) eqn:E.
    + now apply upper_lower.
    + apply same_char.
  - intros H. destruct H as [c | c Hc | c Hc].
    + exact Hb.
    + unfold lower_char. now rewrite Hc.
    + apply lower_char_fixed_not_upper in Hb. congruence.
Qed.

Lemma lower_eq_nocase (mid word : string) :
  lower word = word -> (lower mid = word <-> eq_nocase mid word).
Proof.
  revert mid; induction word as [|b word IH]; intros mid Hw.
  - destruct mid; simpl; split; intros H; try constructor;
      try discriminate; inversion H.
  - simpl in Hw. injection Hw as Hb Hw.
    destruct mid as [|a mid]; simpl.
    + split; intros H; [discriminate | inversion H].
    + split.
      * intros H. injection H as Ha Hm. constructor.
        -- now apply lower_char_nocase.
        -- now apply IH.
      * intros H. inversion H; subst. f_equal.
        -- now apply lower_char_nocase.
        -- now apply IH.
Qed.

Lemma contains_lower_nocase (word s : string) :
  lower word = word ->
  (contains word (lower s) = true <-> contains_nocase word s).
Proof.
  intros Hw. rewrite contains_spec. split.
  - intros (pre & post & H).
    apply lower_split in H as (pre' & rest & -> & _ & H).
    apply lower_split in H as (mid & post' & -> & Hm & _).
    exists pre', mid, post'. split; [reflexivity|].
    now apply lower_eq_nocase.
  - intros (pre & mid & post & -> & H).
    apply lower_eq_nocase in H; [|exact Hw].
    exists (lower pre), (lower post). now rewrite !lower_app, H.
Qed.

End StringFacts.

(* ===================================================================== *)
(** ** The batch-job listing *)
(* ===================================================================== *)

Section JobFacts.
Import PyStr Effects Monitor Spec.

Lemma status_icon_ok (s : string) :
  status_icon s = ok_glyph <-> contains "completed" (lower s) = true.
Proof.
  unfold status_icon. destruct (contains "completed" (lower s)); split;
    (reflexivity || discriminate).
Qed.

Lemma status_icon_fail (s : string) :
  status_icon s = fail_glyph <-> contains "completed" (lower s) = false.
Proof.
  unfold status_icon. destruct (contains "completed" (lower s)); split;
    (reflexivity || discriminate).
Qed.

Lemma status_icon_glyph (s : string) :
  status_icon s = ok_glyph \/ status_icon s = fail_glyph.
Proof. unfold status_icon. destruct (contains _ _); auto. Qed.

(** The dictionary comprehension returns exactly when every status is a
    text, and raises the error of [None.lower()] otherwise. *)
Lemma enter_rows_known (jobs : list Job.row) :
  forall d, statuses_known jobs -> exists d', enter_rows d jobs = Ok d'.
Proof.
  induction jobs as [|r jobs IH]; intros d Hk; [now exists d|].
  apply Forall_cons in Hk as [Hr Hk]. cbn [enter_rows]. unfold status_text.
  destruct (Job.Status r) as [s|]; [apply IH, Hk | contradiction].
Qed.

Lemma enter_rows_ok (jobs : list Job.row) :
  forall d d', enter_rows d jobs = Ok d' -> statuses_known jobs.
Proof.
  induction jobs as [|r jobs IH]; intros d d' H; [constructor|].
  cbn [enter_rows] in H. unfold status_text in H.
  destruct (Job.Status r) as [s|] eqn:E; [|discriminate].
  constructor; [congruence | eapply IH, H].
Qed.

Lemma enter_rows_raise (jobs : list Job.row) :
  forall d e, enter_rows d jobs = Raise e -> e = no_lower.
Proof.
  induction jobs as [|r jobs IH]; intros d e H; [discriminate|].
  cbn [enter_rows] in H. unfold status_text in H.
  destruct (Job.Status r) as [s|]; [eapply IH, H | congruence].
Qed.

Lemma enter_rows_unknown (jobs : list Job.row) (d : gmap string string) :
  ~ statuses_known jobs -> enter_rows d jobs = Raise no_lower.
Proof.
  intros Hn. destruct (enter_rows d jobs) as [d'|e] eqn:E.
  - exfalso. apply Hn. eapply enter_rows_ok, E.
  - f_equal. eapply enter_rows_raise, E.
Qed.

Lemma enter_rows_cons (d d' : gmap string string) (r : Job.row)
  (jobs : list Job.row) :
  enter_rows d (r :: jobs) = Ok d' ->
  exists s, Job.Status r = Some s /\
            enter_rows (<[Job.Display r := status_icon s]> d) jobs = Ok d'.
Proof.
  cbn [enter_rows]. unfold status_text.
  destruct (Job.Status r) as [s|]; [eauto | discriminate].
Qed.

Lemma enter_rows_app (jobs1 jobs2 : list Job.row) :
  forall d,
    enter_rows d (jobs1 ++ jobs2)
    = match enter_rows d jobs1 with
      | Ok d1 => enter_rows d1 jobs2
      | Raise e => Raise e
      end.
Proof.
  induction jobs1 as [|r jobs1 IH]; intros d; [reflexivity|].
  cbn [app enter_rows]. destruct (status_text r); [apply IH | reflexivity].
Qed.

Lemma enter_rows_notin (jobs : list Job.row) (k : string) :
  forall d d',
    enter_rows d jobs = Ok d' -> k ∉ display_names jobs -> d' !! k = d !! k.
Proof.
  induction jobs as [|r jobs IH]; intros d d' H Hk; [now injection H as <-|].
  apply enter_rows_cons in H as (s & _ & H).
  unfold display_names in *. cbn [map] in Hk.
  rewrite not_elem_of_cons in Hk. destruct Hk as [Hr Hk].
  rewrite (IH _ _ H Hk). now apply lookup_insert_ne.
Qed.

Lemma enter_rows_agree (jobs : list Job.row) (k : string) :
  forall d1 d2 d1' d2',
    enter_rows d1 jobs = Ok d1' -> enter_rows d2 jobs = Ok d2' ->
    d1 !! k = d2 !! k -> d1' !! k = d2' !! k.
Proof.
  induction jobs as [|r jobs IH]; intros d1 d2 d1' d2' H1 H2 H.
  - injection H1 as <-. injection H2 as <-. exact H.
  - apply enter_rows_cons in H1 as (s1 & E1 & H1).
    apply enter_rows_cons in H2 as (s2 & E2 & H2).
    rewrite E1 in E2. injection E2 as <-.
    apply (IH _ _ _ _ H1 H2).
    destruct (decide (Job.Display r = k)) as [->|Hne].
    + now rewrite !lookup_insert_eq.
    + now rewrite !lookup_insert_ne.
Qed.

Lemma enter_rows_Some (jobs : list Job.row) (k g : string) :
  forall d d',
    enter_rows d jobs = Ok d' -> d' !! k = Some g ->
    d !! k = Some g \/
    exists r s, r ∈ jobs /\ Job.Display r = k /\ Job.Status r = Some s /\
                g = status_icon s.
Proof.
  induction jobs as [|r jobs IH]; intros d d' H Hg;
    [injection H as <-; now left|].
  apply enter_rows_cons in H as (s & Es & H).
  destruct (IH _ _ H Hg) as [Hd | (r' & s' & Hin & Hk & Hs & ->)].
  - destruct (decide (Job.Display r = k)) as [Heq|Hne].
    + rewrite <- Heq, lookup_insert_eq in Hd. injection Hd as <-.
      right. exists r, s. split; [apply list_elem_of_here | auto].
    + rewrite lookup_insert_ne in Hd by exact Hne. now left.
  - right. exists r', s'. split; [now apply list_elem_of_further | auto].
Qed.

(** What the dictionary holds for a name is the glyph that the listing
    shows for it. *)
Lemma shown_glyph_notin (jobs : list Job.row) (name : string) :
  name ∉ display_names jobs -> shown_glyph jobs name = fail_glyph.
Proof.
  unfold display_names. induction jobs as [|r jobs IH]; intros Hn; [reflexivity|].
  cbn [map] in Hn. rewrite not_elem_of_cons in Hn. destruct Hn as [Hr Hn].
  cbn [shown_glyph]. rewrite bool_decide_eq_false_2 by exact Hn.
  destruct (String.eqb_spec (Job.Display r) name) as [E|E]; [congruence | reflexivity].
Qed.

Lemma enter_rows_shown (jobs : list Job.row) (name : string) :
  forall d d',
    enter_rows d jobs = Ok d' -> name ∈ display_names jobs ->
    d' !! name = Some (shown_glyph jobs name).
Proof.
  unfold display_names.
  induction jobs as [|r jobs IH]; intros d d' H Hin; [inversion Hin|].
  apply enter_rows_cons in H as (s & Es & H).
  cbn [shown_glyph].
  destruct (decide (name ∈ map Job.Display jobs)) as [Hlater|Hlast].
  - rewrite bool_decide_eq_true_2 by exact Hlater. exact (IH _ _ H Hlater).
  - rewrite bool_decide_eq_false_2 by exact Hlast.
    cbn [map] in Hin. apply elem_of_cons in Hin as [-> | Hin]; [|contradiction].
    rewrite String.eqb_refl. unfold glyph_of. rewrite Es. cbn.
    rewrite (enter_rows_notin _ _ _ _ H Hlast). apply lookup_insert_eq.
Qed.

Lemma status_dict_known (jobs : list Job.row) :
  statuses_known jobs <-> exists d, status_dict jobs = Ok d.
Proof.
  split; [apply enter_rows_known | intros [d H]; eapply enter_rows_ok, H].
Qed.

Lemma status_dict_unknown (jobs : list Job.row) :
  ~ statuses_known jobs -> status_dict jobs = Raise no_lower.
Proof. apply enter_rows_unknown. Qed.

Lemma status_dict_shown (jobs : list Job.row) (d : gmap string string)
  (name : string) :
  status_dict jobs = Ok d ->
  default fail_glyph (d !! name) = shown_glyph jobs name.
Proof.
  intros H. destruct (decide (name ∈ display_names jobs)) as [Hin|Hn].
  - now rewrite (enter_rows_shown _ _ _ _ H Hin).
  - rewrite (enter_rows_notin _ _ _ _ H Hn), lookup_empty.
    symmetry. now apply shown_glyph_notin.
Qed.

Lemma status_dict_last (jobs1 : list Job.row) (r : Job.row) (jobs2 : list Job.row)
  (d : gmap string string) :
  status_dict (jobs1 ++ r :: jobs2) = Ok d ->
  Job.Display r ∉ display_names jobs2 ->
  exists s, Job.Status r = Some s /\
            d !! Job.Display r = Some (status_icon s).
Proof.
  unfold status_dict. rewrite enter_rows_app.
  destruct (enter_rows ∅ jobs1) as [d1|e]; [|discriminate].
  intros H Hn. apply enter_rows_cons in H as (s & Es & H).
  exists s. split; [exact Es|].
  rewrite (enter_rows_notin _ _ _ _ H Hn). apply lookup_insert_eq.
Qed.

Lemma status_dict_skip (jobs1 : list Job.row) (r : Job.row) (jobs2 : list Job.row)
  (d : gmap string string) :
  status_dict (jobs1 ++ r :: jobs2) = Ok d ->
  exists d',
    status_dict (jobs1 ++ jobs2) = Ok d' /\
    forall k, Job.Display r <> k -> d' !! k = d !! k.
Proof.
  unfold status_dict. rewrite !enter_rows_app.
  destruct (enter_rows ∅ jobs1) as [d1|e]; [|discriminate].
  intros H. pose proof H as H'. apply enter_rows_cons in H' as (s & Es & H').
  destruct (enter_rows_known jobs2 d1) as [d' Hd'].
  { apply enter_rows_ok in H. now apply Forall_cons in H as [_ H]. }
  exists d'. split; [exact Hd'|]. intros k Hk.
  apply (enter_rows_agree _ _ _ _ _ _ Hd' H'). now rewrite lookup_insert_ne.
Qed.

Lemma status_dict_Some (jobs : list Job.row) (d : gmap string string)
  (k g : string) :
  status_dict jobs = Ok d -> d !! k = Some g ->
  exists r s, r ∈ jobs /\ Job.Display r = k /\ Job.Status r = Some s /\
              g = status_icon s.
Proof.
  intros H Hg. destruct (enter_rows_Some _ _ _ _ _ H Hg) as [He | He]; [|exact He].
  rewrite lookup_empty in He. discriminate.
Qed.

Lemma status_dict_None (jobs : list Job.row) (d : gmap string string) (k : string) :
  status_dict jobs = Ok d -> (d !! k = None <-> k ∉ display_names jobs).
Proof.
  intros H. split.
  - intros Hnone Hin. rewrite (enter_rows_shown _ _ _ _ H Hin) in Hnone.
    discriminate.
  - intros Hn. rewrite (enter_rows_notin _ _ _ _ H Hn). apply lookup_empty.
Qed.

Lemma status_dict_nodup (jobs : list Job.row) (d : gmap string string)
  (r : Job.row) :
  status_dict jobs = Ok d -> NoDup (display_names jobs) -> r ∈ jobs ->
  exists s, Job.Status r = Some s /\
            d !! Job.Display r = Some (status_icon s).
Proof.
  intros H Hnd Hin. apply list_elem_of_split in Hin as (l1 & l2 & ->).
  apply (status_dict_last _ _ _ _ H). unfold display_names in *.
  rewrite fmap_app, fmap_cons in Hnd.
  apply NoDup_app in Hnd as (_ & _ & Hnd).
  now apply NoDup_cons in Hnd as [Hnd _].
Qed.

Lemma status_dict_perm (jobs jobs' : list Job.row) (d : gmap string string) :
  status_dict jobs = Ok d -> NoDup (display_names jobs) -> jobs' ≡ₚ jobs ->
  status_dict jobs' = Ok d.
Proof.
  intros H Hnd Hp.
  assert (NoDup (display_names jobs')) as Hnd'.
  { unfold display_names in *. now rewrite Hp. }
  assert (statuses_known jobs') as Hk'.
  { unfold statuses_known. rewrite Hp. eapply enter_rows_ok, H. }
  apply status_dict_known in Hk' as [d' H']. rewrite H'. f_equal.
  apply map_eq. intros k.
  destruct (d !! k) as [g|] eqn:E.
  - destruct (status_dict_Some _ _ _ _ H E) as (r & s & Hin & <- & Es & ->).
    destruct (status_dict_nodup _ _ r H' Hnd') as (s' & Es' & Hd');
      [now rewrite Hp|].
    rewrite Es in Es'. injection Es' as <-. exact Hd'.
  - apply (status_dict_None _ _ _ H) in E. apply (status_dict_None _ _ _ H').
    unfold display_names in *. now rewrite Hp.
Qed.

(** The sum returns exactly when every status is a text, and counts the
    records whose glyph is the failure glyph. *)
Lemma count_failed_known (jobs : list Job.row) :
  forall n, statuses_known jobs ->
            count_failed n jobs = Ok (n + failed_count jobs)%nat.
Proof.
  unfold failed_count.
  induction jobs as [|r jobs IH]; intros n Hk; [cbn; f_equal; lia|].
  apply Forall_cons in Hk as [Hr Hk]. cbn [count_failed]. unfold status_text.
  rewrite filter_cons.
  destruct (Job.Status r) as [s|] eqn:Es; [|contradiction].
  rewrite (IH _ Hk). f_equal.
  destruct (decide (glyph_of r = Some fail_glyph)) as [D|D];
    unfold glyph_of in D; rewrite Es in D; cbn in D.
  - injection D as D. apply status_icon_fail in D. rewrite D. cbn [length]. lia.
  - destruct (contains "completed" (lower s)) eqn:E; [lia|].
    exfalso. apply D. f_equal. now apply status_icon_fail.
Qed.

Lemma count_failed_unknown (jobs : list Job.row) :
  forall n, ~ statuses_known jobs -> count_failed n jobs = Raise no_lower.
Proof.
  induction jobs as [|r jobs IH]; intros n Hn; [exfalso; apply Hn; constructor|].
  cbn [count_failed]. unfold status_text.
  destruct (Job.Status r) as [s|] eqn:E; [|reflexivity].
  apply IH. intros Hk. apply Hn. constructor; [congruence | exact Hk].
Qed.

Lemma failed_jobs_known (jobs : list Job.row) :
  statuses_known jobs -> failed_jobs jobs = Ok (failed_count jobs).
Proof. intros Hk. unfold failed_jobs. now rewrite count_failed_known. Qed.

Lemma failed_count_app (jobs1 jobs2 : list Job.row) :
  failed_count (jobs1 ++ jobs2) = (failed_count jobs1 + failed_count jobs2)%nat.
Proof. unfold failed_count. now rewrite filter_app, length_app. Qed.

Lemma statuses_known_dec (jobs : list Job.row) :
  statuses_known jobs \/ ~ statuses_known jobs.
Proof. destruct (decide (statuses_known jobs)); auto. Qed.

Lemma foldl_append_map {A B : Type} (g : A -> B) (xs : list A) (acc : list B) :
  foldl (fun acc x => acc ++ [g x]) acc xs = acc ++ map g xs.
Proof.
  revert acc; induction xs as [|x xs IH]; intros acc; simpl.
  - now rewrite app_nil_r.
  - rewrite IH, <- app_assoc. reflexivity.
Qed.

Lemma ordered_results_map (d : gmap string string) :
  ordered_results d
  = map (fun job => job +:+ " | " +:+ default fail_glyph (d !! job)) CUSTOM_ORDER.
Proof. unfold ordered_results. now rewrite foldl_append_map. Qed.

Lemma CUSTOM_ORDER_NoDup : NoDup CUSTOM_ORDER.
Proof. apply (bool_decide_unpack (NoDup CUSTOM_ORDER)). vm_compute. reflexivity. Qed.

Lemma CUSTOM_ORDER_length : length CUSTOM_ORDER = 32%nat.
Proof. reflexivity. Qed.

Lemma Forall2_map_r_self {A B : Type} (P : A -> B -> Prop) (f : A -> B)
  (xs : list A) :
  (forall x, x ∈ xs -> P x (f x)) -> Forall2 P xs (map f xs).
Proof.
  induction xs as [|x xs IH]; intros H; simpl; constructor.
  - apply H. apply list_elem_of_here.
  - apply IH. intros y Hy. apply H. now apply list_elem_of_further.
Qed.

End JobFacts.

(* ===================================================================== *)
(** ** The text of the four reports *)
(* ===================================================================== *)

Section ReportText.
Import PyStr PyDatetime Effects Monitor Spec.

(** The pieces of a right-nested concatenation that stand before the
    piece [marker], and what is left after the first [n] pieces. *)
Ltac head_before marker text :=
  lazymatch text with
  | ?a +:+ (marker +:+ _) => constr:(a)
  | ?a +:+ ?rest => let h := head_before marker rest in constr:(a +:+ h)
  end.

Ltac drop_pieces n text :=
  lazymatch n with
  | O => constr:(text)
  | S ?k => lazymatch text with _ +:+ ?rest => drop_pieces k rest end
  end.

Lemma format_mdm_summary_text (h : Host) (jboss_data : list (string * list Dep.row))
  (jobs : list Job.row) (t : Trace) (d : gmap string string) (failed : nat) :
  status_dict jobs = Ok d -> failed_jobs jobs = Ok failed ->
  exists head t',
    format_mdm_summary h jboss_data jobs t =
    (Ok (head +:+ "Failed: " +:+ str_of_nat failed +:+ " / "
         +:+ str_of_nat (length jobs) +:+ nl +:+ nl
         +:+ "```" +:+ nl +:+ "Job Name | Status" +:+ nl
         +:+ "----------------------" +:+ nl
         +:+ join nl (ordered_results d) +:+ nl
         +:+ "```" +:+ nl +:+ nl), t').
Proof.
  intros Hd Hf. unfold format_mdm_summary.
  cbv [bind print lift datetime_now ret]. rewrite Hd, Hf. cbv beta iota.
  destruct (foldl _ _ jboss_data) as [env_summary_lines env_tables].
  lazymatch goal with
  | |- exists head t', (Ok ?text, ?tr) = _ =>
      let hd := head_before "Failed: " text in exists hd, tr
  end.
  rewrite !string_app_assoc. reflexivity.
Qed.

Lemma format_mdm_chat_terse_text (h : Host)
  (jboss_data : list (string * list Dep.row)) (jobs : list Job.row) (t : Trace)
  (d : gmap string string) (failed : nat) :
  status_dict jobs = Ok d -> failed_jobs jobs = Ok failed ->
  exists head t',
    format_mdm_chat h jboss_data jobs false t =
    (Ok (head +:+ "Failed: " +:+ str_of_nat failed +:+ " / "
         +:+ str_of_nat (length jobs) +:+ nl +:+ nl), t').
Proof.
  intros Hd Hf. unfold format_mdm_chat.
  cbv [bind lift get_date_str datetime_now ret]. rewrite Hd, Hf. cbv beta iota.
  destruct (foldl _ _ jboss_data) as [env_lines env_tables].
  lazymatch goal with
  | |- exists head t', (Ok ?text, ?tr) = _ =>
      let hd := head_before "Failed: " text in exists hd, tr
  end.
  rewrite !string_app_assoc. reflexivity.
Qed.

Lemma format_mdm_chat_detailed_text (h : Host)
  (jboss_data : list (string * list Dep.row)) (jobs : list Job.row) (t : Trace)
  (d : gmap string string) (failed : nat) :
  status_dict jobs = Ok d -> failed_jobs jobs = Ok failed ->
  exists head tables t',
    format_mdm_chat h jboss_data jobs true t =
    (Ok (head +:+ "Failed: " +:+ str_of_nat failed +:+ " / "
         +:+ str_of_nat (length jobs) +:+ nl +:+ nl
         +:+ tables +:+ "```" +:+ nl +:+ "Job Name | Status" +:+ nl
         +:+ join nl (ordered_results d) +:+ nl +:+ "```"), t').
Proof.
  intros Hd Hf. unfold format_mdm_chat.
  cbv [bind lift get_date_str datetime_now ret]. rewrite Hd, Hf. cbv beta iota.
  destruct (foldl _ _ jboss_data) as [env_lines env_tables].
  rewrite <- ordered_results_map.
  lazymatch goal with
  | |- exists head tables t', (Ok (?text +:+ _), ?tr) = _ =>
      let hd := head_before "Failed: " text in
      exists hd, (join nl env_tables +:+ nl +:+ nl), tr
  end.
  rewrite !string_app_assoc. reflexivity.
Qed.

(** With a record whose status is [NULL], the two builders raise the
    error of [None.lower()], the summary after its first line has been
    printed. *)
Lemma format_mdm_chat_raises (h : Host)
  (jboss_data : list (string * list Dep.row)) (jobs : list Job.row)
  (detailed : bool) (t : Trace) :
  ~ statuses_known jobs ->
  format_mdm_chat h jboss_data jobs detailed t = (Raise no_lower, t).
Proof.
  intros Hn. unfold format_mdm_chat. cbv [bind lift].
  now rewrite (status_dict_unknown _ Hn).
Qed.

Lemma format_mdm_summary_raises (h : Host)
  (jboss_data : list (string * list Dep.row)) (jobs : list Job.row) (t : Trace) :
  ~ statuses_known jobs ->
  format_mdm_summary h jboss_data jobs t
  = (Raise no_lower,
     mkTrace (stdout t ++ ["Formatting MDM summary"]) (posts t) (clock_reads t)).
Proof.
  intros Hn. unfold format_mdm_summary. cbv [bind lift print].
  now rewrite (status_dict_unknown _ Hn).
Qed.

Lemma failed_wf_count (workflows : list Workflow.row) :
  length (failed_wf workflows)
  = length (filter (fun wf => Workflow.Status wf <> "Succeeded") workflows).
Proof.
  unfold failed_wf. induction workflows as [|wf wfs IH]; [reflexivity|].
  simpl. rewrite filter_cons.
  destruct (String.eqb_spec (Workflow.Status wf) "Succeeded") as [E|E];
    destruct (decide (Workflow.Status wf <> "Succeeded")) as [D|D];
    simpl; try congruence.
  exfalso. apply D. exact E.
Qed.

Lemma failed_sess_count (sessions : list Session.row) :
  length (failed_sess sessions)
  = length (filter (fun s => Session.Status s <> "Succeeded") sessions).
Proof.
  unfold failed_sess. induction sessions as [|s ss IH]; [reflexivity|].
  simpl. rewrite filter_cons.
  destruct (String.eqb_spec (Session.Status s) "Succeeded") as [E|E];
    destruct (decide (Session.Status s <> "Succeeded")) as [D|D];
    simpl; try congruence.
  exfalso. apply D. exact E.
Qed.

Lemma format_pc_chat_text (h : Host) (service_status : list (string * bool))
  (workflows : list Workflow.row) (sessions : list Session.row)
  (detailed : bool) (t : Trace) :
  exists head tail t',
    format_pc_chat h service_status workflows sessions detailed t =
    (Ok (head
         +:+ "**Workflows Failed:** "
         +:+ str_of_nat (length (failed_wf workflows))
         +:+ " / " +:+ str_of_nat (length workflows) +:+ nl +:+ nl
         +:+ "**Sessions Failed:** "
         +:+ str_of_nat (length (failed_sess sessions))
         +:+ " / " +:+ str_of_nat (length sessions) +:+ nl +:+ nl
         +:+ tail), t').
Proof.
  unfold format_pc_chat.
  cbv [bind get_date_str datetime_now ret].
  destruct detailed.
  - lazymatch goal with
    | |- exists head tail t', (Ok (?text +:+ ?more), ?tr) = _ =>
        let hd := head_before "**Workflows Failed:** " text in
        exists hd, more, tr
    end.
    rewrite !string_app_assoc. reflexivity.
  - lazymatch goal with
    | |- exists head tail t', (Ok ?text, ?tr) = _ =>
        let hd := head_before "**Workflows Failed:** " text in
        exists hd, EmptyString, tr
    end.
    rewrite !string_app_assoc, string_app_nil_r. reflexivity.
Qed.

Lemma format_pc_summary_text (h : Host) (service_status : list (string * bool))
  (workflows : list Workflow.row) (sessions : list Session.row) (t : Trace) :
  exists head tail t',
    format_pc_summary h service_status workflows sessions t =
    (Ok (head
         +:+ "**Workflows" +:+ nl +:+ "Failed:** "
         +:+ str_of_nat (length (failed_wf workflows))
         +:+ " / " +:+ str_of_nat (length workflows) +:+ nl +:+ nl
         +:+ "**Sessions" +:+ nl +:+ "Failed:** "
         +:+ str_of_nat (length (failed_sess sessions))
         +:+ " / " +:+ str_of_nat (length sessions) +:+ nl +:+ nl
         +:+ tail), t').
Proof.
  unfold format_pc_summary.
  cbv [bind print datetime_now ret].
  lazymatch goal with
  | |- exists head tail t', (Ok ?text, ?tr) = _ =>
      let hd := head_before "**Workflows" text in
      let tl := drop_pieces 30%nat text in
      exists hd, tl, tr
  end.
  rewrite !string_app_assoc. reflexivity.
Qed.

Lemma run_status_case_succeeded (code : Z) :
  run_status_case code = "Succeeded" <-> code = 1.
Proof.
  unfold run_status_case.
  repeat (match goal with
          | |- context [?a =? ?b] => destruct (Z.eqb_spec a b)
          end);
    split; intros H; solve [subst; reflexivity | congruence | discriminate | lia].
Qed.

End ReportText.

(* ===================================================================== *)
(** ** Status normalisation *)
(* ===================================================================== *)

Section Normalisation.
Import PyStr PyDatetime Effects Monitor Spec.

(** C4.  The status code of a workflow or session run is normalised to
    Succeeded for 1, Disabled for 2, Failed for 3, Stopped for 4, Aborted
    for 5, Running for 6, Terminated for 15 and Unknown for every other
    integer; the workflow query and the session query both label their
    rows this way. *)
Theorem C4_status_code_table :
  run_status_case 1 = "Succeeded" /\
  run_status_case 2 = "Disabled" /\
  run_status_case 3 = "Failed" /\
  run_status_case 4 = "Stopped" /\
  run_status_case 5 = "Aborted" /\
  run_status_case 6 = "Running" /\
  run_status_case 15 = "Terminated" /\
  (forall code : Z,
      code <> 1 -> code <> 2 -> code <> 3 -> code <> 4 -> code <> 5 ->
      code <> 6 -> code <> 15 -> run_status_case code = "Unknown") /\
  (forall db p1 p2 row,
      row ∈ wf_query db p1 p2 ->
      exists run, run ∈ pc_REP_WFLOW_RUN db /\
                  Workflow.WORKFLOW_RUN_ID row = REP_WFLOW_RUN.WORKFLOW_RUN_ID run /\
                  Workflow.Status row
                  = run_status_case (REP_WFLOW_RUN.RUN_STATUS_CODE run)) /\
  (forall db p1 p2 row,
      row ∈ sess_query db p1 p2 ->
      exists s, s ∈ pc_REP_SESS_LOG db /\
                Session.SESSION_NAME row = REP_SESS_LOG.SESSION_NAME s /\
                Session.Status row
                = run_status_case (REP_SESS_LOG.RUN_STATUS_CODE s)).
Proof.
  repeat (split; [reflexivity|]).
  split; [|split].
  - intros code H1 H2 H3 H4 H5 H6 H15. unfold run_status_case.
    repeat (match goal with
            | |- context [?a =? ?b] => destruct (Z.eqb_spec a b); [contradiction|]
            end).
    reflexivity.
  - intros db p1 p2 row H. unfold wf_query in H.
    apply list_elem_of_fmap in H as (run & -> & H).
    apply list_elem_of_In, filter_In in H as [H _].
    exists run. split; [now apply list_elem_of_In | split; reflexivity].
  - intros db p1 p2 row H. unfold sess_query in H.
    apply list_elem_of_fmap in H as (s & -> & H).
    apply list_elem_of_In, filter_In in H as [H _].
    exists s. split; [now apply list_elem_of_In | split; reflexivity].
Qed.

(** A status code that the table does not know, 7, is labelled Unknown. *)
Lemma C4_status_code_table_witness : run_status_case 7 = "Unknown".
Proof.
  destruct C4_status_code_table as (_ & _ & _ & _ & _ & _ & _ & H & _).
  apply H; lia.
Defined.

End Normalisation.

(* ===================================================================== *)
(** ** The batch-job report *)
(* ===================================================================== *)

Section JobReport.
Import PyStr PyDatetime Effects Monitor Spec.

Lemma status_icon_ok_nocase (s : string) :
  status_icon s = ok_glyph <-> contains_nocase "completed" s.
Proof.
  rewrite status_icon_ok. now apply contains_lower_nocase.
Qed.

Lemma status_icon_fail_nocase (s : string) :
  status_icon s = fail_glyph <-> ~ contains_nocase "completed" s.
Proof.
  rewrite status_icon_fail, <- status_icon_ok_nocase, status_icon_ok.
  destruct (contains "completed" (lower s)); split; congruence.
Qed.

(** The glyph shown for a name is the glyph of the last record of that
    name. *)
Lemma shown_glyph_last (jobs1 : list Job.row) (r : Job.row) (jobs2 : list Job.row) :
  Job.Display r ∉ display_names jobs2 ->
  shown_glyph (jobs1 ++ r :: jobs2) (Job.Display r)
  = default fail_glyph (glyph_of r).
Proof.
  unfold display_names. intros Hn.
  induction jobs1 as [|x jobs1 IH]; cbn [app shown_glyph].
  - rewrite bool_decide_eq_false_2 by exact Hn. now rewrite String.eqb_refl.
  - rewrite bool_decide_eq_true_2; [exact IH|].
    rewrite map_app. apply elem_of_app. right. apply list_elem_of_here.
Qed.

Lemma shown_glyph_skip (jobs1 : list Job.row) (r : Job.row) (jobs2 : list Job.row)
  (name : string) :
  Job.Display r <> name ->
  shown_glyph (jobs1 ++ r :: jobs2) name = shown_glyph (jobs1 ++ jobs2) name.
Proof.
  intros Hne. induction jobs1 as [|x jobs1 IH]; cbn [app shown_glyph].
  - destruct (decide (name ∈ map Job.Display jobs2)) as [Hin|Hn].
    + now rewrite bool_decide_eq_true_2 by exact Hin.
    + rewrite bool_decide_eq_false_2 by exact Hn.
      destruct (String.eqb_spec (Job.Display r) name) as [E|_]; [contradiction|].
      symmetry. now apply shown_glyph_notin.
  - assert (name ∈ map Job.Display (jobs1 ++ r :: jobs2)
            <-> name ∈ map Job.Display (jobs1 ++ jobs2)) as Hiff.
    { rewrite !map_app. cbn [map]. rewrite !elem_of_app, elem_of_cons.
      split; [intros [H | [H | H]]; auto; congruence | intros [H | H]; auto]. }
    destruct (decide (name ∈ map Job.Display (jobs1 ++ jobs2))) as [Hin|Hn].
    + rewrite !bool_decide_eq_true_2 by tauto. exact IH.
    + rewrite !bool_decide_eq_false_2 by tauto. reflexivity.
Qed.

Lemma shown_glyph_glyph (jobs : list Job.row) (name : string) :
  shown_glyph jobs name = ok_glyph \/ shown_glyph jobs name = fail_glyph.
Proof.
  induction jobs as [|r jobs IH]; [now right|]. cbn [shown_glyph].
  destruct (bool_decide _); [exact IH|].
  destruct (String.eqb _ _); [|now right].
  unfold glyph_of. destruct (Job.Status r) as [s|]; [|now right].
  apply status_icon_glyph.
Qed.

Lemma shown_glyph_perm (jobs jobs' : list Job.row) (name : string) :
  NoDup (display_names jobs) -> jobs' ≡ₚ jobs ->
  shown_glyph jobs' name = shown_glyph jobs name.
Proof.
  intros Hnd Hp.
  assert (NoDup (display_names jobs')) as Hnd'.
  { unfold display_names in *. now rewrite Hp. }
  assert (forall l r, NoDup (display_names l) -> r ∈ l ->
                      shown_glyph l (Job.Display r)
                      = default fail_glyph (glyph_of r)) as Hone.
  { intros l r Hl Hin. apply list_elem_of_split in Hin as (l1 & l2 & ->).
    apply shown_glyph_last. unfold display_names in *.
    rewrite fmap_app, fmap_cons in Hl.
    apply NoDup_app in Hl as (_ & _ & Hl).
    now apply NoDup_cons in Hl as [Hl _]. }
  destruct (decide (name ∈ display_names jobs)) as [Hin|Hn].
  - unfold display_names in Hin. apply list_elem_of_fmap in Hin as (r & -> & Hin).
    rewrite (Hone jobs r Hnd Hin). apply Hone; [exact Hnd'|]. now rewrite Hp.
  - rewrite (shown_glyph_notin jobs name Hn). apply shown_glyph_notin.
    unfold display_names in *. now rewrite Hp.
Qed.

(** The listing that the builders print is the listing of the shown
    glyphs, one line for each name of the job order. *)
Lemma listing_shown (jobs : list Job.row) (d : gmap string string) :
  status_dict jobs = Ok d ->
  ordered_results d
  = map (fun name => listing_line name (shown_glyph jobs name)) CUSTOM_ORDER.
Proof.
  intros H. rewrite ordered_results_map. apply map_ext. intros name.
  unfold listing_line. now rewrite (status_dict_shown _ _ _ H).
Qed.

(** C3.  The glyph of a batch-job status text is the success glyph
    exactly when the text contains the word completed, the case of the
    letters ignored, and the failure glyph otherwise.  For records that
    all have a status text, the failed count of the MDM reports is the
    number of records whose glyph is the failure glyph, and the line of a
    name in the itemized listing of the detailed chat message and of the
    summary shows the glyph of the last fetched record of that name (the
    failure glyph when no record has the name). *)
Theorem C3_completed_decides_glyph_and_count :
  (forall s, status_icon s = ok_glyph <-> contains_nocase "completed" s) /\
  (forall s, status_icon s = fail_glyph <-> ~ contains_nocase "completed" s) /\
  (forall jobs,
      statuses_known jobs ->
      let failed :=
        length (filter (fun row => status_icon <$> Job.Status row
                                   = Some fail_glyph) jobs) in
      let listing :=
        map (fun name => listing_line name (shown_glyph jobs name))
            CUSTOM_ORDER in
      (forall name, name ∉ display_names jobs ->
                    shown_glyph jobs name = fail_glyph) /\
      (forall jobs1 r jobs2 s,
          jobs = jobs1 ++ r :: jobs2 ->
          Job.Display r ∉ display_names jobs2 ->
          Job.Status r = Some s ->
          shown_glyph jobs (Job.Display r) = status_icon s) /\
      failed_jobs jobs = Ok failed /\
      forall h jboss_data t,
        (exists head t',
            format_mdm_chat h jboss_data jobs false t =
            (Ok (head +:+ "Failed: " +:+ str_of_nat failed +:+ " / "
                 +:+ str_of_nat (length jobs) +:+ nl +:+ nl), t')) /\
        (exists head tables t',
            format_mdm_chat h jboss_data jobs true t =
            (Ok (head +:+ "Failed: " +:+ str_of_nat failed +:+ " / "
                 +:+ str_of_nat (length jobs) +:+ nl +:+ nl
                 +:+ tables +:+ "```" +:+ nl +:+ "Job Name | Status" +:+ nl
                 +:+ join nl listing +:+ nl +:+ "```"), t')) /\
        (exists head t',
            format_mdm_summary h jboss_data jobs t =
            (Ok (head +:+ "Failed: " +:+ str_of_nat failed +:+ " / "
                 +:+ str_of_nat (length jobs) +:+ nl +:+ nl
                 +:+ "```" +:+ nl +:+ "Job Name | Status" +:+ nl
                 +:+ "----------------------" +:+ nl
                 +:+ join nl listing +:+ nl
                 +:+ "```" +:+ nl +:+ nl), t'))).
Proof.
  split; [exact status_icon_ok_nocase|].
  split; [exact status_icon_fail_nocase|].
  intros jobs Hk. cbv zeta.
  pose proof (failed_jobs_known jobs Hk) as Hf.
  destruct (proj1 (status_dict_known jobs) Hk) as [d Hd].
  split; [intros name; apply shown_glyph_notin|].
  split.
  { intros jobs1 r jobs2 s -> Hn Hs.
    rewrite shown_glyph_last by exact Hn. unfold glyph_of. now rewrite Hs. }
  split; [exact Hf|].
  intros h jboss_data t. rewrite <- (listing_shown jobs d Hd).
  split; [exact (format_mdm_chat_terse_text h jboss_data jobs t d _ Hd Hf)|].
  split; [exact (format_mdm_chat_detailed_text h jboss_data jobs t d _ Hd Hf)
         | exact (format_mdm_summary_text h jboss_data jobs t d _ Hd Hf)].
Qed.

(** The status texts of the two kinds, as the glyph rule reads them. *)
Example C3_examples :
  status_icon "Completed" = ok_glyph /\
  status_icon "Batch COMPLETED with 3 rejected records" = ok_glyph /\
  status_icon "Complete" = fail_glyph /\
  status_icon "Failed" = fail_glyph /\
  status_icon EmptyString = fail_glyph.
Proof. repeat split. Qed.

(** The text COMPLETED in capitals, between other words, contains the
    word; its glyph is the success glyph, and for the one record with
    that text the listing shows the success glyph and none is counted
    as failed. *)
Lemma C3_completed_decides_glyph_and_count_witness :
  let row := Job.mk "BOBatchGroupSap" "Party" None None
                    (Some "Batch COMPLETED ok") "" 0 in
  status_icon "Batch COMPLETED ok" = ok_glyph /\
  shown_glyph [row] "Party" = ok_glyph /\
  failed_jobs [row] = Ok 0%nat.
Proof.
  intros row.
  destruct C3_completed_decides_glyph_and_count as (Hok & _ & Hjobs).
  assert (status_icon "Batch COMPLETED ok" = ok_glyph) as Hglyph.
  { apply Hok. exists "Batch ", "COMPLETED", " ok". split; [reflexivity|].
    repeat (apply eq_nocase_cons;
            [match goal with
             | |- char_nocase ?a _ => exact (upper_lower a eq_refl)
             end|]).
    apply eq_nocase_nil. }
  destruct (Hjobs [row]) as (_ & Hlast & Hfailed & _).
  - repeat constructor. discriminate.
  - split; [exact Hglyph|]. split.
    + rewrite <- Hglyph.
      apply (Hlast [] row [] "Batch COMPLETED ok");
        [reflexivity | apply not_elem_of_nil | reflexivity].
    + exact Hfailed.
Defined.

Lemma listing_lines (jobs : list Job.row) :
  Forall2 (fun name line =>
             exists g, line = listing_line name g /\
                       (g = ok_glyph \/ g = fail_glyph) /\
                       (name ∉ display_names jobs -> g = fail_glyph))
          CUSTOM_ORDER
          (map (fun name => listing_line name (shown_glyph jobs name))
               CUSTOM_ORDER).
Proof.
  apply Forall2_map_r_self. intros name _.
  exists (shown_glyph jobs name). split; [reflexivity|].
  split; [apply shown_glyph_glyph | apply shown_glyph_notin].
Qed.

(** C1.  For fetched records that all have a status text, the detailed
    MDM report prints, after the failed and total counts, one line for
    each name of the job order, in the order of that list: the line of a
    name is the name and a glyph, the failure glyph when no fetched record
    has the name.  With records of pairwise different names the listing
    is the same for every order of the records.  A record whose name is
    not in the job order changes no line of the listing, and the total
    printed is the number of fetched records, that record included. *)
Theorem C1_listing_follows_job_order (jobs : list Job.row) :
  statuses_known jobs ->
  let listing :=
    map (fun name => listing_line name (shown_glyph jobs name)) CUSTOM_ORDER in
  (exists d failed,
      status_dict jobs = Ok d /\ failed_jobs jobs = Ok failed /\
      ordered_results d = listing /\
      forall h jboss_data t,
      exists head t',
        format_mdm_summary h jboss_data jobs t =
        (Ok (head +:+ "Failed: " +:+ str_of_nat failed +:+ " / "
             +:+ str_of_nat (length jobs) +:+ nl +:+ nl
             +:+ "```" +:+ nl +:+ "Job Name | Status" +:+ nl
             +:+ "----------------------" +:+ nl
             +:+ join nl listing +:+ nl
             +:+ "```" +:+ nl +:+ nl), t')) /\
  NoDup CUSTOM_ORDER /\
  length listing = length CUSTOM_ORDER /\
  Forall2 (fun name line =>
             exists g, line = listing_line name g /\
                       (g = ok_glyph \/ g = fail_glyph) /\
                       (name ∉ display_names jobs -> g = fail_glyph))
          CUSTOM_ORDER listing /\
  (forall jobs',
      jobs' ≡ₚ jobs -> NoDup (display_names jobs) ->
      exists d', status_dict jobs' = Ok d' /\ ordered_results d' = listing) /\
  (forall jobs1 r jobs2,
      jobs = jobs1 ++ r :: jobs2 -> Job.Display r ∉ CUSTOM_ORDER ->
      (exists d', status_dict (jobs1 ++ jobs2) = Ok d' /\
                  ordered_results d' = listing) /\
      length jobs = S (length (jobs1 ++ jobs2))).
Proof.
  intros Hk listing. subst listing.
  pose proof (failed_jobs_known jobs Hk) as Hf.
  destruct (proj1 (status_dict_known jobs) Hk) as [d Hd].
  split.
  { exists d, (failed_count jobs). split; [exact Hd|]. split; [exact Hf|].
    split; [now apply listing_shown|].
    intros h jboss_data t. rewrite <- (listing_shown jobs d Hd).
    exact (format_mdm_summary_text h jboss_data jobs t d _ Hd Hf). }
  split; [exact CUSTOM_ORDER_NoDup|].
  split; [apply length_map|].
  split; [apply listing_lines|].
  split.
  - intros jobs' Hp Hnd. exists d.
    split; [exact (status_dict_perm jobs jobs' d Hd Hnd Hp)|].
    now apply listing_shown.
  - intros jobs1 r jobs2 -> Hr. split.
    + destruct (status_dict_skip jobs1 r jobs2 d Hd) as (d' & Hd' & _).
      exists d'. split; [exact Hd'|].
      rewrite (listing_shown _ _ Hd'). apply map_ext_in.
      intros name Hname. f_equal. symmetry. apply shown_glyph_skip.
      intros Heq. apply Hr. rewrite Heq. now apply list_elem_of_In.
    + rewrite !length_app. simpl. lia.
Qed.

(** The job order [A, B, C] of the specification read on the first names
    of the list: records fetched for the third and the first name give
    the glyphs of the first and third lines, the second line has the
    failure glyph, and two records are counted. *)
Example C1_two_of_three :
  let jobs := [Job.mk "BOBatchGroupSap" "Party Source ID" None None
                      (Some "Completed") "" 0;
               Job.mk "BOBatchGroupSap" "Party" None None
                      (Some "Completed") "" 0] in
  match status_dict jobs with
  | Ok d => firstn 3 (ordered_results d)
  | Raise _ => []
  end
  = ["Party | ✅"; "Party Relationship | ❌"; "Party Source ID | ✅"]
  /\ length jobs = 2%nat.
Proof. split; reflexivity. Qed.

(** Three records, the second with a name that is not in the job order:
    the listing is the one of the other two records, three records are
    counted, and fetching the first two in the other order gives the
    same listing. *)
Lemma C1_listing_follows_job_order_witness :
  let a := Job.mk "BOBatchGroupSap" "Party Source ID" None None
                  (Some "Completed") "" 0 in
  let w := Job.mk "TokenMatchMergeGrp" "Token Match" None None
                  (Some "Completed") "" 0 in
  let c := Job.mk "BOBatchGroupSap" "Party" None None (Some "Failed") "" 0 in
  let listing :=
    map (fun name => listing_line name (shown_glyph [a; w; c] name))
        CUSTOM_ORDER in
  (exists d, status_dict [a; c] = Ok d /\ ordered_results d = listing) /\
  length [a; w; c] = 3%nat /\
  (exists d, status_dict [w; a; c] = Ok d /\ ordered_results d = listing).
Proof.
  intros a w c listing.
  destruct (C1_listing_follows_job_order [a; w; c])
    as (_ & _ & _ & _ & Hperm & Hforeign).
  - repeat constructor; discriminate.
  - destruct (Hforeign [a] w [c]) as [H1 H2].
    + reflexivity.
    + apply (bool_decide_unpack (Job.Display w ∉ CUSTOM_ORDER)).
      vm_compute. reflexivity.
    + split; [exact H1|]. split; [exact H2|].
      apply Hperm.
      * apply perm_swap.
      * apply (bool_decide_unpack (NoDup (display_names [a; w; c]))).
        vm_compute. reflexivity.
Defined.

(** C10.  When several fetched records have the same display name, the
    glyph of that name is the glyph of the last of them in fetch order,
    whatever the earlier ones say, and the line of the name in the
    itemized listing shows it; the total and the failed count of the
    report still count every record.  (The records all have a status
    text, or no report is built.) *)
Theorem C10_last_record_of_a_name_wins (jobs1 : list Job.row) (r : Job.row)
  (jobs2 : list Job.row) :
  Job.Display r ∉ display_names jobs2 ->
  let jobs := jobs1 ++ r :: jobs2 in
  statuses_known jobs ->
  exists s d failed n1 nr n2,
    Job.Status r = Some s /\
    status_dict jobs = Ok d /\
    d !! Job.Display r = Some (status_icon s) /\
    (Job.Display r ∈ CUSTOM_ORDER ->
     listing_line (Job.Display r) (status_icon s) ∈ ordered_results d) /\
    length jobs = (length jobs1 + 1 + length jobs2)%nat /\
    failed_jobs jobs = Ok failed /\
    failed_jobs jobs1 = Ok n1 /\ failed_jobs [r] = Ok nr /\
    failed_jobs jobs2 = Ok n2 /\
    failed = (n1 + nr + n2)%nat /\
    (forall h jboss_data t,
        exists head t',
          format_mdm_chat h jboss_data jobs false t =
          (Ok (head +:+ "Failed: " +:+ str_of_nat failed +:+ " / "
               +:+ str_of_nat (length jobs) +:+ nl +:+ nl), t')) /\
    (forall h jboss_data t,
        exists head t',
          format_mdm_summary h jboss_data jobs t =
          (Ok (head +:+ "Failed: " +:+ str_of_nat failed +:+ " / "
               +:+ str_of_nat (length jobs) +:+ nl +:+ nl
               +:+ "```" +:+ nl +:+ "Job Name | Status" +:+ nl
               +:+ "----------------------" +:+ nl
               +:+ join nl (ordered_results d) +:+ nl
               +:+ "```" +:+ nl +:+ nl), t')).
Proof.
  intros Hlast jobs Hk. subst jobs.
  pose proof (failed_jobs_known _ Hk) as Hf.
  destruct (proj1 (status_dict_known _) Hk) as [d Hd].
  destruct (status_dict_last jobs1 r jobs2 d Hd Hlast) as (s & Hs & Hglyph).
  pose proof Hk as Hk'. unfold statuses_known in Hk'.
  apply Forall_app in Hk' as [Hk1 Hk2]. apply Forall_cons in Hk2 as [Hkr Hk2].
  exists s, d, (failed_count (jobs1 ++ r :: jobs2)),
         (failed_count jobs1), (failed_count [r]), (failed_count jobs2).
  split; [exact Hs|]. split; [exact Hd|]. split; [exact Hglyph|].
  split.
  { intros Hin. rewrite ordered_results_map.
    apply list_elem_of_fmap. exists (Job.Display r).
    split; [|exact Hin]. now rewrite Hglyph. }
  split; [rewrite length_app; simpl; lia|].
  split; [exact Hf|].
  split; [now apply failed_jobs_known|].
  split; [apply failed_jobs_known; repeat constructor; exact Hkr|].
  split; [now apply failed_jobs_known|].
  split.
  { change (r :: jobs2) with ([r] ++ jobs2). rewrite !failed_count_app. lia. }
  split; intros h jboss_data t.
  - exact (format_mdm_chat_terse_text h jboss_data _ t d _ Hd Hf).
  - exact (format_mdm_summary_text h jboss_data _ t d _ Hd Hf).
Qed.

(** Two records named Party, the first failed and the second completed:
    the line of Party shows the success glyph, and the report counts two
    records, one of them failed. *)
Lemma C10_last_record_of_a_name_wins_witness :
  let first := Job.mk "BOBatchGroupSap" "Party" None None (Some "Failed") "" 0 in
  let last := Job.mk "BOBatchGroupSap" "Party" None None
                     (Some "Completed") "" 0 in
  exists d,
    status_dict [first; last] = Ok d /\
    d !! "Party" = Some ok_glyph /\
    length [first; last] = 2%nat /\
    failed_jobs [first; last] = Ok 1%nat.
Proof.
  intros first last.
  destruct (C10_last_record_of_a_name_wins [first] last [])
    as (s & d & failed & n1 & nr & n2 & Hs & Hd & Hglyph & _ & Hlen & Hf
        & H1 & Hr & H2 & Hsum & _).
  - apply not_elem_of_nil.
  - repeat constructor; discriminate.
  - exists d. injection Hs as <-.
    split; [exact Hd|]. split; [exact Hglyph|]. split; [exact Hlen|].
    cbn [app] in Hf. rewrite Hf, Hsum.
    vm_compute in H1, Hr, H2.
    injection H1 as <-. injection Hr as <-. injection H2 as <-. reflexivity.
Defined.

End JobReport.

(* ===================================================================== *)
(** ** The PowerCenter report *)
(* ===================================================================== *)

Section PcReport.
Import PyStr PyDatetime Effects Monitor Spec.

(** C6.  In the terse and in the detailed PowerCenter report the failed
    count of the workflows, and likewise of the sessions, is the number
    of records whose status is not Succeeded, and the number after the
    slash is the number of all records; every status code other than 1,
    so Disabled, Failed, Stopped, Aborted, Running, Terminated and
    Unknown, gives a status that is counted as failed. *)
Theorem C6_failed_is_not_succeeded (h : Host)
  (service_status : list (string * bool))
  (workflows : list Workflow.row) (sessions : list Session.row) (t : Trace) :
  let wf_failed :=
    length (filter (fun wf => Workflow.Status wf <> "Succeeded") workflows) in
  let sess_failed :=
    length (filter (fun s => Session.Status s <> "Succeeded") sessions) in
  (forall detailed,
      exists head tail t',
        format_pc_chat h service_status workflows sessions detailed t =
        (Ok (head
             +:+ "**Workflows Failed:** " +:+ str_of_nat wf_failed
             +:+ " / " +:+ str_of_nat (length workflows) +:+ nl +:+ nl
             +:+ "**Sessions Failed:** " +:+ str_of_nat sess_failed
             +:+ " / " +:+ str_of_nat (length sessions) +:+ nl +:+ nl
             +:+ tail), t')) /\
  (exists head tail t',
      format_pc_summary h service_status workflows sessions t =
      (Ok (head
           +:+ "**Workflows" +:+ nl +:+ "Failed:** " +:+ str_of_nat wf_failed
           +:+ " / " +:+ str_of_nat (length workflows) +:+ nl +:+ nl
           +:+ "**Sessions" +:+ nl +:+ "Failed:** " +:+ str_of_nat sess_failed
           +:+ " / " +:+ str_of_nat (length sessions) +:+ nl +:+ nl
           +:+ tail), t')) /\
  (forall code, code <> 1 -> run_status_case code <> "Succeeded") /\
  Forall (fun status => status <> "Succeeded")
         (map run_status_case [2; 3; 4; 5; 6; 15; 0; 7]) /\
  map run_status_case [2; 3; 4; 5; 6; 15; 0; 7]
  = ["Disabled"; "Failed"; "Stopped"; "Aborted"; "Running"; "Terminated";
     "Unknown"; "Unknown"].
Proof.
  intros wf_failed sess_failed. subst wf_failed sess_failed.
  rewrite <- failed_wf_count, <- failed_sess_count.
  split; [intros; apply format_pc_chat_text|].
  split; [apply format_pc_summary_text|].
  split; [intros code Hc H; apply run_status_case_succeeded in H; contradiction|].
  split; [|reflexivity].
  repeat constructor; discriminate.
Qed.

(** Three workflow runs, one succeeded, one running and one disabled, and
    no session: the terse report counts two failed workflows of three. *)
Example C6_running_and_disabled_count_as_failed :
  let wf name code := Workflow.mk "GLENCORE_HR_PROD" name 1 None None None
                                  (run_status_case code) in
  let workflows := [wf "wf_load" 1; wf "wf_merge" 6; wf "wf_old" 2] in
  length (failed_wf workflows) = 2%nat /\ length workflows = 3%nat.
Proof. split; reflexivity. Qed.

(** The status code 6, Running, is not 1: its status is not Succeeded
    and counts as failed. *)
Lemma C6_failed_is_not_succeeded_witness :
  run_status_case 6 <> "Succeeded".
Proof.
  destruct (C6_failed_is_not_succeeded
              (Sample.host Sample.teams_ok) [] [] [] empty_trace)
    as (_ & _ & H & _).
  apply H. discriminate.
Defined.

End PcReport.

(* ===================================================================== *)
(** ** The calendar *)
(* ===================================================================== *)

Section Calendar.
Import PyStr PyDatetime Effects Monitor Spec.

Lemma holds_upto_spec (fuel : nat) (i : Z) (p : Z -> bool) :
  holds_upto fuel i p = true ->
  forall k, i <= k < i + Z.of_nat fuel -> p k = true.
Proof.
  revert i; induction fuel as [|fuel IH]; intros i H k Hk; [lia|].
  simpl in H. destruct (p i) eqn:E; [|discriminate].
  destruct (Z.eq_dec k i) as [->|Hne]; [exact E|].
  apply (IH (i + 1) H). lia.
Qed.

Lemma cycle_checked : holds_upto (Z.to_nat 146097) 0 cycle_ok = true.
Proof. vm_compute. reflexivity. Qed.

Lemma years_checked : holds_upto (Z.to_nat 9999) 1 year_ok = true.
Proof. vm_compute. reflexivity. Qed.

Lemma is_leap_shift (y q : Z) : is_leap (y + 400 * q) = is_leap y.
Proof.
  unfold is_leap.
  replace ((y + 400 * q) mod 4) with (y mod 4)
    by (replace (y + 400 * q) with (y + (100 * q) * 4) by lia;
        now rewrite Z_mod_plus_full).
  replace ((y + 400 * q) mod 100) with (y mod 100)
    by (replace (y + 400 * q) with (y + (4 * q) * 100) by lia;
        now rewrite Z_mod_plus_full).
  replace ((y + 400 * q) mod 400) with (y mod 400)
    by (replace (y + 400 * q) with (y + q * 400) by lia;
        now rewrite Z_mod_plus_full).
  reflexivity.
Qed.

Lemma days_before_year_shift (y q : Z) :
  days_before_year (y + 400 * q) = days_before_year y + 146097 * q.
Proof.
  unfold days_before_year. cbv zeta.
  replace ((y + 400 * q - 1) / 4) with ((y - 1) / 4 + 100 * q)
    by (replace (y + 400 * q - 1) with (y - 1 + (100 * q) * 4) by lia;
        now rewrite Z.div_add).
  replace ((y + 400 * q - 1) / 100) with ((y - 1) / 100 + 4 * q)
    by (replace (y + 400 * q - 1) with (y - 1 + (4 * q) * 100) by lia;
        now rewrite Z.div_add).
  replace ((y + 400 * q - 1) / 400) with ((y - 1) / 400 + q)
    by (replace (y + 400 * q - 1) with (y - 1 + q * 400) by lia;
        now rewrite Z.div_add).
  lia.
Qed.

Lemma ymd2ord_shift (y q m d : Z) :
  ymd2ord (y + 400 * q) m d = ymd2ord y m d + 146097 * q.
Proof.
  unfold ymd2ord, days_before_month.
  rewrite is_leap_shift, days_before_year_shift. lia.
Qed.

Lemma days_in_month_shift (y q m : Z) :
  days_in_month (y + 400 * q) m = days_in_month y m.
Proof. unfold days_in_month. now rewrite is_leap_shift. Qed.

Lemma ord2ymd_cycle_shift (year0 r : Z) :
  ord2ymd_cycle year0 r
  = let '(y, m, d) := ord2ymd_cycle 1 r in (y + (year0 - 1), m, d).
Proof.
  unfold ord2ymd_cycle. cbv zeta.
  destruct (_ || _); [|destruct (_ <? _)];
    match goal with
    | |- (?a, _, _) = (?a', _, _) => replace a with a' by lia; reflexivity
    end.
Qed.

Lemma ord2ymd_correct (n : Z) :
  1 <= n ->
  let '(y, m, d) := ord2ymd n in
  ymd2ord y m d = n /\ 1 <= y /\ (n <= MAXORDINAL -> y <= 9999) /\
  1 <= m <= 12 /\ 1 <= d <= days_in_month y m.
Proof.
  intros Hn. unfold ord2ymd. cbv zeta. unfold DI400Y.
  rewrite ord2ymd_cycle_shift.
  pose proof (Z.div_mod (n - 1) 146097 ltac:(lia)) as Hdm.
  pose proof (Z.mod_pos_bound (n - 1) 146097 ltac:(lia)) as Hr.
  set (q := (n - 1) / 146097) in *. set (r := (n - 1) mod 146097) in *.
  assert (0 <= q) as Hq by (subst q; apply Z.div_pos; lia).
  pose proof (holds_upto_spec _ _ _ cycle_checked r ltac:(lia)) as Hc.
  unfold cycle_ok in Hc. destruct (ord2ymd_cycle 1 r) as [[y m] d].
  rewrite !andb_true_iff in Hc.
  destruct Hc as (((((((H1 & H2) & H3) & H4) & H5) & H6) & H7) & H8).
  apply Z.eqb_eq in H1. apply Z.leb_le in H2, H3, H5, H6, H7, H8.
  replace (y + (q * 400 + 1 - 1)) with (y + 400 * q) by lia.
  rewrite ymd2ord_shift, days_in_month_shift.
  repeat split; try lia.
  intros Hmax. unfold MAXORDINAL in Hmax.
  destruct (Z.leb_spec r 145730) as [Hle|Hgt]; simpl in H4.
  - apply Z.leb_le in H4. lia.
  - lia.
Qed.

Lemma valid_datetime_spec (dt : datetime) :
  valid_datetime dt = true <->
  1 <= year dt <= 9999 /\ 1 <= month dt <= 12 /\
  1 <= day dt <= days_in_month (year dt) (month dt) /\
  0 <= hour dt < 24 /\ 0 <= minute dt < 60 /\ 0 <= second dt < 60 /\
  0 <= microsecond dt < 1000000.
Proof.
  unfold valid_datetime.
  rewrite !andb_true_iff, !Z.leb_le, !Z.ltb_lt. tauto.
Qed.

Lemma month_tables (leap : bool) (m : Z) :
  1 <= m <= 12 ->
  0 <= index DAYS_BEFORE_MONTH m + Z_of_bool ((2 <? m) && leap) /\
  index DAYS_BEFORE_MONTH m + Z_of_bool ((2 <? m) && leap)
  + (if (m =? 2) && leap then 29 else index DAYS_IN_MONTH m)
  <= (if leap then 366 else 365).
Proof.
  intros Hm.
  assert (m = 1 \/ m = 2 \/ m = 3 \/ m = 4 \/ m = 5 \/ m = 6 \/ m = 7 \/
          m = 8 \/ m = 9 \/ m = 10 \/ m = 11 \/ m = 12) as Hcases by lia.
  destruct leap;
    repeat (destruct Hcases as [-> | Hcases]); try subst m;
    split; apply Z.leb_le; reflexivity.
Qed.

Lemma ymd2ord_in_year (y m d : Z) :
  1 <= m <= 12 -> 1 <= d <= days_in_month y m ->
  days_before_year y < ymd2ord y m d
  <= days_before_year y + (if is_leap y then 366 else 365).
Proof.
  intros Hm Hd. unfold ymd2ord, days_before_month, days_in_month in *.
  pose proof (month_tables (is_leap y) m Hm) as Ht. lia.
Qed.

Lemma toordinal_le_max (dt : datetime) :
  valid_datetime dt = true -> toordinal dt <= MAXORDINAL.
Proof.
  intros H. apply valid_datetime_spec in H as (Hy & Hm & Hd & _).
  pose proof (ymd2ord_in_year _ _ _ Hm Hd) as Hin.
  pose proof (holds_upto_spec _ _ _ years_checked (year dt) ltac:(lia)) as Hc.
  unfold year_ok in Hc. apply Z.leb_le in Hc. unfold toordinal. lia.
Qed.

Lemma make_timedelta_normal (d s us : Z) :
  0 <= s < 86400 -> 0 <= us < 1000000 ->
  make_timedelta d s us = mkTimedelta d s us.
Proof.
  intros Hs Hus. unfold make_timedelta. cbv zeta.
  rewrite (Z.div_small us), (Z.mod_small us) by lia.
  rewrite Z.add_0_r, (Z.div_small s), (Z.mod_small s) by lia.
  now rewrite Z.add_0_r.
Qed.

Lemma two_hours_before_midnight (y m d : Z) :
  datetime_sub (mkDatetime y m d 0 0 0 0) (timedelta_hours 2)
  = if (0 <? ymd2ord y m d - 1) && (ymd2ord y m d - 1 <=? MAXORDINAL) then
      let '(y', m', d') := ord2ymd (ymd2ord y m d - 1) in
      Some (mkDatetime y' m' d' 22 0 0 0)
    else None.
Proof.
  unfold datetime_sub, datetime_add, toordinal.
  cbn [year month day hour minute second microsecond].
  change (timedelta_neg (timedelta_hours 2)) with (mkTimedelta (-1) 79200 0).
  change (0 * 3600 + 0 * 60 + 0) with 0.
  set (ord := ymd2ord y m d).
  rewrite (make_timedelta_normal ord 0 0) by lia.
  unfold timedelta_add. cbn [days seconds microseconds].
  change (0 + 79200) with 79200. change (0 + 0) with 0.
  rewrite (make_timedelta_normal (ord + -1) 79200 0) by lia.
  cbn [days seconds microseconds].
  change (79200 / 3600) with 22.
  change (79200 mod 3600 / 60) with 0.
  change (79200 mod 3600 mod 60) with 0.
  replace (ord + -1) with (ord - 1) by lia.
  reflexivity.
Qed.

End Calendar.

(* ===================================================================== *)
(** ** The reporting window and the fetches *)
(* ===================================================================== *)

Section Window.
Import PyStr PyDatetime Effects Monitor Spec.

Lemma get_recent_workflows_and_sessions_run (h : Host) (t : Trace)
  (db : PcDatabase) (yesterday_10pm : datetime) :
  pc_db h = Ok db ->
  datetime_sub (replace_midnight (clock h (clock_reads t))) (timedelta_hours 2)
  = Some yesterday_10pm ->
  get_recent_workflows_and_sessions h t
  = (Ok (wf_query db yesterday_10pm (replace_midnight (clock h (clock_reads t))),
         sess_query db yesterday_10pm (replace_midnight (clock h (clock_reads t)))),
     mkTrace (stdout t ++ ["Fetching PC workflows and sessions"]) (posts t)
             (S (clock_reads t))).
Proof.
  intros Hdb Hsub.
  cbv [get_recent_workflows_and_sessions bind print lift datetime_now
       minus_two_hours ret raise].
  rewrite Hdb. cbn [clock_reads stdout posts]. now rewrite Hsub.
Qed.

Lemma get_recent_jobs_run (h : Host) (t : Trace)
  (db : MdmDatabase) (yesterday_10pm : datetime) :
  mdm_db h = Ok db ->
  datetime_sub (replace_midnight (clock h (clock_reads t))) (timedelta_hours 2)
  = Some yesterday_10pm ->
  get_recent_jobs h t
  = (Ok (jobs_query db yesterday_10pm (replace_midnight (clock h (clock_reads t)))),
     mkTrace (stdout t ++ ["Fetching MDM jobs"]) (posts t) (S (clock_reads t))).
Proof.
  intros Hdb Hsub.
  cbv [get_recent_jobs bind print lift datetime_now minus_two_hours ret raise].
  rewrite Hdb. cbn [clock_reads stdout posts]. now rewrite Hsub.
Qed.

Lemma window_start (now : datetime) :
  valid_datetime now = true -> 1 < toordinal now ->
  exists y m d,
    datetime_sub (replace_midnight now) (timedelta_hours 2)
    = Some (mkDatetime y m d 22 0 0 0) /\
    ymd2ord y m d = toordinal now - 1 /\
    valid_datetime (mkDatetime y m d 22 0 0 0) = true.
Proof.
  intros Hv Hord.
  pose proof (toordinal_le_max now Hv) as Hmax.
  unfold replace_midnight. rewrite two_hours_before_midnight.
  fold (toordinal now).
  destruct (Z.ltb_spec 0 (toordinal now - 1)) as [_|]; [|lia].
  destruct (Z.leb_spec (toordinal now - 1) MAXORDINAL) as [Hle|]; [|lia].
  cbn [andb].
  pose proof (ord2ymd_correct (toordinal now - 1) ltac:(lia)) as Hc.
  destruct (ord2ymd (toordinal now - 1)) as [[y m] d].
  destruct Hc as (H1 & H2 & H3 & H4 & H5).
  exists y, m, d. split; [reflexivity|]. split; [exact H1|].
  apply valid_datetime_spec.
  cbn [year month day hour minute second microsecond]. lia.
Qed.

(** C5.  For a clock reading [now] (any date after 0001-01-01, where the
    window would start before the first date there is), the window of the
    notification cycle ends at 00:00 of the day of [now] and starts two
    hours earlier, at 22:00 of the day before; the workflow and session
    fetch and the batch-job fetch both pass these two bounds to their
    queries.  For 2024-03-10T06:00:00 the bounds are 2024-03-09T22:00:00
    and 2024-03-10T00:00:00. *)
Theorem C5_window_is_two_hours_to_midnight (h : Host) (t : Trace) :
  let now := clock h (clock_reads t) in
  valid_datetime now = true -> 1 < toordinal now ->
  exists yesterday_10pm today_midnight,
    today_midnight = mkDatetime (year now) (month now) (day now) 0 0 0 0 /\
    replace_midnight now = today_midnight /\
    datetime_sub today_midnight (timedelta_hours 2) = Some yesterday_10pm /\
    valid_datetime yesterday_10pm = true /\
    toordinal yesterday_10pm = toordinal now - 1 /\
    (hour yesterday_10pm, minute yesterday_10pm, second yesterday_10pm,
     microsecond yesterday_10pm) = (22, 0, 0, 0) /\
    to_micros today_midnight - to_micros yesterday_10pm = 2 * 3600 * 1000000 /\
    to_micros today_midnight <= to_micros now
      < to_micros today_midnight + 24 * 3600 * 1000000 /\
    (forall db, pc_db h = Ok db ->
       fst (get_recent_workflows_and_sessions h t)
       = Ok (wf_query db yesterday_10pm today_midnight,
             sess_query db yesterday_10pm today_midnight)) /\
    (forall db, mdm_db h = Ok db ->
       fst (get_recent_jobs h t)
       = Ok (jobs_query db yesterday_10pm today_midnight)) /\
    (now = mkDatetime 2024 3 10 6 0 0 0 ->
     yesterday_10pm = mkDatetime 2024 3 9 22 0 0 0 /\
     today_midnight = mkDatetime 2024 3 10 0 0 0 0).
Proof.
  intros now Hv Hord.
  destruct (window_start now Hv Hord) as (y & m & d & Hsub & Hy & Hvy).
  exists (mkDatetime y m d 22 0 0 0), (replace_midnight now).
  split; [reflexivity|]. split; [reflexivity|]. split; [exact Hsub|].
  split; [exact Hvy|]. split; [exact Hy|]. split; [reflexivity|].
  apply valid_datetime_spec in Hv as (_ & _ & _ & Hh & Hmi & Hs & Hus).
  split; [|split; [|split; [|split]]].
  - unfold to_micros, replace_midnight, toordinal in *.
    cbn [year month day hour minute second microsecond]. lia.
  - unfold to_micros, replace_midnight, toordinal in *.
    cbn [year month day hour minute second microsecond]. lia.
  - intros db Hdb.
    now rewrite (get_recent_workflows_and_sessions_run h t db _ Hdb Hsub).
  - intros db Hdb. now rewrite (get_recent_jobs_run h t db _ Hdb Hsub).
  - intros Hnow. rewrite Hnow in Hsub. vm_compute in Hsub.
    injection Hsub as <- <- <-. rewrite Hnow. split; reflexivity.
Qed.

End Window.

(** The clock reads 2024-03-10T06:00:00: the window is from
    2024-03-09T22:00:00 to 2024-03-10T00:00:00, and the batch-job fetch
    queries with these bounds. *)
Lemma C5_window_is_two_hours_to_midnight_witness :
  exists yesterday_10pm today_midnight,
    yesterday_10pm = PyDatetime.mkDatetime 2024 3 9 22 0 0 0 /\
    today_midnight = PyDatetime.mkDatetime 2024 3 10 0 0 0 0 /\
    PyDatetime.datetime_sub today_midnight (PyDatetime.timedelta_hours 2)
    = Some yesterday_10pm /\
    fst (Monitor.get_recent_jobs (Sample.host Sample.teams_ok) Effects.empty_trace)
    = Effects.Ok (Monitor.jobs_query Sample.boundary_mdm_db
                                     yesterday_10pm today_midnight).
Proof.
  destruct (C5_window_is_two_hours_to_midnight
              (Sample.host Sample.teams_ok) Effects.empty_trace)
    as (y10 & mid & _ & _ & Hsub & _ & _ & _ & _ & _ & _ & Hjobs & Hex).
  - reflexivity.
  - reflexivity.
  - destruct (Hex eq_refl) as [-> ->].
    exists (PyDatetime.mkDatetime 2024 3 9 22 0 0 0),
           (PyDatetime.mkDatetime 2024 3 10 0 0 0 0).
    split; [reflexivity|]. split; [reflexivity|]. split; [exact Hsub|].
    exact (Hjobs Sample.boundary_mdm_db eq_refl).
Defined.

Section Fetches.
Import PyStr PyDatetime Effects Monitor Spec.

Lemma cmp_refl (a : list Z) : cmp a a = Eq.
Proof.
  induction a as [|x a IH]; [reflexivity|].
  simpl. now rewrite Z.compare_refl.
Qed.

Lemma dt_leb_refl (a : datetime) : dt_leb a a = true.
Proof. unfold dt_leb. now rewrite cmp_refl. Qed.

Lemma dt_ltb_irrefl (a : datetime) : dt_ltb a a = false.
Proof. unfold dt_ltb. now rewrite cmp_refl. Qed.

(** The batch-job fetch keeps the rows of the selected groups that start
    in the half-open window. *)
Lemma jobs_query_spec (db : MdmDatabase) (p1 p2 : datetime) (row : Job.row) :
  row ∈ jobs_query db p1 p2 <->
  row ∈ mdm_job_rows db /\
  existsb (mdm_collation_eq db (Job.GroupName row)) JOB_GROUPS = true /\
  exists start, Job.Start row = Some start /\
                dt_leb p1 start = true /\ dt_ltb start p2 = true.
Proof.
  unfold jobs_query. rewrite list_elem_of_In, filter_In, <- list_elem_of_In.
  rewrite andb_true_iff. unfold sql_ge_and_lt.
  destruct (Job.Start row) as [start|].
  - rewrite andb_true_iff. split.
    + intros (H1 & H2 & H3 & H4). eauto 10.
    + intros (H1 & H2 & s & Hs & H3 & H4). injection Hs as <-. auto.
  - split.
    + intros (_ & _ & H). discriminate.
    + intros (_ & _ & s & Hs & _). discriminate.
Qed.

(** The workflow fetch keeps the runs of its subject area that start in
    the closed window: [BETWEEN] includes both bounds. *)
Lemma wf_query_spec (db : PcDatabase) (p1 p2 : datetime) (row : Workflow.row) :
  row ∈ wf_query db p1 p2 <->
  exists run,
    run ∈ pc_REP_WFLOW_RUN db /\
    pc_collation_eq db (REP_WFLOW_RUN.SUBJECT_AREA run) "GLENCORE_HR_PROD" = true /\
    (exists start, REP_WFLOW_RUN.START_TIME run = Some start /\
                   dt_leb p1 start = true /\ dt_leb start p2 = true) /\
    row = Workflow.mk (REP_WFLOW_RUN.SUBJECT_AREA run)
                      (REP_WFLOW_RUN.WORKFLOW_NAME run)
                      (REP_WFLOW_RUN.WORKFLOW_RUN_ID run)
                      (REP_WFLOW_RUN.START_TIME run)
                      (REP_WFLOW_RUN.END_TIME run)
                      (datediff_minute (REP_WFLOW_RUN.START_TIME run)
                                       (REP_WFLOW_RUN.END_TIME run))
                      (run_status_case (REP_WFLOW_RUN.RUN_STATUS_CODE run)).
Proof.
  unfold wf_query. rewrite list_elem_of_fmap. split.
  - intros (run & -> & H).
    apply list_elem_of_In, filter_In in H as [Hin H].
    apply andb_true_iff in H as [Hs Hw]. exists run.
    split; [now apply list_elem_of_In|]. split; [exact Hs|].
    split; [|reflexivity].
    unfold sql_between in Hw.
    destruct (REP_WFLOW_RUN.START_TIME run) as [start|]; [|discriminate].
    apply andb_true_iff in Hw as [H1 H2]. eauto.
  - intros (run & Hin & Hs & (start & Hst & H1 & H2) & ->).
    exists run. split; [reflexivity|].
    apply list_elem_of_In, filter_In. split; [now apply list_elem_of_In|].
    unfold sql_between. now rewrite Hs, Hst, H1, H2.
Qed.

(** A workflow run that starts exactly at the end of the window is
    fetched; a batch job that starts then is not. *)
Lemma window_end_differs (pc : PcDatabase) (mdm : MdmDatabase)
  (p1 p2 : datetime) :
  dt_leb p1 p2 = true ->
  (forall run,
      run ∈ pc_REP_WFLOW_RUN pc ->
      pc_collation_eq pc (REP_WFLOW_RUN.SUBJECT_AREA run) "GLENCORE_HR_PROD" = true ->
      REP_WFLOW_RUN.START_TIME run = Some p2 ->
      exists row, row ∈ wf_query pc p1 p2 /\ Workflow.START_TIME row = Some p2) /\
  (forall row, row ∈ jobs_query mdm p1 p2 -> Job.Start row <> Some p2).
Proof.
  intros Hle. split.
  - intros run Hin Hs Hst. eexists. split.
    + apply wf_query_spec. exists run. split; [exact Hin|]. split; [exact Hs|].
      split; [|reflexivity]. exists p2. now rewrite dt_leb_refl.
    + exact Hst.
  - intros row H Hst. apply jobs_query_spec in H as (_ & _ & s & Hs & _ & Hlt).
    rewrite Hst in Hs. injection Hs as <-. now rewrite dt_ltb_irrefl in Hlt.
Qed.

(** C2.  With the clock at 2024-03-10T06:00:00 and runs started at
    21:59, 22:00, 23:59 and 00:00 of the boundary night, the batch-job
    fetch returns the jobs of 22:00 and 23:59, the half-open window; the
    workflow fetch and the session fetch return the runs of 22:00, 23:59
    and also of 00:00, the end of the window. *)
Theorem C2_run_at_midnight_is_fetched_as_workflow_not_as_job :
  let h := Sample.host Sample.teams_ok in
  (fmap (fun fetched =>
           (map Workflow.WORKFLOW_NAME (fst fetched),
            map Session.SESSION_NAME (snd fetched)))
        (match fst (get_recent_workflows_and_sessions h empty_trace) with
         | Ok fetched => Some fetched
         | Raise _ => None
         end)
   = Some (["wf_2200"; "wf_2359"; "wf_0000"], ["s_2200"; "s_2359"; "s_0000"])) /\
  (fmap (map Job.Display)
        (match fst (get_recent_jobs h empty_trace) with
         | Ok jobs => Some jobs
         | Raise _ => None
         end)
   = Some ["STG_PARTY_REL"; "Party"]).
Proof. split; vm_compute; reflexivity. Qed.

End Fetches.

(* ===================================================================== *)
(** ** The health checks *)
(* ===================================================================== *)

Section HealthChecks.
Import PyStr PyDatetime Effects Monitor Spec.

Lemma check_pc_service_run (cfg : Config) (h : Host) (t : Trace) :
  exists t',
    check_pc_service cfg h t
    = (Ok [("DEV", pc_up h "DEV" (BAT_DEV cfg));
           ("SIT", pc_up h "SIT" (BAT_SIT cfg));
           ("PRD", pc_up h "PRD" (BAT_PRD cfg))], t') /\
    posts t' = posts t /\ clock_reads t' = clock_reads t.
Proof.
  unfold check_pc_service, BAT_FILES, pc_up.
  cbv [bind print for_each ret].
  destruct (subprocess_run h "DEV" (BAT_DEV cfg)),
           (subprocess_run h "SIT" (BAT_SIT cfg)),
           (subprocess_run h "PRD" (BAT_PRD cfg));
    eexists; (split; [reflexivity | split; reflexivity]).
Qed.

(** The loop over the listed deployments prints nothing, and it raises
    as soon as the reading of one deployment raises. *)
Lemma reads_run (h : Host) (env : string) (creds : Creds) (deps : list string) :
  forall (i : nat) (acc : list Dep.row),
  exists r,
    (forall t, for_each deps (read_deployment h env creds) (i, acc) t = (r, t)) /\
    ((exists j dep, deps !! j = Some dep /\
                    read_raises h env creds (i + j) dep) ->
     exists e, r = Raise e).
Proof.
  induction deps as [|dep deps IH]; intros i acc.
  - exists (Ok (i, acc)). split; [reflexivity|].
    intros (j & d & Hj & _). rewrite lookup_nil in Hj. discriminate.
  - cbn [for_each]. unfold bind, read_deployment at 1.
    destruct (jboss_read h env creds i dep) as [e | code body] eqn:E.
    + exists (Raise e). split; [reflexivity | eauto].
    + destruct (code =? 200) eqn:C.
      * destruct body as [rt | e].
        -- cbv [lift ret].
           destruct (IH (S i)
                        (acc ++ [Dep.mk dep
                                   (if match runtime_status rt with
                                       | Some v => String.eqb v "OK"
                                       | None => false
                                       end then ok_glyph else fail_glyph)
                                   (if runtime_enabled rt
                                    then ok_glyph else fail_glyph)]))
             as (r & Hr & Hfail).
           exists r. split; [exact Hr|].
           intros (j & d & Hj & Hraise). destruct j as [|j].
           ++ rewrite Nat.add_0_r in Hraise. simpl in Hj. injection Hj as <-.
              destruct Hraise as [[e He] | [e He]]; congruence.
           ++ apply Hfail. exists j, d. split; [exact Hj|].
              now rewrite Nat.add_succ_r in Hraise.
        -- exists (Raise e). split; [reflexivity | eauto].
      * cbv [ret].
        destruct (IH (S i) acc) as (r & Hr & Hfail).
        exists r. split; [exact Hr|].
        intros (j & d & Hj & Hraise). destruct j as [|j].
        -- rewrite Nat.add_0_r in Hraise. simpl in Hj. injection Hj as <-.
           destruct Hraise as [[e He] | [e He]]; [congruence|].
           rewrite He in E. injection E as <- _. discriminate.
        -- apply Hfail. exists j, d. split; [exact Hj|].
           now rewrite Nat.add_succ_r in Hraise.
Qed.

Lemma check_mdm_env_run (h : Host) (env : string) (creds : Creds) :
  exists entry,
    entry <> [] /\
    (mdm_probe_fails h env creds -> entry = NOT_REACHABLE) /\
    forall t, exists t',
      check_mdm_env h env creds t = (Ok entry, t') /\
      posts t' = posts t /\ clock_reads t' = clock_reads t.
Proof.
  unfold check_mdm_env.
  destruct (jboss_list h env creds) as [e | code body] eqn:E.
  - exists NOT_REACHABLE. split; [discriminate|]. split; [reflexivity|].
    intros t. eexists. split; [reflexivity | split; reflexivity].
  - destruct (code =? 200) eqn:C; cbn [negb].
    + apply Z.eqb_eq in C. subst code.
      destruct body as [deps | e].
      * destruct (reads_run h env creds deps 0%nat []) as (r & Hr & Hfail).
        destruct r as [[n deployments] | e].
        -- exists (match deployments with
                   | [] => NOT_REACHABLE
                   | _ :: _ => deployments
                   end).
           split; [destruct deployments; discriminate|]. split.
           ++ intros Hp. destruct Hp as [e He | c b Hc Hne | e He | ds i dep Hl Hi Hr'].
              ** congruence.
              ** rewrite Hc in E. injection E as -> _. contradiction.
              ** congruence.
              ** rewrite Hl in E. injection E as ->.
                 destruct Hfail as [e He]; [eauto | discriminate].
           ++ intros t. eexists. unfold try_except, bind, lift, ret.
              rewrite Hr. cbn [snd]. split; [reflexivity | split; reflexivity].
        -- exists NOT_REACHABLE. split; [discriminate|]. split; [reflexivity|].
           intros t. eexists. unfold try_except, bind, lift, ret, print.
           rewrite Hr. split; [reflexivity | split; reflexivity].
      * exists NOT_REACHABLE. split; [discriminate|]. split; [reflexivity|].
        intros t. eexists. split; [reflexivity | split; reflexivity].
    + exists NOT_REACHABLE. split; [discriminate|]. split; [reflexivity|].
      intros t. eexists. split; [reflexivity | split; reflexivity].
Qed.

Lemma check_mdm_apps_run (cfg : Config) (h : Host) :
  exists sit prd,
    sit <> [] /\ prd <> [] /\
    (forall env creds entry,
        (env, creds) ∈ ENVIRONMENTS cfg ->
        (env, entry) ∈ [("SIT", sit); ("PRD", prd)] ->
        mdm_probe_fails h env creds -> entry = NOT_REACHABLE) /\
    forall t, exists t',
      check_mdm_apps cfg h t = (Ok [("SIT", sit); ("PRD", prd)], t') /\
      posts t' = posts t /\ clock_reads t' = clock_reads t.
Proof.
  unfold ENVIRONMENTS.
  set (c1 := mkCreds (SIT_JBOSS_URL cfg) (SIT_JBOSS_USER cfg) (SIT_JBOSS_PASS cfg)).
  set (c2 := mkCreds (PRD_JBOSS_URL cfg) (PRD_JBOSS_USER cfg) (PRD_JBOSS_PASS cfg)).
  destruct (check_mdm_env_run h "SIT" c1) as (sit & Hs1 & Hs2 & Hs3).
  destruct (check_mdm_env_run h "PRD" c2) as (prd & Hp1 & Hp2 & Hp3).
  exists sit, prd. split; [exact Hs1|]. split; [exact Hp1|]. split.
  - intros env creds entry Hc He Hfail.
    apply elem_of_cons in Hc as [Hc | Hc];
      [|apply elem_of_cons in Hc as [Hc | Hc]; [|inversion Hc]];
      injection Hc as -> ->;
      (apply elem_of_cons in He as [He | He];
       [|apply elem_of_cons in He as [He | He]; [|inversion He]]);
      try discriminate; injection He as ->; auto.
  - intros t. unfold check_mdm_apps, ENVIRONMENTS. fold c1 c2.
    cbv [bind print for_each ret].
    match goal with
    | |- context [check_mdm_env h "SIT" c1 ?t1] =>
        destruct (Hs3 t1) as (t2 & E2 & P2 & C2); rewrite E2
    end.
    destruct (Hp3 t2) as (t3 & E3 & P3 & C3). rewrite E3.
    cbn [posts clock_reads] in P2, C2.
    exists t3. split; [reflexivity|]. split; congruence.
Qed.

End HealthChecks.

Section HealthReports.
Import PyStr PyDatetime Effects Monitor Spec.

(** C7.  The two health checks never raise and return one entry for
    each environment, in the order of the configuration.  An environment
    whose [.bat] run times out or raises is reported with the value
    false; an MDM environment whose probe fails (the listing post raises
    or times out, or answers with a status other than 200, or cannot be
    decoded, or the post for a deployment raises) is reported with the
    single row N/A, failure glyph, Not Reachable; and no MDM environment
    is reported with an empty list. *)
Theorem C7_failed_probe_gives_sentinel (cfg : Config) (h : Host) (t : Trace) :
  (exists status t',
      check_pc_service cfg h t = (Ok status, t') /\
      map fst status = map fst (BAT_FILES cfg) /\
      forall env bat_file,
        (env, bat_file) ∈ BAT_FILES cfg -> pc_probe_fails h env bat_file ->
        dict_get env status = Some false) /\
  (exists data t',
      check_mdm_apps cfg h t = (Ok data, t') /\
      map fst data = map fst (ENVIRONMENTS cfg) /\
      (forall env entry, (env, entry) ∈ data -> entry <> []) /\
      forall env creds,
        (env, creds) ∈ ENVIRONMENTS cfg -> mdm_probe_fails h env creds ->
        dict_get env data = Some NOT_REACHABLE) /\
  NOT_REACHABLE = [Dep.mk "N/A" "❌" "Not Reachable"].
Proof.
  split; [|split; [|reflexivity]].
  - destruct (check_pc_service_run cfg h t) as (t' & E & _).
    eexists _, t'. split; [exact E|]. split; [reflexivity|].
    intros env bat_file Hin Hfail.
    assert (pc_up h env bat_file = false) as Hup.
    { unfold pc_up. destruct Hfail as [-> | [e ->]]; reflexivity. }
    unfold BAT_FILES in Hin.
    apply elem_of_cons in Hin as [Hin | Hin];
      [|apply elem_of_cons in Hin as [Hin | Hin];
        [|apply elem_of_cons in Hin as [Hin | Hin]; [|inversion Hin]]];
      injection Hin as -> ->; cbn; now rewrite Hup.
  - destruct (check_mdm_apps_run cfg h) as (sit & prd & Hs & Hp & Hfail & Hrun).
    destruct (Hrun t) as (t' & E & _).
    exists [("SIT", sit); ("PRD", prd)], t'.
    split; [exact E|]. split; [reflexivity|]. split.
    + intros env entry Hin.
      apply elem_of_cons in Hin as [Hin | Hin];
        [|apply elem_of_cons in Hin as [Hin | Hin]; [|inversion Hin]];
        injection Hin as -> ->; assumption.
    + intros env creds Hin Hf.
      assert (forall entry, (env, entry) ∈ [("SIT", sit); ("PRD", prd)] ->
                            entry = NOT_REACHABLE) as Hentry
        by (intros entry He; exact (Hfail env creds entry Hin He Hf)).
      unfold ENVIRONMENTS in Hin.
      apply elem_of_cons in Hin as [Hin | Hin];
        [|apply elem_of_cons in Hin as [Hin | Hin]; [|inversion Hin]];
        injection Hin as -> _; cbn; f_equal; apply Hentry.
      * apply list_elem_of_here.
      * apply list_elem_of_further, list_elem_of_here.
Qed.

(** The DEV service check times out, the SIT listing raises and the PRD
    listing answers 503: DEV is reported false, and SIT and PRD with the
    single Not Reachable row. *)
Lemma C7_failed_probe_gives_sentinel_witness :
  (exists status t',
      check_pc_service Sample.config Sample.unreachable_host empty_trace
      = (Ok status, t') /\
      dict_get "DEV" status = Some false) /\
  (exists data t',
      check_mdm_apps Sample.config Sample.unreachable_host empty_trace
      = (Ok data, t') /\
      dict_get "SIT" data = Some NOT_REACHABLE /\
      dict_get "PRD" data = Some NOT_REACHABLE).
Proof.
  destruct (C7_failed_probe_gives_sentinel
              Sample.config Sample.unreachable_host empty_trace)
    as ((status & t1 & E1 & _ & H1) & (data & t2 & E2 & _ & _ & H2) & _).
  split.
  - exists status, t1. split; [exact E1|].
    apply (H1 "DEV" "dev.bat").
    + apply list_elem_of_here.
    + left. reflexivity.
  - exists data, t2. split; [exact E2|]. split.
    + apply (H2 "SIT" (mkCreds "https://sit.example:9990/management"
                                "monitor" "secret")).
      * apply list_elem_of_here.
      * apply (listing_raised _ _ _ (Exception "Read timed out")). reflexivity.
    + apply (H2 "PRD" (mkCreds "https://prd.example:9990/management"
                                "monitor" "secret")).
      * apply list_elem_of_further, list_elem_of_here.
      * apply (listing_not_200 _ _ _ 503 (Raise (Exception "no body")));
          [reflexivity | discriminate].
Defined.

End HealthReports.

(* ===================================================================== *)
(** ** The cycle and its deliveries *)
(* ===================================================================== *)

Section Cycle.
Import PyStr PyDatetime Effects Monitor Spec.

Lemma bind_ok {A B : Type} (c : M A) (k : A -> M B) (t t1 : Trace) (a : A) :
  c t = (Ok a, t1) -> bind c k t = k a t1.
Proof. intros H. unfold bind. now rewrite H. Qed.

Lemma bind_raise {A B : Type} (c : M A) (k : A -> M B) (t t1 : Trace) (e : exn) :
  c t = (Raise e, t1) -> bind c k t = (Raise e, t1).
Proof. intros H. unfold bind. now rewrite H. Qed.

Lemma send_to_teams_answered (h : Host) (url message : string) (t : Trace)
  (status_code : Z) (text : string) :
  teams_post h (length (posts t)) url message = Response status_code text ->
  exists t',
    send_to_teams h url message t = (Ok tt, t') /\
    posts t' = posts t ++ [(url, message)] /\
    clock_reads t' = clock_reads t /\
    stdout t'
    = stdout t ++ ["Posting summary to Teams"]
      ++ (if status_code =? 200 then []
          else ["❌ Teams post failed: " +:+ str_of_Z status_code
                +:+ " - " +:+ text]).
Proof.
  intros H. unfold send_to_teams, bind, print, requests_post.
  cbn [posts stdout clock_reads]. rewrite H. cbn [fst snd].
  destruct (status_code =? 200); cbn [negb]; eexists;
    (split; [reflexivity|]); cbn [posts stdout clock_reads];
    rewrite <- ?app_assoc; auto.
Qed.

Lemma send_to_teams_raised (h : Host) (url message : string) (t : Trace)
  (e : exn) :
  teams_post h (length (posts t)) url message = HttpError e ->
  send_to_teams h url message t
  = (Raise e, mkTrace (stdout t ++ ["Posting summary to Teams"])
                      (posts t ++ [(url, message)]) (clock_reads t)).
Proof.
  intros H. unfold send_to_teams, bind, print, requests_post.
  cbn [posts stdout clock_reads]. now rewrite H.
Qed.


Lemma format_pc_chat_ok (h : Host) (service_status : list (string * bool))
  (workflows : list Workflow.row) (sessions : list Session.row)
  (detailed : bool) (t : Trace) :
  exists text t',
    format_pc_chat h service_status workflows sessions detailed t = (Ok text, t')
    /\ posts t' = posts t.
Proof.
  unfold format_pc_chat. cbv [bind get_date_str datetime_now ret].
  destruct detailed; eexists _, _; split; reflexivity.
Qed.

Lemma format_pc_summary_ok (h : Host) (service_status : list (string * bool))
  (workflows : list Workflow.row) (sessions : list Session.row) (t : Trace) :
  exists text t',
    format_pc_summary h service_status workflows sessions t = (Ok text, t')
    /\ posts t' = posts t.
Proof.
  unfold format_pc_summary. cbv [bind print datetime_now ret].
  eexists _, _; split; reflexivity.
Qed.

Lemma format_mdm_chat_ok (h : Host) (jboss_data : list (string * list Dep.row))
  (jobs : list Job.row) (detailed : bool) (t : Trace) :
  statuses_known jobs ->
  exists text t',
    format_mdm_chat h jboss_data jobs detailed t = (Ok text, t')
    /\ posts t' = posts t.
Proof.
  intros Hk. pose proof (failed_jobs_known jobs Hk) as Hf.
  destruct (proj1 (status_dict_known jobs) Hk) as [d Hd].
  unfold format_mdm_chat. cbv [bind lift get_date_str datetime_now ret].
  rewrite Hd, Hf. cbv beta iota.
  destruct (foldl _ _ jboss_data) as [env_lines env_tables].
  destruct detailed; eexists _, _; split; reflexivity.
Qed.

Lemma format_mdm_summary_ok (h : Host) (jboss_data : list (string * list Dep.row))
  (jobs : list Job.row) (t : Trace) :
  statuses_known jobs ->
  exists text t',
    format_mdm_summary h jboss_data jobs t = (Ok text, t')
    /\ posts t' = posts t.
Proof.
  intros Hk. pose proof (failed_jobs_known jobs Hk) as Hf.
  destruct (proj1 (status_dict_known jobs) Hk) as [d Hd].
  unfold format_mdm_summary. cbv [bind lift print datetime_now ret].
  rewrite Hd, Hf. cbv beta iota.
  destruct (foldl _ _ jboss_data) as [env_summary_lines env_tables].
  eexists _, _; split; reflexivity.
Qed.

(** Whether they return or raise, the two builders post nothing. *)
Lemma format_mdm_chat_posts (h : Host) (jboss_data : list (string * list Dep.row))
  (jobs : list Job.row) (detailed : bool) (t : Trace) :
  posts (snd (format_mdm_chat h jboss_data jobs detailed t)) = posts t.
Proof.
  destruct (statuses_known_dec jobs) as [Hk | Hn].
  - destruct (format_mdm_chat_ok h jboss_data jobs detailed t Hk)
      as (text & t' & -> & P). exact P.
  - now rewrite (format_mdm_chat_raises h jboss_data jobs detailed t Hn).
Qed.

Lemma format_mdm_summary_posts (h : Host)
  (jboss_data : list (string * list Dep.row)) (jobs : list Job.row) (t : Trace) :
  posts (snd (format_mdm_summary h jboss_data jobs t)) = posts t.
Proof.
  destruct (statuses_known_dec jobs) as [Hk | Hn].
  - destruct (format_mdm_summary_ok h jboss_data jobs t Hk)
      as (text & t' & -> & P). exact P.
  - now rewrite (format_mdm_summary_raises h jboss_data jobs t Hn).
Qed.

(** Whether they return or raise, the two fetches post nothing. *)
Lemma get_recent_workflows_and_sessions_posts (h : Host) (t : Trace) :
  posts (snd (get_recent_workflows_and_sessions h t)) = posts t.
Proof.
  cbv [get_recent_workflows_and_sessions bind print lift datetime_now
       minus_two_hours ret raise].
  destruct (pc_db h); [|reflexivity].
  cbn [clock_reads stdout posts].
  now destruct (datetime_sub _ _).
Qed.

Lemma get_recent_jobs_posts (h : Host) (t : Trace) :
  posts (snd (get_recent_jobs h t)) = posts t.
Proof.
  cbv [get_recent_jobs bind print lift datetime_now minus_two_hours ret raise].
  destruct (mdm_db h); [|reflexivity].
  cbn [clock_reads stdout posts].
  now destruct (datetime_sub _ _).
Qed.


End Cycle.

Section CycleRuns.
Import PyStr PyDatetime Effects Monitor Spec.



End CycleRuns.

Section Deliveries.
Import PyStr PyDatetime Effects Monitor Spec.




Lemma date_format_same (dt : datetime) :
  strftime "%B %#d, %Y" dt = strftime "%B %-d, %Y" dt.
Proof. reflexivity. Qed.

(** C9.  Two calls of a summary builder with the same service statuses
    and the same records, made when the clock reads the same, return the
    same text, whatever else differs between the two calls (what was
    printed or posted before, the platform): the terse and the detailed
    PowerCenter report and the terse and the detailed MDM report are
    functions of their arguments and the clock reading.  The two MDM
    builders return a text when every record has a status text; with a
    record whose status is [NULL] both calls raise the same error. *)
Theorem C9_reports_depend_on_inputs_and_clock_only
  (h1 h2 : Host) (t1 t2 : Trace)
  (service_status : list (string * bool))
  (workflows : list Workflow.row) (sessions : list Session.row)
  (jboss_data : list (string * list Dep.row)) (jobs : list Job.row)
  (detailed : bool) :
  clock h1 (clock_reads t1) = clock h2 (clock_reads t2) ->
  (exists text,
      fst (format_pc_chat h1 service_status workflows sessions detailed t1) = Ok text /\
      fst (format_pc_chat h2 service_status workflows sessions detailed t2) = Ok text) /\
  (exists text,
      fst (format_pc_summary h1 service_status workflows sessions t1) = Ok text /\
      fst (format_pc_summary h2 service_status workflows sessions t2) = Ok text) /\
  fst (format_mdm_chat h1 jboss_data jobs detailed t1)
  = fst (format_mdm_chat h2 jboss_data jobs detailed t2) /\
  fst (format_mdm_summary h1 jboss_data jobs t1)
  = fst (format_mdm_summary h2 jboss_data jobs t2) /\
  (statuses_known jobs ->
   (exists text,
       fst (format_mdm_chat h1 jboss_data jobs detailed t1) = Ok text /\
       fst (format_mdm_chat h2 jboss_data jobs detailed t2) = Ok text) /\
   (exists text,
       fst (format_mdm_summary h1 jboss_data jobs t1) = Ok text /\
       fst (format_mdm_summary h2 jboss_data jobs t2) = Ok text)) /\
  (~ statuses_known jobs ->
   fst (format_mdm_chat h1 jboss_data jobs detailed t1) = Raise no_lower /\
   fst (format_mdm_summary h1 jboss_data jobs t1) = Raise no_lower).
Proof.
  intros Hclock.
  assert (fst (format_mdm_chat h1 jboss_data jobs detailed t1)
          = fst (format_mdm_chat h2 jboss_data jobs detailed t2) /\
          fst (format_mdm_summary h1 jboss_data jobs t1)
          = fst (format_mdm_summary h2 jboss_data jobs t2)) as [Hchat Hsummary].
  { unfold format_mdm_chat, format_mdm_summary.
    cbv [bind lift get_date_str datetime_now ret print].
    destruct (status_dict jobs) as [d|e]; [|split; reflexivity].
    destruct (failed_jobs jobs) as [failed|e]; [|split; reflexivity].
    destruct detailed,
             (String.eqb (platform_system h1) "Windows"),
             (String.eqb (platform_system h2) "Windows");
      destruct (foldl _ _ jboss_data) as [env_lines env_tables];
      destruct (foldl _ _ jboss_data) as [env_summary_lines env_tables'];
      cbn [clock_reads fst]; rewrite Hclock, ?date_format_same;
      split; reflexivity. }
  split; [|split; [|split; [exact Hchat|split; [exact Hsummary|split]]]].
  - unfold format_pc_chat. cbv [bind get_date_str datetime_now ret].
    destruct detailed,
             (String.eqb (platform_system h1) "Windows"),
             (String.eqb (platform_system h2) "Windows");
      cbn [clock_reads fst]; rewrite Hclock, ?date_format_same;
      eexists; split; reflexivity.
  - unfold format_pc_summary. cbv [bind datetime_now ret print].
    destruct (String.eqb (platform_system h1) "Windows"),
             (String.eqb (platform_system h2) "Windows");
      cbn [clock_reads fst]; rewrite Hclock, ?date_format_same;
      eexists; split; reflexivity.
  - intros Hk. split.
    + destruct (format_mdm_chat_ok h1 jboss_data jobs detailed t1 Hk)
        as (text & t' & E & _).
      exists text. rewrite <- Hchat, E. split; reflexivity.
    + destruct (format_mdm_summary_ok h1 jboss_data jobs t1 Hk)
        as (text & t' & E & _).
      exists text. rewrite <- Hsummary, E. split; reflexivity.
  - intros Hn.
    now rewrite (format_mdm_chat_raises h1 jboss_data jobs detailed t1 Hn),
                (format_mdm_summary_raises h1 jboss_data jobs t1 Hn).
Qed.

(** The terse PowerCenter report built on Linux at the start of a run
    and on Windows later in a run, the clock reading 2024-03-10 both
    times: the two texts are the same. *)
Lemma C9_reports_depend_on_inputs_and_clock_only_witness :
  exists text,
    fst (format_pc_chat (Sample.host Sample.teams_ok)
                        [("DEV", true); ("SIT", false)] [] [] false empty_trace)
    = Ok text /\
    fst (format_pc_chat Sample.windows_host
                        [("DEV", true); ("SIT", false)] [] [] false
                        Sample.later_trace)
    = Ok text.
Proof.
  destruct (C9_reports_depend_on_inputs_and_clock_only
              (Sample.host Sample.teams_ok) Sample.windows_host
              empty_trace Sample.later_trace
              [("DEV", true); ("SIT", false)] [] [] [] [] false)
    as (H & _).
  - reflexivity.
  - exact H.
Defined.

End Deliveries.

(* ===================================================================== *)
(** ** Start-up validation *)
(* ===================================================================== *)

Section StartupFacts.
Import PyStr Effects Startup.

Lemma is_falsy_true (value : option string) :
  is_falsy value = true <-> value = None \/ value = Some EmptyString.
Proof.
  destruct value as [[|c s]|]; simpl; split; auto; try discriminate;
    intros [H | H]; discriminate.
Qed.

Lemma filter_sublist {A : Type} (f : A -> bool) (xs : list A) :
  List.filter f xs `sublist_of` xs.
Proof.
  induction xs as [|x xs IH]; simpl; [constructor|].
  destruct (f x); [now apply sublist_skip | now apply sublist_cons].
Qed.

Lemma missing_vars_spec (environ : gmap string string) (var : string) :
  var ∈ missing_vars environ <->
  var ∈ REQUIRED_VARS /\
  (environ !! var = None \/ environ !! var = Some EmptyString).
Proof.
  unfold missing_vars, getenv.
  rewrite list_elem_of_In, filter_In, <- list_elem_of_In, is_falsy_true.
  reflexivity.
Qed.

(** X1.  The start-up validation passes, printing its line, exactly when
    every required variable is set to a non-empty value; a variable that
    is set to the empty string is missing like one that is not set.
    Otherwise it raises, printing nothing, and the message names the
    missing variables, each once and in the order of the required
    list. *)
Theorem validate_env_passes_iff_all_set (environ : gmap string string)
  (t : Trace) :
  ((forall var, var ∈ REQUIRED_VARS ->
      exists value, environ !! var = Some value /\ value <> EmptyString) <->
   validate_env environ t
   = (Ok tt, mkTrace (stdout t ++ ["✅ All required environment variables are loaded."])
                     (posts t) (clock_reads t))) /\
  ((exists var, var ∈ REQUIRED_VARS /\
                (environ !! var = None \/ environ !! var = Some EmptyString)) <->
   validate_env environ t
   = (Raise (Exception
               ("❌ Missing required environment variables: "
                +:+ join ", " (missing_vars environ) +:+ nl
                +:+ "➡️ Please check your .env file.")), t)) /\
  (forall var, var ∈ missing_vars environ <->
               var ∈ REQUIRED_VARS /\
               (environ !! var = None \/ environ !! var = Some EmptyString)) /\
  missing_vars environ `sublist_of` REQUIRED_VARS /\
  NoDup (missing_vars environ).
Proof.
  assert (NoDup REQUIRED_VARS) as Hnd
    by (apply (bool_decide_unpack (NoDup REQUIRED_VARS)); vm_compute; reflexivity).
  assert (missing_vars environ `sublist_of` REQUIRED_VARS) as Hsub
    by apply filter_sublist.
  split; [|split; [|split; [apply missing_vars_spec|split; [exact Hsub|]]]].
  - unfold validate_env. split.
    + intros Hall. destruct (missing_vars environ) as [|var rest] eqn:E;
        [reflexivity|].
      assert (var ∈ missing_vars environ) as Hin
        by (rewrite E; apply list_elem_of_here).
      apply missing_vars_spec in Hin as [Hreq Hbad].
      destruct (Hall var Hreq) as (value & Hv & Hne).
      destruct Hbad as [Hbad | Hbad]; rewrite Hv in Hbad;
        [discriminate | injection Hbad as ->; contradiction].
    + intros Hrun var Hreq.
      destruct (missing_vars environ) as [|v rest] eqn:E; [|discriminate].
      destruct (environ !! var) as [value|] eqn:Hv.
      * exists value. split; [reflexivity|]. intros ->.
        assert (var ∈ missing_vars environ) as Hin
          by (apply missing_vars_spec; auto).
        rewrite E in Hin. inversion Hin.
      * assert (var ∈ missing_vars environ) as Hin
          by (apply missing_vars_spec; auto).
        rewrite E in Hin. inversion Hin.
  - unfold validate_env. split.
    + intros (var & Hreq & Hbad).
      assert (var ∈ missing_vars environ) as Hin
        by (apply missing_vars_spec; auto).
      destruct (missing_vars environ) as [|v rest]; [inversion Hin | reflexivity].
    + intros Hrun. destruct (missing_vars environ) as [|v rest] eqn:E;
        [discriminate|].
      exists v. apply missing_vars_spec. rewrite E. apply list_elem_of_here.
  - eapply sublist_NoDup; eassumption.
Qed.

(** An environment in which only the two webhooks are given, one of them
    as the empty string: the validation raises. *)
Example validate_env_empty_value_is_missing :
  let environ : gmap string string :=
    <["WEBHOOK_CHAT" := "https://teams.example/chat"]>
      (<["WEBHOOK_POST" := EmptyString]> ∅) in
  ("WEBHOOK_POST" ∈ missing_vars environ) /\
  ("WEBHOOK_CHAT" ∉ missing_vars environ) /\
  (length (missing_vars environ) = 18%nat).
Proof.
  cbv zeta. split; [|split].
  - apply (bool_decide_unpack _). vm_compute. reflexivity.
  - apply (bool_decide_unpack _). vm_compute. reflexivity.
  - vm_compute. reflexivity.
Qed.

End StartupFacts.

(* ===================================================================== *)
(** ** The entries of the MDM health check *)
(* ===================================================================== *)

Section MdmEntries.
Import PyStr PyDatetime Effects Monitor Spec Vocabulary.

Lemma made_row_shows (dep : string) (rt : DeploymentRuntime) :
  row_shows
    (Dep.mk dep
       (if match runtime_status rt with
           | Some v => String.eqb v "OK"
           | None => false
           end then ok_glyph else fail_glyph)
       (if runtime_enabled rt then ok_glyph else fail_glyph))
    rt.
Proof.
  unfold row_shows. cbn [Dep.Status Dep.Enabled].
  destruct (runtime_status rt) as [v|]; destruct (runtime_enabled rt);
    try destruct (String.eqb_spec v "OK") as [->|Hne];
    repeat split; auto; try discriminate; try congruence.
Qed.

Lemma reads_ok (h : Host) (env : string) (creds : Creds) (deps : list string) :
  forall (i : nat) (acc : list Dep.row) (t : Trace) (n : nat)
         (rows : list Dep.row) (t' : Trace),
    for_each deps (read_deployment h env creds) (i, acc) t = (Ok (n, rows), t') ->
    t' = t /\
    exists new,
      rows = acc ++ new /\
      Forall2 (fun row a => Dep.Deployment row = a.1 /\ row_shows row a.2)
              new (answered h env creds i deps).
Proof.
  induction deps as [|dep deps IH]; intros i acc t n rows t' H.
  - cbn in H. injection H as <- <- <-. split; [reflexivity|].
    exists []. rewrite app_nil_r. split; [reflexivity | constructor].
  - cbn [for_each] in H. unfold bind in H. unfold read_deployment at 1 in H.
    cbn [answered].
    destruct (jboss_read h env creds i dep) as [e | code body] eqn:E.
    + discriminate.
    + destruct (code =? 200) eqn:C.
      * destruct body as [rt | e]; [|discriminate].
        cbv [lift ret] in H.
        apply IH in H as (-> & new & -> & Hrows).
        split; [reflexivity|].
        eexists (_ :: new). split; [now rewrite <- app_assoc|].
        constructor; [|exact Hrows].
        split; [reflexivity | apply made_row_shows].
      * cbv [ret] in H.
        apply IH in H as (-> & new & -> & Hrows).
        split; [reflexivity|]. exists new. split; [reflexivity|].
        now destruct body.
Qed.

Lemma reads_total (h : Host) (env : string) (creds : Creds) (deps : list string) :
  forall (i : nat) (acc : list Dep.row) (t : Trace),
    (forall j dep, deps !! j = Some dep ->
                   ~ read_raises h env creds (i + j) dep) ->
    exists n rows,
      for_each deps (read_deployment h env creds) (i, acc) t = (Ok (n, rows), t).
Proof.
  induction deps as [|dep deps IH]; intros i acc t Hno.
  - now exists i, acc.
  - assert (~ read_raises h env creds i dep) as Hhead
      by (specialize (Hno 0%nat dep eq_refl); now rewrite Nat.add_0_r in Hno).
    assert (forall j d, deps !! j = Some d ->
                        ~ read_raises h env creds (S i + j) d) as Htail
      by (intros j d Hj; specialize (Hno (S j) d Hj);
          now rewrite Nat.add_succ_r in Hno).
    cbn [for_each]. unfold bind, read_deployment at 1.
    destruct (jboss_read h env creds i dep) as [e | code body] eqn:E.
    + exfalso. apply Hhead. left. eauto.
    + destruct (code =? 200) eqn:C.
      * apply Z.eqb_eq in C. subst code.
        destruct body as [rt | e].
        -- cbv [lift ret]. apply IH, Htail.
        -- exfalso. apply Hhead. right. eauto.
      * cbv [ret]. apply IH, Htail.
Qed.

Lemma check_mdm_env_reads (h : Host) (env : string) (creds : Creds)
  (deps : list string) (t : Trace) :
  jboss_list h env creds = Response 200 (Ok deps) ->
  (forall i dep, deps !! i = Some dep -> ~ read_raises h env creds i dep) ->
  exists rows,
    check_mdm_env h env creds t
    = (Ok (match rows with [] => NOT_REACHABLE | _ :: _ => rows end), t) /\
    Forall2 (fun row a => Dep.Deployment row = a.1 /\ row_shows row a.2)
            rows (answered h env creds 0 deps).
Proof.
  intros Hlist Hno.
  destruct (reads_total h env creds deps 0%nat [] t Hno) as (n & rows & Hrun).
  destruct (reads_ok h env creds deps _ _ _ _ _ _ Hrun)
    as (_ & new & Hnew & Hrows).
  cbn [app] in Hnew. subst new.
  exists rows. split; [|exact Hrows].
  unfold check_mdm_env, try_except. rewrite Hlist.
  cbn [Z.eqb Pos.eqb negb]. unfold bind at 1. cbv [lift].
  unfold bind at 1. rewrite Hrun. reflexivity.
Qed.

(** The passing count of an entry is the number of healthy resources
    among those its rows show. *)
Lemma ok_count_shows (rows : list Dep.row)
  (resources : list (string * DeploymentRuntime)) :
  Forall2 (fun row a => Dep.Deployment row = a.1 /\ row_shows row a.2)
          rows resources ->
  ok_count rows = length (List.filter (fun a => healthy a.2) resources).
Proof.
  unfold ok_count. induction 1 as [|row a rows resources [_ Hshow] _ IH];
    [reflexivity|].
  cbn [List.filter].
  assert (String.eqb (Dep.Status row) ok_glyph
          && String.eqb (Dep.Enabled row) ok_glyph = healthy a.2) as ->.
  { destruct Hshow as (Hs & _ & He & _). unfold healthy.
    apply eq_true_iff_eq.
    rewrite !andb_true_iff, !String.eqb_eq, Hs, He.
    destruct (runtime_status a.2) as [v|].
    - rewrite String.eqb_eq. split; intros [H1 H2]; (split; [congruence | exact H2]).
    - split; intros [H1 H2]; discriminate.
  }
  destruct (healthy a.2); cbn [length]; now rewrite IH.
Qed.

(** The entries of the two environments are what the probe of each
    returns, the second probe running in the trace the first has left. *)
Lemma check_mdm_apps_entries (cfg : Config) (h : Host) (t : Trace) :
  exists sit prd t1 t2 t3,
    check_mdm_apps cfg h t = (Ok [("SIT", sit); ("PRD", prd)], t3) /\
    check_mdm_env h "SIT"
      (mkCreds (SIT_JBOSS_URL cfg) (SIT_JBOSS_USER cfg) (SIT_JBOSS_PASS cfg)) t1
    = (Ok sit, t2) /\
    check_mdm_env h "PRD"
      (mkCreds (PRD_JBOSS_URL cfg) (PRD_JBOSS_USER cfg) (PRD_JBOSS_PASS cfg)) t2
    = (Ok prd, t3).
Proof.
  set (c1 := mkCreds (SIT_JBOSS_URL cfg) (SIT_JBOSS_USER cfg) (SIT_JBOSS_PASS cfg)).
  set (c2 := mkCreds (PRD_JBOSS_URL cfg) (PRD_JBOSS_USER cfg) (PRD_JBOSS_PASS cfg)).
  destruct (check_mdm_env_run h "SIT" c1) as (sit & _ & _ & Hs).
  destruct (check_mdm_env_run h "PRD" c2) as (prd & _ & _ & Hp).
  set (t1 := mkTrace (stdout t ++ ["Checking Master Data Management apps"])
                     (posts t) (clock_reads t)).
  destruct (Hs t1) as (t2 & E2 & _).
  destruct (Hp t2) as (t3 & E3 & _).
  exists sit, prd, t1, t2, t3. split; [|split; assumption].
  unfold check_mdm_apps, ENVIRONMENTS. fold c1 c2.
  cbv [bind print for_each ret]. fold t1. rewrite E2, E3. reflexivity.
Qed.

(** X2.  For an environment whose listing is answered with status 200
    and a decodable body, and none of whose deployment posts raises, the
    health check of the MDM applications reports, when at least one
    deployment is answered with status 200, exactly one row for each such
    deployment, in the order of the listing; a deployment answered with
    another status is left out without a word.  The row of a deployment
    shows the success glyph under Status exactly for the status [OK] and
    under Enabled exactly for an enabled resource, the failure glyph
    otherwise. *)
Theorem check_mdm_apps_reports_answered_deployments
  (cfg : Config) (h : Host) (t : Trace) (env : string) (creds : Creds)
  (deps : list string) :
  (env, creds) ∈ ENVIRONMENTS cfg ->
  jboss_list h env creds = Response 200 (Ok deps) ->
  (forall i dep, deps !! i = Some dep -> ~ read_raises h env creds i dep) ->
  answered h env creds 0 deps <> [] ->
  exists data t' rows,
    check_mdm_apps cfg h t = (Ok data, t') /\
    dict_get env data = Some rows /\
    Forall2 (fun row a => Dep.Deployment row = a.1 /\ row_shows row a.2)
            rows (answered h env creds 0 deps).
Proof.
  intros Hin Hlist Hno Hsome.
  destruct (check_mdm_apps_entries cfg h t)
    as (sit & prd & t1 & t2 & t3 & Hrun & Hsit & Hprd).
  assert (forall t0 entry t0',
             check_mdm_env h env creds t0 = (Ok entry, t0') ->
             Forall2 (fun row a => Dep.Deployment row = a.1 /\ row_shows row a.2)
                     entry (answered h env creds 0 deps)) as Hentry.
  { intros t0 entry t0' H0.
    destruct (check_mdm_env_reads h env creds deps t0 Hlist Hno)
      as (rows & Hrows & Hshow).
    rewrite Hrows in H0. injection H0 as <- _.
    destruct rows as [|row rows]; [|exact Hshow].
    exfalso. apply Hsome. now inversion Hshow. }
  unfold ENVIRONMENTS in Hin.
  apply elem_of_cons in Hin as [Hin | Hin];
    [|apply elem_of_cons in Hin as [Hin | Hin]; [|inversion Hin]];
    injection Hin as -> ->.
  - exists [("SIT", sit); ("PRD", prd)], t3, sit.
    split; [exact Hrun|]. split; [reflexivity|]. exact (Hentry _ _ _ Hsit).
  - exists [("SIT", sit); ("PRD", prd)], t3, prd.
    split; [exact Hrun|]. split; [reflexivity|]. exact (Hentry _ _ _ Hprd).
Qed.

(** In the surroundings with three listed deployments, of which the
    second is answered with 404, the SIT entry has the rows of the first
    and the third. *)
Lemma check_mdm_apps_reports_answered_deployments_witness :
  exists data t' rows,
    check_mdm_apps Sample.config Scenes.mixed_host empty_trace = (Ok data, t') /\
    dict_get "SIT" data = Some rows /\
    map Dep.Deployment rows = ["mdm-app.ear"; "broken.war"].
Proof.
  destruct (check_mdm_apps_reports_answered_deployments
              Sample.config Scenes.mixed_host empty_trace "SIT"
              (mkCreds "https://sit.example:9990/management" "monitor" "secret")
              ["mdm-app.ear"; "gone.war"; "broken.war"])
    as (data & t' & rows & Hrun & Hget & Hrows).
  - apply list_elem_of_here.
  - reflexivity.
  - intros i dep _ [[e He] | [e He]];
      destruct i as [|[|i]]; discriminate.
  - discriminate.
  - exists data, t', rows. split; [exact Hrun|]. split; [exact Hget|].
    cbn in Hrows.
    inversion Hrows as [|r1 a1 l1 l1' [H1 _] Hrows1]; subst.
    inversion Hrows1 as [|r2 a2 l2 l2' [H2 _] Hrows2]; subst.
    inversion Hrows2; subst. cbn. now rewrite H1, H2.
Defined.

(** X3.  An environment whose listing is answered with status 200 but
    none of whose deployments is (the listing is empty, or every
    deployment post is answered with a status other than 200) is reported
    like an unreachable one, with the single row N/A, failure glyph, Not
    Reachable, and not with an empty list. *)
Theorem check_mdm_apps_without_answered_deployment
  (cfg : Config) (h : Host) (t : Trace) (env : string) (creds : Creds)
  (deps : list string) :
  (env, creds) ∈ ENVIRONMENTS cfg ->
  jboss_list h env creds = Response 200 (Ok deps) ->
  (forall i dep, deps !! i = Some dep ->
                 exists status_code body,
                   jboss_read h env creds i dep = Response status_code body /\
                   status_code <> 200) ->
  exists data t',
    check_mdm_apps cfg h t = (Ok data, t') /\
    dict_get env data = Some [Dep.mk "N/A" "❌" "Not Reachable"].
Proof.
  intros Hin Hlist Hnot.
  assert (forall i dep, deps !! i = Some dep -> ~ read_raises h env creds i dep)
    as Hno.
  { intros i dep Hi Hr. destruct (Hnot i dep Hi) as (code & body & Hread & Hne).
    destruct Hr as [[e He] | [e He]]; congruence. }
  assert (forall k, (forall i dep, deps !! i = Some dep ->
                       exists status_code body,
                         jboss_read h env creds (k + i) dep
                         = Response status_code body /\ status_code <> 200) ->
                    answered h env creds k deps = []) as Hnone.
  { clear. induction deps as [|dep deps IH]; intros k H; [reflexivity|].
    cbn [answered].
    destruct (H 0%nat dep eq_refl) as (code & body & Hread & Hne).
    rewrite Nat.add_0_r in Hread. rewrite Hread.
    apply Z.eqb_neq in Hne. rewrite Hne.
    assert (answered h env creds (S k) deps = []) as ->; [|now destruct body].
    apply IH.
    intros i d Hi. specialize (H (S i) d Hi).
    now rewrite Nat.add_succ_r in H. }
  specialize (Hnone 0%nat Hnot).
  destruct (check_mdm_apps_entries cfg h t)
    as (sit & prd & t1 & t2 & t3 & Hrun & Hsit & Hprd).
  assert (forall t0 entry t0',
             check_mdm_env h env creds t0 = (Ok entry, t0') ->
             entry = NOT_REACHABLE) as Hentry.
  { intros t0 entry t0' H0.
    destruct (check_mdm_env_reads h env creds deps t0 Hlist Hno)
      as (rows & Hrows & Hshow).
    rewrite Hrows in H0. injection H0 as <- _.
    rewrite Hnone in Hshow. now inversion Hshow. }
  unfold ENVIRONMENTS in Hin.
  apply elem_of_cons in Hin as [Hin | Hin];
    [|apply elem_of_cons in Hin as [Hin | Hin]; [|inversion Hin]];
    injection Hin as -> ->.
  - exists [("SIT", sit); ("PRD", prd)], t3.
    split; [exact Hrun|]. cbn. now rewrite (Hentry _ _ _ Hsit).
  - exists [("SIT", sit); ("PRD", prd)], t3.
    split; [exact Hrun|]. cbn. now rewrite (Hentry _ _ _ Hprd).
Qed.

(** In the surroundings where every deployment post is answered with
    404, the PRD entry is the Not Reachable row. *)
Lemma check_mdm_apps_without_answered_deployment_witness :
  exists data t',
    check_mdm_apps Sample.config Scenes.hollow_host empty_trace = (Ok data, t') /\
    dict_get "PRD" data = Some [Dep.mk "N/A" "❌" "Not Reachable"].
Proof.
  apply (check_mdm_apps_without_answered_deployment
           Sample.config Scenes.hollow_host empty_trace "PRD"
           (mkCreds "https://prd.example:9990/management" "monitor" "secret")
           ["mdm-app.ear"; "gone.war"]).
  - apply list_elem_of_further, list_elem_of_here.
  - reflexivity.
  - intros i dep _. exists 404, (Raise (Exception "no body")).
    split; [reflexivity | discriminate].
Defined.

End MdmEntries.

(* ===================================================================== *)
(** ** The shape of a cycle *)
(* ===================================================================== *)

Section CycleShape.
Import PyStr PyDatetime Effects Monitor Spec Vocabulary.

Lemma posts_to_bind {A B : Type} (l1 l2 : list string) (c : M A) (k : A -> M B) :
  posts_to l1 c -> (forall a, posts_to l2 (k a)) -> posts_to (l1 ++ l2) (bind c k).
Proof.
  intros Hc Hk t. unfold bind.
  destruct (Hc t) as (n1 & P1 & S1).
  destruct (c t) as [[a | e] t1]; cbn [fst snd] in *.
  - destruct (Hk a t1) as (n2 & P2 & S2).
    exists (n1 ++ n2). split; [now rewrite P2, P1, app_assoc|].
    rewrite map_app, S1.
    destruct (fst (k a t1)); [now rewrite S2 | now apply prefix_app].
  - exists n1. split; [exact P1 | now apply prefix_app_r].
Qed.

Lemma posts_to_quiet {A : Type} (c : M A) :
  (forall t, posts (snd (c t)) = posts t) -> posts_to [] c.
Proof.
  intros H t. exists []. rewrite app_nil_r. split; [apply H|].
  destruct (fst (c t)); reflexivity.
Qed.

Lemma posts_to_print (line : string) : posts_to [] (print line).
Proof. now apply posts_to_quiet. Qed.

Lemma posts_to_check_pc_service (cfg : Config) (h : Host) :
  posts_to [] (check_pc_service cfg h).
Proof.
  apply posts_to_quiet. intros t.
  destruct (check_pc_service_run cfg h t) as (t' & -> & P & _). exact P.
Qed.

Lemma posts_to_check_mdm_apps (cfg : Config) (h : Host) :
  posts_to [] (check_mdm_apps cfg h).
Proof.
  apply posts_to_quiet. intros t.
  destruct (check_mdm_apps_run cfg h) as (sit & prd & _ & _ & _ & Hrun).
  destruct (Hrun t) as (t' & -> & P & _). exact P.
Qed.

Lemma posts_to_get_recent_workflows_and_sessions (h : Host) :
  posts_to [] (get_recent_workflows_and_sessions h).
Proof.
  apply posts_to_quiet, get_recent_workflows_and_sessions_posts.
Qed.

Lemma posts_to_get_recent_jobs (h : Host) : posts_to [] (get_recent_jobs h).
Proof. apply posts_to_quiet, get_recent_jobs_posts. Qed.

Lemma posts_to_format_pc_chat (h : Host) (service_status : list (string * bool))
  (workflows : list Workflow.row) (sessions : list Session.row) (detailed : bool) :
  posts_to [] (format_pc_chat h service_status workflows sessions detailed).
Proof.
  apply posts_to_quiet. intros t.
  destruct (format_pc_chat_ok h service_status workflows sessions detailed t)
    as (text & t' & -> & P). exact P.
Qed.

Lemma posts_to_format_pc_summary (h : Host) (service_status : list (string * bool))
  (workflows : list Workflow.row) (sessions : list Session.row) :
  posts_to [] (format_pc_summary h service_status workflows sessions).
Proof.
  apply posts_to_quiet. intros t.
  destruct (format_pc_summary_ok h service_status workflows sessions t)
    as (text & t' & -> & P). exact P.
Qed.

Lemma posts_to_format_mdm_chat (h : Host) (jboss_data : list (string * list Dep.row))
  (jobs : list Job.row) (detailed : bool) :
  posts_to [] (format_mdm_chat h jboss_data jobs detailed).
Proof.
  apply posts_to_quiet, format_mdm_chat_posts.
Qed.

Lemma posts_to_format_mdm_summary (h : Host) (jboss_data : list (string * list Dep.row))
  (jobs : list Job.row) :
  posts_to [] (format_mdm_summary h jboss_data jobs).
Proof.
  apply posts_to_quiet, format_mdm_summary_posts.
Qed.

Lemma posts_to_send_to_teams (h : Host) (url message : string) :
  posts_to [url] (send_to_teams h url message).
Proof.
  intros t. exists [(url, message)].
  destruct (teams_post h (length (posts t)) url message) as [e | code text] eqn:E.
  - rewrite (send_to_teams_raised _ _ _ _ _ E). cbn. split; reflexivity.
  - destruct (send_to_teams_answered _ _ _ _ _ _ E) as (t' & -> & P & _).
    split; [exact P | reflexivity].
Qed.

Lemma monitor_unfold (cfg : Config) (h : Host) (t : Trace) :
  monitor cfg h t
  = try_except (cycle_body cfg h)
      (fun e => print ("❌ Error during monitoring: " +:+ exn_msg e))
      (mkTrace (stdout t ++ [nl +:+ "📅 Running Monitoring at "
                             +:+ str_of_datetime (clock h (clock_reads t))])
               (posts t) (S (clock_reads t))).
Proof. reflexivity. Qed.

Lemma cycle_body_posts (cfg : Config) (h : Host) :
  posts_to (cycle_targets cfg) (cycle_body cfg h).
Proof.
  unfold cycle_body, cycle_targets.
  apply (posts_to_bind [] _); [apply posts_to_check_pc_service | intros pc_service].
  apply (posts_to_bind [] _); [apply posts_to_check_mdm_apps | intros mdm_apps].
  apply (posts_to_bind [] _);
    [apply posts_to_get_recent_workflows_and_sessions | intros fetched].
  cbv zeta.
  apply (posts_to_bind [] _); [apply posts_to_get_recent_jobs | intros jobs].
  apply (posts_to_bind [] _); [apply posts_to_format_pc_chat | intros pc_chat].
  apply (posts_to_bind [] _); [apply posts_to_format_mdm_chat | intros mdm_chat].
  apply (posts_to_bind [WEBHOOK_CHAT cfg] _); [apply posts_to_send_to_teams | intros _].
  apply (posts_to_bind [WEBHOOK_CHAT cfg] _); [apply posts_to_send_to_teams | intros _].
  apply (posts_to_bind [] _); [apply posts_to_format_pc_summary | intros pc_summary].
  apply (posts_to_bind [] _); [apply posts_to_format_mdm_summary | intros mdm_summary].
  apply (posts_to_bind [WEBHOOK_POST cfg] _); [apply posts_to_send_to_teams | intros _].
  apply (posts_to_bind [WEBHOOK_POST cfg] []); [apply posts_to_send_to_teams | intros _].
  apply posts_to_print.
Qed.

Lemma ends_with_bind {A B : Type} (line : string) (c : M A) (k : A -> M B) :
  (forall a, ends_with line (k a)) -> ends_with line (bind c k).
Proof.
  intros Hk t b t' H. unfold bind in H.
  destruct (c t) as [[a | e] t1]; [|discriminate].
  exact (Hk a t1 b t' H).
Qed.

Lemma ends_with_print (line : string) : ends_with line (print line).
Proof.
  intros t a t' H. injection H as _ <-. cbn [stdout]. apply last_snoc.
Qed.

Lemma cycle_body_ends (cfg : Config) (h : Host) :
  ends_with "✅ Monitoring complete and sent to Teams." (cycle_body cfg h).
Proof.
  unfold cycle_body.
  repeat (apply ends_with_bind; intros ?). apply ends_with_print.
Qed.



(** X4.  In any surroundings, a cycle returns without raising, and the
    posts it has made go, in this order, to the chat webhook, the chat
    webhook, the post webhook and the post webhook, or to the first
    targets of that sequence: no cycle posts more than four times or out
    of that order.  The line printed last is the completion line, and then
    all four posts have been made, or the error line of the handler around
    the cycle. *)
Theorem monitor_posts_a_prefix_of_the_four_targets
  (cfg : Config) (h : Host) (t : Trace) :
  exists t' new,
    monitor cfg h t = (Ok tt, t') /\
    posts t' = posts t ++ new /\
    map fst new `prefix_of` [WEBHOOK_CHAT cfg; WEBHOOK_CHAT cfg;
                             WEBHOOK_POST cfg; WEBHOOK_POST cfg] /\
    ((last (stdout t') = Some "✅ Monitoring complete and sent to Teams." /\
      map fst new = [WEBHOOK_CHAT cfg; WEBHOOK_CHAT cfg;
                     WEBHOOK_POST cfg; WEBHOOK_POST cfg]) \/
     (exists e, last (stdout t')
                = Some ("❌ Error during monitoring: " +:+ exn_msg e))).
Proof.
  rewrite monitor_unfold.
  set (t0 := mkTrace _ (posts t) _).
  unfold try_except.
  destruct (cycle_body_posts cfg h t0) as (new & P & S).
  pose proof (cycle_body_ends cfg h t0) as Hend.
  destruct (cycle_body cfg h t0) as [[[] | e] t1]; cbn [fst snd] in *.
  - exists t1, new. split; [reflexivity|]. split; [exact P|].
    split; [now rewrite S|]. left. split; [exact (Hend tt t1 eq_refl) | exact S].
  - eexists _, new. split; [reflexivity|]. cbn [posts stdout].
    split; [exact P|]. split; [exact S|]. right. exists e. apply last_snoc.
Qed.

(** X5.  When the PowerCenter repository cannot be reached, the cycle
    makes no post at all and ends with the error line of the handler,
    carrying the message of the connection error; when the MDM database
    cannot be reached the cycle makes no post either: neither report is
    sent, also not the one of the source that did answer. *)
Theorem database_outage_ends_the_cycle_without_a_post
  (cfg : Config) (h : Host) (t : Trace) (e : exn) :
  (pc_db h = Raise e ->
   exists t',
     monitor cfg h t = (Ok tt, t') /\
     posts t' = posts t /\
     last (stdout t') = Some ("❌ Error during monitoring: " +:+ exn_msg e)) /\
  (mdm_db h = Raise e ->
   exists t' e',
     monitor cfg h t = (Ok tt, t') /\
     posts t' = posts t /\
     last (stdout t') = Some ("❌ Error during monitoring: " +:+ exn_msg e')).
Proof.
  rewrite monitor_unfold.
  set (t0 := mkTrace _ (posts t) _).
  destruct (check_pc_service_run cfg h t0) as (t1 & E1 & P1 & _).
  destruct (check_mdm_apps_run cfg h) as (sit & prd & _ & _ & _ & Hrun).
  destruct (Hrun t1) as (t2 & E2 & P2 & _).
  assert (posts t2 = posts t) as P by (rewrite P2, P1; reflexivity).
  split; intros Hdb.
  - eexists. unfold try_except, cycle_body.
    rewrite (bind_ok _ _ _ _ _ E1), (bind_ok _ _ _ _ _ E2).
    erewrite bind_raise
      by (cbv [get_recent_workflows_and_sessions bind print lift];
          rewrite Hdb; reflexivity).
    split; [reflexivity|]. cbn [posts stdout].
    split; [exact P | apply last_snoc].
  - destruct (posts_to_get_recent_workflows_and_sessions h t2) as (n3 & P3 & S3).
    destruct (get_recent_workflows_and_sessions h t2) as [[fetched | e3] t3] eqn:E3;
      cbn [fst snd] in *.
    + eexists _, e. unfold try_except, cycle_body.
      rewrite (bind_ok _ _ _ _ _ E1), (bind_ok _ _ _ _ _ E2),
              (bind_ok _ _ _ _ _ E3).
      cbv zeta.
      erewrite bind_raise
        by (cbv [get_recent_jobs bind print lift]; rewrite Hdb; reflexivity).
      split; [reflexivity|]. cbn [posts stdout].
      apply (f_equal (@length _)) in S3. destruct n3; [|discriminate].
      rewrite app_nil_r in P3.
      split; [congruence | apply last_snoc].
    + eexists _, e3. unfold try_except, cycle_body.
      rewrite (bind_ok _ _ _ _ _ E1), (bind_ok _ _ _ _ _ E2),
              (bind_raise _ _ _ _ _ E3).
      split; [reflexivity|]. cbn [posts stdout].
      apply prefix_nil_inv in S3. destruct n3; [|discriminate].
      rewrite app_nil_r in P3.
      split; [congruence | apply last_snoc].
Qed.

(** With a PowerCenter repository that refuses the login, nothing is
    posted and the error line carries the message of the driver. *)
Lemma database_outage_ends_the_cycle_without_a_post_witness :
  exists t',
    monitor Sample.config Scenes.pc_down_host empty_trace = (Ok tt, t') /\
    posts t' = [] /\
    last (stdout t') = Some "❌ Error during monitoring: Login timeout expired".
Proof.
  apply (database_outage_ends_the_cycle_without_a_post
           Sample.config Scenes.pc_down_host empty_trace
           (Exception "Login timeout expired")).
  reflexivity.
Defined.

End CycleShape.

Section Completion.
Import PyStr PyDatetime Effects Monitor Spec Vocabulary.

Variable cfg : Config.
Variable h : Host.
Hypothesis posts_answered :
  forall i url message,
    exists status_code text, teams_post h i url message = Response status_code text.
Hypothesis pc_answers : exists db, pc_db h = Ok db.
Hypothesis mdm_answers :
  exists db, mdm_db h = Ok db /\ statuses_known (mdm_job_rows db).
Hypothesis clock_in_range :
  forall k, valid_datetime (clock h k) = true /\ 1 < toordinal (clock h k).





End Completion.

Section CompletionLine.
Import PyStr PyDatetime Effects Monitor Spec Vocabulary.


End CompletionLine.

Section CompletionWitness.
Import PyStr PyDatetime Effects Monitor Spec Vocabulary.


End CompletionWitness.

Section ServicesLine.
Import PyStr PyDatetime Effects Monitor Spec Vocabulary.

(** X7.  For an environment whose listing is answered with status 200
    and a decodable body, and none of whose deployment posts raises, the
    line of the environment under Services Status, which both MDM reports
    print, counts as passing the deployments answered with status 200
    whose resource has the status [OK] and is enabled, and as failing the
    other deployments answered with status 200; a deployment answered
    with another status is in neither count.  When no deployment is
    answered with status 200 the line reads 0 passing and 1 failing. *)
Theorem mdm_services_line_counts_answered_resources
  (cfg : Config) (h : Host) (t : Trace) (env : string) (creds : Creds)
  (deps : list string) :
  (env, creds) ∈ ENVIRONMENTS cfg ->
  jboss_list h env creds = Response 200 (Ok deps) ->
  (forall i dep, deps !! i = Some dep -> ~ read_raises h env creds i dep) ->
  exists data t' entry,
    check_mdm_apps cfg h t = (Ok data, t') /\
    dict_get env data = Some entry /\
    let resources := answered h env creds 0 deps in
    let passing := length (List.filter (fun a => healthy a.2) resources) in
    (resources <> [] ->
     env_summary_line env entry
     = env +:+ " " +:+ str_of_nat passing +:+ " ✅ | "
       +:+ str_of_nat (length resources - passing) +:+ " ❌") /\
    (resources = [] -> env_summary_line env entry = env +:+ " 0 ✅ | 1 ❌").
Proof.
  intros Hin Hlist Hno.
  destruct (check_mdm_apps_entries cfg h t)
    as (sit & prd & t1 & t2 & t3 & Hrun & Hsit & Hprd).
  assert (forall t0 entry t0',
             check_mdm_env h env creds t0 = (Ok entry, t0') ->
             let resources := answered h env creds 0 deps in
             let passing := length (List.filter (fun a => healthy a.2) resources) in
             (resources <> [] ->
              env_summary_line env entry
              = env +:+ " " +:+ str_of_nat passing +:+ " ✅ | "
                +:+ str_of_nat (length resources - passing) +:+ " ❌") /\
             (resources = [] ->
              env_summary_line env entry = env +:+ " 0 ✅ | 1 ❌")) as Hentry.
  { intros t0 entry t0' H0.
    destruct (check_mdm_env_reads h env creds deps t0 Hlist Hno)
      as (rows & Hrows & Hshow).
    rewrite Hrows in H0. injection H0 as <- _.
    cbv zeta. split.
    - intros Hsome. destruct rows as [|row rows];
        [exfalso; apply Hsome; now inversion Hshow|].
      unfold env_summary_line.
      rewrite (ok_count_shows _ _ Hshow), (Forall2_length _ _ _ Hshow).
      reflexivity.
    - intros Hnone. rewrite Hnone in Hshow. inversion Hshow. subst.
      reflexivity. }
  unfold ENVIRONMENTS in Hin.
  apply elem_of_cons in Hin as [Hin | Hin];
    [|apply elem_of_cons in Hin as [Hin | Hin]; [|inversion Hin]];
    injection Hin as -> ->.
  - exists [("SIT", sit); ("PRD", prd)], t3, sit.
    split; [exact Hrun|]. split; [reflexivity|]. exact (Hentry _ _ _ Hsit).
  - exists [("SIT", sit); ("PRD", prd)], t3, prd.
    split; [exact Hrun|]. split; [reflexivity|]. exact (Hentry _ _ _ Hprd).
Qed.

(** With three listed deployments, one answered with 404, one well and
    one failed and disabled, the SIT line reads 1 passing and 1
    failing. *)
Lemma mdm_services_line_counts_answered_resources_witness :
  exists data t' entry,
    check_mdm_apps Sample.config Scenes.mixed_host empty_trace = (Ok data, t') /\
    dict_get "SIT" data = Some entry /\
    env_summary_line "SIT" entry = "SIT 1 ✅ | 1 ❌".
Proof.
  destruct (mdm_services_line_counts_answered_resources
              Sample.config Scenes.mixed_host empty_trace "SIT"
              (mkCreds "https://sit.example:9990/management" "monitor" "secret")
              ["mdm-app.ear"; "gone.war"; "broken.war"])
    as (data & t' & entry & Hrun & Hget & Hline & _).
  - apply list_elem_of_here.
  - reflexivity.
  - intros i dep _ [[e He] | [e He]];
      destruct i as [|[|i]]; discriminate.
  - exists data, t', entry. split; [exact Hrun|]. split; [exact Hget|].
    rewrite Hline; [reflexivity | discriminate].
Defined.

End ServicesLine.

(* ===================================================================== *)
(** ** The services lines and the two modes of the chat messages *)
(* ===================================================================== *)

Section ChatModes.
Import PyStr PyDatetime Effects Monitor Spec Vocabulary.

(** The loop of [format_mdm_chat] over the environments: one summary
    line for each, and in the detailed mode one table for each. *)
Lemma chat_env_loop (detailed : bool) (jboss_data : list (string * list Dep.row)) :
  forall env_lines env_tables,
    foldl (fun '(env_lines, env_tables) '(env, deployments) =>
             (env_lines ++ [env_summary_line env deployments],
              if detailed then
                env_tables ++
                ["**" +:+ env +:+ " Applications**" +:+ nl +:+ "```" +:+ nl
                 +:+ "Deployment | Status | Enabled" +:+ nl
                 +:+ join nl (table_lines deployments) +:+ nl +:+ "```"]
              else env_tables))
          (env_lines, env_tables) jboss_data
    = (env_lines
       ++ map (fun '(env, deployments) => env_summary_line env deployments)
              jboss_data,
       if detailed then
         env_tables
         ++ map (fun '(env, deployments) =>
                   "**" +:+ env +:+ " Applications**" +:+ nl +:+ "```" +:+ nl
                   +:+ "Deployment | Status | Enabled" +:+ nl
                   +:+ join nl (table_lines deployments) +:+ nl +:+ "```")
                jboss_data
       else env_tables).
Proof.
  induction jboss_data as [|[env deployments] rest IH]; intros env_lines env_tables.
  - cbn. rewrite !app_nil_r. now destruct detailed.
  - cbn [foldl map]. rewrite IH.
    destruct detailed; now rewrite <- !app_assoc.
Qed.

(** The loop of [format_mdm_summary] over the environments. *)
Lemma summary_env_loop (jboss_data : list (string * list Dep.row)) :
  forall env_summary_lines env_tables,
    foldl (fun '(env_summary_lines, env_tables) '(env, deployments) =>
             (env_summary_lines ++ [env_summary_line env deployments],
              env_tables ++
              ["**" +:+ env +:+ " Applications**" +:+ nl
               +:+ "```" +:+ nl
               +:+ "Deployment | Status | Enabled" +:+ nl
               +:+ "-------------------------------" +:+ nl
               +:+ join nl (table_lines deployments) +:+ nl
               +:+ "```"]))
          (env_summary_lines, env_tables) jboss_data
    = (env_summary_lines
       ++ map (fun '(env, deployments) => env_summary_line env deployments)
              jboss_data,
       env_tables
       ++ map (fun '(env, deployments) =>
                 "**" +:+ env +:+ " Applications**" +:+ nl
                 +:+ "```" +:+ nl
                 +:+ "Deployment | Status | Enabled" +:+ nl
                 +:+ "-------------------------------" +:+ nl
                 +:+ join nl (table_lines deployments) +:+ nl
                 +:+ "```")
              jboss_data).
Proof.
  induction jboss_data as [|[env deployments] rest IH];
    intros env_summary_lines env_tables.
  - cbn. now rewrite !app_nil_r.
  - cbn [foldl map]. rewrite IH. now rewrite <- !app_assoc.
Qed.

Lemma append_empty_r (a b : string) : a +:+ b = EmptyString -> b = EmptyString.
Proof.
  destruct a; [now rewrite append_nil_l | rewrite append_cons; discriminate].
Qed.

Lemma ok_count_le (deployments : list Dep.row) :
  (ok_count deployments <= length deployments)%nat.
Proof. unfold ok_count. apply List.filter_length_le. Qed.

(** The pieces of a right-nested concatenation that stand before the
    piece [marker], and what is left after the first [n] pieces. *)
Ltac pieces_before marker text :=
  lazymatch text with
  | ?a +:+ (marker +:+ _) => constr:(a)
  | ?a +:+ ?rest => let h := pieces_before marker rest in constr:(a +:+ h)
  end.

Ltac pieces_after n text :=
  lazymatch n with
  | O => constr:(text)
  | S ?k => lazymatch text with _ +:+ ?rest => pieces_after k rest end
  end.

(** X8.  When every batch-job record has a status text, both MDM
    reports print, under Services Status, one line for each environment
    of the health data, in the order of the data; the line gives the
    number of rows with the success glyph both under Status and under
    Enabled as passing and the number of the other rows as failing, so
    that the two numbers add up to the number of rows of the environment.
    With a record whose status is [NULL] neither report is built: both
    builders raise the error of [None.lower()], the summary after it has
    printed its first line. *)
Theorem mdm_reports_print_a_services_line_for_each_environment
  (h : Host) (jboss_data : list (string * list Dep.row)) (jobs : list Job.row)
  (detailed : bool) (t : Trace) :
  let services :=
    join nl (map (fun '(env, deployments) =>
                    env +:+ " " +:+ str_of_nat (ok_count deployments) +:+ " ✅ | "
                    +:+ str_of_nat (length deployments - ok_count deployments)
                    +:+ " ❌")
                 jboss_data) in
  (statuses_known jobs ->
   (exists head tail t',
       format_mdm_chat h jboss_data jobs detailed t
       = (Ok (head +:+ "**Services Status**" +:+ nl +:+ services
              +:+ nl +:+ nl +:+ tail), t')) /\
   (exists head tail t',
       format_mdm_summary h jboss_data jobs t
       = (Ok (head +:+ "**Services Status**" +:+ nl +:+ services
              +:+ nl +:+ nl +:+ tail), t'))) /\
  (~ statuses_known jobs ->
   format_mdm_chat h jboss_data jobs detailed t
   = (Raise (Exception "'NoneType' object has no attribute 'lower'"), t) /\
   format_mdm_summary h jboss_data jobs t
   = (Raise (Exception "'NoneType' object has no attribute 'lower'"),
      mkTrace (stdout t ++ ["Formatting MDM summary"]) (posts t)
              (clock_reads t))) /\
  Forall (fun '(env, deployments) =>
            (ok_count deployments + (length deployments - ok_count deployments)
             = length deployments)%nat) jboss_data.
Proof.
  cbv zeta. split; [|split].
  - intros Hk. pose proof (failed_jobs_known jobs Hk) as Hf.
    destruct (proj1 (status_dict_known jobs) Hk) as [d Hd].
    split.
    + unfold format_mdm_chat.
      cbv [bind lift get_date_str datetime_now ret]. rewrite Hd, Hf.
      cbv beta iota. rewrite chat_env_loop. cbn [app].
      destruct detailed.
      * lazymatch goal with
        | |- exists head tail t', (Ok (?text +:+ ?more), ?tr) = _ =>
            let hd := pieces_before "**Services Status**" text in
            let tl := pieces_after 11%nat text in
            exists hd, (tl +:+ more), tr
        end.
        rewrite !string_app_assoc. reflexivity.
      * lazymatch goal with
        | |- exists head tail t', (Ok ?text, ?tr) = _ =>
            let hd := pieces_before "**Services Status**" text in
            let tl := pieces_after 11%nat text in
            exists hd, tl, tr
        end.
        rewrite !string_app_assoc. reflexivity.
    + unfold format_mdm_summary.
      cbv [bind lift print datetime_now ret]. rewrite Hd, Hf.
      cbv beta iota. rewrite summary_env_loop. cbn [app].
      lazymatch goal with
      | |- exists head tail t', (Ok ?text, ?tr) = _ =>
          let hd := pieces_before "**Services Status**" text in
          let tl := pieces_after 11%nat text in
          exists hd, tl, tr
      end.
      rewrite !string_app_assoc. reflexivity.
  - intros Hn. split.
    + exact (format_mdm_chat_raises h jboss_data jobs detailed t Hn).
    + exact (format_mdm_summary_raises h jboss_data jobs t Hn).
  - apply Forall_forall. intros [env deployments] _.
    pose proof (ok_count_le deployments). lia.
Qed.

(** For one completed job and the health data of two environments, the
    terse chat has the two services lines; for a job whose status is
    [NULL], the chat builder raises. *)
Lemma mdm_reports_print_a_services_line_for_each_environment_witness :
  let data := [("SIT", [Dep.mk "mdm-app.ear" "✅" "✅"]);
               ("PRD", [Dep.mk "N/A" "❌" "Not Reachable"])] in
  let done := Job.mk "BOBatchGroupSap" "Party" None None (Some "Completed") "" 0 in
  let null := Job.mk "BOBatchGroupSap" "Party" None None None "" 0 in
  (exists head tail t',
      format_mdm_chat (Sample.host Sample.teams_ok) data [done] false empty_trace
      = (Ok (head +:+ "**Services Status**" +:+ nl
             +:+ join nl ["SIT 1 ✅ | 0 ❌"; "PRD 0 ✅ | 1 ❌"]
             +:+ nl +:+ nl +:+ tail), t')) /\
  fst (format_mdm_chat (Sample.host Sample.teams_ok) data [null] false empty_trace)
  = Raise (Exception "'NoneType' object has no attribute 'lower'").
Proof.
  intros data done null. split.
  - destruct (mdm_reports_print_a_services_line_for_each_environment
                (Sample.host Sample.teams_ok) data [done] false empty_trace)
      as [Hknown _].
    destruct Hknown as [Hchat _]; [repeat constructor; discriminate|].
    exact Hchat.
  - destruct (mdm_reports_print_a_services_line_for_each_environment
                (Sample.host Sample.teams_ok) data [null] false empty_trace)
      as (_ & Hnull & _).
    destruct Hnull as [Hchat _].
    + intros Hk. apply Forall_cons in Hk as [Hk _]. now apply Hk.
    + now rewrite Hchat.
Defined.

(** X9.  The detailed chat message starts with the terse chat message
    built from the same data at the same reading of the clock, for the
    PowerCenter chat and, when every batch-job record has a status text,
    for the MDM chat: the detailed mode only adds to the end of the text,
    and what it adds is not empty.  With a record whose status is [NULL]
    the MDM chat raises the same error in both modes. *)
Theorem detailed_chat_extends_terse_chat
  (h : Host) (service_status : list (string * bool))
  (workflows : list Workflow.row) (sessions : list Session.row)
  (jboss_data : list (string * list Dep.row)) (jobs : list Job.row)
  (t : Trace) :
  (exists terse more t',
      format_pc_chat h service_status workflows sessions false t = (Ok terse, t') /\
      format_pc_chat h service_status workflows sessions true t
      = (Ok (terse +:+ more), t') /\
      more <> EmptyString) /\
  (statuses_known jobs ->
   exists terse more t',
     format_mdm_chat h jboss_data jobs false t = (Ok terse, t') /\
     format_mdm_chat h jboss_data jobs true t = (Ok (terse +:+ more), t') /\
     more <> EmptyString) /\
  (~ statuses_known jobs ->
   exists e,
     format_mdm_chat h jboss_data jobs false t = (Raise e, t) /\
     format_mdm_chat h jboss_data jobs true t = (Raise e, t)).
Proof.
  split; [|split].
  - unfold format_pc_chat. cbv [bind get_date_str datetime_now ret].
    eexists _, _, _. split; [reflexivity|]. split; [reflexivity|].
    rewrite append_cons. discriminate.
  - intros Hk. pose proof (failed_jobs_known jobs Hk) as Hf.
    destruct (proj1 (status_dict_known jobs) Hk) as [d Hd].
    assert (exists terse more t',
               more <> EmptyString /\
               forall detailed,
                 format_mdm_chat h jboss_data jobs detailed t
                 = (Ok (if detailed then terse +:+ more else terse), t'))
      as (terse & more & t' & Hmore & Hmodes).
    { eexists _, _, _. split; cycle 1.
      - intros detailed. unfold format_mdm_chat.
        cbv [bind lift get_date_str datetime_now ret]. rewrite Hd, Hf.
        cbv beta iota. rewrite chat_env_loop.
        destruct detailed; reflexivity.
      - intros Hempty. apply append_empty_r in Hempty.
        unfold nl in Hempty. rewrite append_cons in Hempty. discriminate. }
    exists terse, more, t'.
    split; [exact (Hmodes false)|]. split; [exact (Hmodes true) | exact Hmore].
  - intros Hn. exists no_lower.
    split; apply format_mdm_chat_raises; exact Hn.
Qed.

(** For one completed job, the detailed MDM chat message is the terse
    one with text added. *)
Lemma detailed_chat_extends_terse_chat_witness :
  let done := Job.mk "BOBatchGroupSap" "Party" None None (Some "Completed") "" 0 in
  exists terse more t',
    format_mdm_chat (Sample.host Sample.teams_ok) [] [done] false empty_trace
    = (Ok terse, t') /\
    format_mdm_chat (Sample.host Sample.teams_ok) [] [done] true empty_trace
    = (Ok (terse +:+ more), t') /\
    more <> EmptyString.
Proof.
  intros done.
  destruct (detailed_chat_extends_terse_chat
              (Sample.host Sample.teams_ok) [] [] [] [] [done] empty_trace)
    as (_ & Hknown & _).
  apply Hknown. repeat constructor; discriminate.
Defined.

End ChatModes.

(* ===================================================================== *)
(** ** The subject area of the session query *)
(* ===================================================================== *)

Section SessionFetch.
Import PyStr PyDatetime Effects Monitor Spec Vocabulary.

Lemma sess_query_nil (db : PcDatabase) (p1 p2 : datetime) :
  (forall row, row ∈ pc_REP_SESS_LOG db ->
               pc_collation_eq db (REP_SESS_LOG.SUBJECT_AREA row) "<modify this>"
               = false) ->
  sess_query db p1 p2 = [].
Proof.
  unfold sess_query. intros Hnone.
  induction (pc_REP_SESS_LOG db) as [|row rows IH]; [reflexivity|].
  cbn [List.filter]. rewrite (Hnone row) by apply list_elem_of_here.
  cbn [andb]. apply IH. intros r Hr. apply Hnone. now apply list_elem_of_further.
Qed.

Lemma get_recent_workflows_and_sessions_overflow (h : Host) (t : Trace)
  (db : PcDatabase) :
  pc_db h = Ok db ->
  datetime_sub (replace_midnight (clock h (clock_reads t))) (timedelta_hours 2)
  = None ->
  get_recent_workflows_and_sessions h t
  = (Raise (Exception "date value out of range"),
     mkTrace (stdout t ++ ["Fetching PC workflows and sessions"]) (posts t)
             (S (clock_reads t))).
Proof.
  intros Hdb Hsub.
  cbv [get_recent_workflows_and_sessions bind print lift datetime_now
       minus_two_hours ret raise].
  rewrite Hdb. cbn [clock_reads stdout posts]. now rewrite Hsub.
Qed.

Lemma format_pc_chat_without_sessions (h : Host)
  (service_status : list (string * bool)) (workflows : list Workflow.row)
  (detailed : bool) (t : Trace) :
  exists head tail t',
    format_pc_chat h service_status workflows [] detailed t
    = (Ok (head +:+ "**Sessions Failed:** 0 / 0" +:+ nl +:+ nl +:+ tail), t').
Proof.
  destruct (format_pc_chat_text h service_status workflows [] detailed t)
    as (head & tail & t' & Htext).
  exists (head +:+ "**Workflows Failed:** "
          +:+ str_of_nat (length (failed_wf workflows))
          +:+ " / " +:+ str_of_nat (length workflows) +:+ nl +:+ nl), tail, t'.
  rewrite Htext.
  change (length (failed_sess [])) with 0%nat.
  change (length (@nil Session.row)) with 0%nat.
  replace "**Sessions Failed:** 0 / 0"
    with ("**Sessions Failed:** " +:+ str_of_nat 0 +:+ " / " +:+ str_of_nat 0)
    by (vm_compute; reflexivity).
  rewrite !string_app_assoc. reflexivity.
Qed.

(** X10.  The session query selects the subject area [<modify this>],
    not the subject area of the workflow query.  So from a repository
    that files no session under a subject area equal to that text, the
    fetch returns no session at all, whatever the clock and whatever
    sessions ran in the window, while the workflows of GLENCORE_HR_PROD
    are fetched; and the chat message built from what was fetched then
    reads [Sessions Failed: 0 / 0]. *)
Theorem sessions_are_fetched_for_the_placeholder_subject_area
  (h : Host) (db : PcDatabase) (t t' : Trace)
  (fetched : list Workflow.row * list Session.row) :
  pc_db h = Ok db ->
  (forall row, row ∈ pc_REP_SESS_LOG db ->
               pc_collation_eq db (REP_SESS_LOG.SUBJECT_AREA row) "<modify this>"
               = false) ->
  get_recent_workflows_and_sessions h t = (Ok fetched, t') ->
  fetched.2 = [] /\
  (forall wf, wf ∈ fetched.1 ->
              pc_collation_eq db (Workflow.SUBJECT_AREA wf) "GLENCORE_HR_PROD"
              = true) /\
  forall service_status detailed t1,
  exists head tail t2,
    format_pc_chat h service_status fetched.1 fetched.2 detailed t1
    = (Ok (head +:+ "**Sessions Failed:** 0 / 0" +:+ nl +:+ nl +:+ tail), t2).
Proof.
  intros Hdb Hnone Hrun.
  destruct (datetime_sub (replace_midnight (clock h (clock_reads t)))
                         (timedelta_hours 2)) as [yesterday_10pm|] eqn:Hsub;
    [|rewrite (get_recent_workflows_and_sessions_overflow h t db Hdb Hsub) in Hrun;
      discriminate].
  rewrite (get_recent_workflows_and_sessions_run h t db _ Hdb Hsub) in Hrun.
  injection Hrun as <- _. cbn [fst snd].
  rewrite (sess_query_nil db _ _ Hnone).
  split; [reflexivity|]. split.
  - intros wf Hwf. apply wf_query_spec in Hwf as (run & _ & Hs & _ & ->).
    exact Hs.
  - intros service_status detailed t1. apply format_pc_chat_without_sessions.
Qed.

(** From the repository whose two sessions of the night are filed under
    GLENCORE_HR_PROD, the two workflows are fetched and no session. *)
Lemma sessions_are_fetched_for_the_placeholder_subject_area_witness :
  exists wf1 wf2 t',
    get_recent_workflows_and_sessions Scenes.production_host empty_trace
    = (Ok ([wf1; wf2], []), t').
Proof.
  destruct (get_recent_workflows_and_sessions Scenes.production_host empty_trace)
    as [[[wfs sess] | e] t'] eqn:Hrun; [|vm_compute in Hrun; discriminate].
  destruct (sessions_are_fetched_for_the_placeholder_subject_area
              Scenes.production_host Scenes.production_pc_db
              empty_trace t' (wfs, sess) eq_refl) as (Hnone & _).
  - intros row Hrow.
    apply elem_of_cons in Hrow as [-> | Hrow]; [reflexivity|].
    apply elem_of_cons in Hrow as [-> | Hrow]; [reflexivity | inversion Hrow].
  - exact Hrun.
  - cbn [snd] in Hnone. subst sess.
    vm_compute in Hrun. injection Hrun as <- <-. eexists _, _, _. reflexivity.
Defined.

End SessionFetch.

(* ===================================================================== *)
(** ** The configuration after the validation *)
(* ===================================================================== *)

Section Configuration.
Import PyStr PyDatetime Effects Monitor Spec Vocabulary Startup.

Lemma validate_env_ok_all_set (environ : gmap string string) (t t' : Trace) :
  validate_env environ t = (Ok tt, t') ->
  forall var, var ∈ REQUIRED_VARS ->
              exists value, environ !! var = Some value /\ value <> EmptyString.
Proof.
  unfold validate_env. intros Hrun var Hreq.
  destruct (missing_vars environ) as [|v rest] eqn:E; [|discriminate].
  assert (var ∉ missing_vars environ) as Hnot by (rewrite E; apply not_elem_of_nil).
  rewrite missing_vars_spec in Hnot.
  destruct (environ !! var) as [value|]; [|exfalso; apply Hnot; auto].
  exists value. split; [reflexivity|]. intros ->. apply Hnot. auto.
Qed.

(** X11.  Every variable from which the script reads its configuration
    is among the required ones: when the start-up validation has passed,
    each configuration value (the three [.bat] files, the two webhooks
    and the JBoss URL, user and password of SIT and of PRD) is set, is the
    value of its variable and is not the empty string. *)
Theorem validated_environment_gives_a_complete_configuration
  (environ : gmap string string) (t t' : Trace) :
  validate_env environ t = (Ok tt, t') ->
  exists cfg,
    load_config environ = Some cfg /\
    Forall (fun value => value <> EmptyString) (config_values cfg) /\
    Some <$> config_values cfg
    = (environ !!.) <$> ["BAT_DEV"; "BAT_SIT"; "BAT_PRD";
                         "WEBHOOK_POST"; "WEBHOOK_CHAT";
                         "SIT_JBOSS_URL"; "SIT_JBOSS_USER"; "SIT_JBOSS_PASS";
                         "PRD_JBOSS_URL"; "PRD_JBOSS_USER"; "PRD_JBOSS_PASS"].
Proof.
  intros Hrun.
  pose proof (validate_env_ok_all_set environ t t' Hrun) as Hall.
  assert (forall var, bool_decide (var ∈ REQUIRED_VARS) = true ->
                      exists value, environ !! var = Some value /\
                                    value <> EmptyString) as Hget
    by (intros var Hin; apply Hall; now apply bool_decide_eq_true in Hin).
  destruct (Hget "BAT_DEV" eq_refl) as (v1 & E1 & N1).
  destruct (Hget "BAT_SIT" eq_refl) as (v2 & E2 & N2).
  destruct (Hget "BAT_PRD" eq_refl) as (v3 & E3 & N3).
  destruct (Hget "WEBHOOK_POST" eq_refl) as (v4 & E4 & N4).
  destruct (Hget "WEBHOOK_CHAT" eq_refl) as (v5 & E5 & N5).
  destruct (Hget "SIT_JBOSS_URL" eq_refl) as (v6 & E6 & N6).
  destruct (Hget "SIT_JBOSS_USER" eq_refl) as (v7 & E7 & N7).
  destruct (Hget "SIT_JBOSS_PASS" eq_refl) as (v8 & E8 & N8).
  destruct (Hget "PRD_JBOSS_URL" eq_refl) as (v9 & E9 & N9).
  destruct (Hget "PRD_JBOSS_USER" eq_refl) as (v10 & E10 & N10).
  destruct (Hget "PRD_JBOSS_PASS" eq_refl) as (v11 & E11 & N11).
  exists (mkConfig v1 v2 v3 v4 v5 v6 v7 v8 v9 v10 v11).
  split; [|split].
  - unfold load_config, getenv.
    rewrite E1, E2, E3, E4, E5, E6, E7, E8, E9, E10, E11. reflexivity.
  - unfold config_values. cbn. repeat constructor; assumption.
  - unfold config_values. cbn [fmap list_fmap BAT_DEV BAT_SIT BAT_PRD WEBHOOK_POST
                                WEBHOOK_CHAT SIT_JBOSS_URL SIT_JBOSS_USER
                                SIT_JBOSS_PASS PRD_JBOSS_URL PRD_JBOSS_USER
                                PRD_JBOSS_PASS].
    rewrite E1, E2, E3, E4, E5, E6, E7, E8, E9, E10, E11. reflexivity.
Qed.

(** In the environment in which every required variable is set, the
    configuration is the one of the examples. *)
Lemma validated_environment_gives_a_complete_configuration_witness :
  exists cfg,
    load_config Scenes.full_environ = Some cfg /\
    Forall (fun value => value <> EmptyString) (config_values cfg).
Proof.
  destruct (validated_environment_gives_a_complete_configuration
              Scenes.full_environ empty_trace
              (mkTrace ["✅ All required environment variables are loaded."] [] 0))
    as (cfg & Hcfg & Hvalues & _).
  - vm_compute. reflexivity.
  - exists cfg. split; assumption.
Defined.

End Configuration.

(* ===================================================================== *)
(** ** The sentence the service check looks for *)
(* ===================================================================== *)

Section ServiceCheck.
Import PyStr PyDatetime Effects Monitor Spec Vocabulary.

Lemma contains_app_l (sub a b : string) :
  contains sub a = true -> contains sub (a +:+ b) = true.
Proof.
  rewrite !contains_spec. intros (pre & post & ->).
  exists pre, (post +:+ b). now rewrite !string_app_assoc.
Qed.

Lemma contains_app_r (sub a b : string) :
  contains sub b = true -> contains sub (a +:+ b) = true.
Proof.
  rewrite !contains_spec. intros (pre & post & ->).
  exists (a +:+ pre), post. now rewrite !string_app_assoc.
Qed.

(** X12.  The service check reports an environment whose [.bat] run
    returns as up exactly when the sentence [Integration Service is alive]
    stands, in this letter case, in the captured standard output followed
    by the captured standard error; so the sentence in either of the two
    streams is enough, and nothing else of the run is looked at. *)
Theorem check_pc_service_looks_for_the_sentence_in_both_streams
  (cfg : Config) (h : Host) (t : Trace) (env bat_file : string)
  (out err : option string) :
  (env, bat_file) ∈ BAT_FILES cfg ->
  subprocess_run h env bat_file = Completed out err ->
  exists status t',
    check_pc_service cfg h t = (Ok status, t') /\
    (dict_get env status = Some true \/ dict_get env status = Some false) /\
    (dict_get env status = Some true <->
     exists pre post,
       or_empty out +:+ or_empty err
       = pre +:+ "Integration Service is alive" +:+ post) /\
    (contains "Integration Service is alive" (or_empty out) = true \/
     contains "Integration Service is alive" (or_empty err) = true ->
     dict_get env status = Some true).
Proof.
  intros Hin Hrun.
  destruct (check_pc_service_run cfg h t) as (t' & E & _).
  eexists _, t'. split; [exact E|].
  assert (dict_get env
            [("DEV", pc_up h "DEV" (BAT_DEV cfg));
             ("SIT", pc_up h "SIT" (BAT_SIT cfg));
             ("PRD", pc_up h "PRD" (BAT_PRD cfg))]
          = Some (contains "Integration Service is alive"
                    (or_empty out +:+ or_empty err))) as ->.
  { unfold BAT_FILES in Hin.
    apply elem_of_cons in Hin as [Hin | Hin];
      [|apply elem_of_cons in Hin as [Hin | Hin];
        [|apply elem_of_cons in Hin as [Hin | Hin]; [|inversion Hin]]];
      injection Hin as -> ->; cbn; unfold pc_up; now rewrite Hrun. }
  split; [destruct (contains _ _); auto|]. split.
  - rewrite <- contains_spec. split; [now intros [= ->] | now intros ->].
  - intros [H | H]; f_equal; [now apply contains_app_l | now apply contains_app_r].
Qed.

(** In the surroundings where the runs print the sentence on the
    standard error only, SIT is reported up. *)
Lemma check_pc_service_looks_for_the_sentence_in_both_streams_witness :
  exists status t',
    check_pc_service Sample.config Scenes.production_host empty_trace
    = (Ok status, t') /\
    dict_get "SIT" status = Some true.
Proof.
  destruct (check_pc_service_looks_for_the_sentence_in_both_streams
              Sample.config Scenes.production_host empty_trace "SIT" "sit.bat"
              None (Some "Integration Service is alive"))
    as (status & t' & Hrun & _ & _ & Hup).
  - apply list_elem_of_further, list_elem_of_here.
  - reflexivity.
  - exists status, t'. split; [exact Hrun|]. apply Hup. right. reflexivity.
Defined.

End ServiceCheck.

(* ===================================================================== *)
(** ** The dashboard window, cards and status tables *)
(* ===================================================================== *)

Section Dashboard.
Import PyStr PyDatetime Effects Monitor Spec Vocabulary.

Lemma before_midnight_before_ten (v : datetime) (y m d : Z) :
  dt_leb v (mkDatetime y m d 0 0 0 0) = true ->
  dt_leb v (mkDatetime y m d 10 0 0 0) = true.
Proof.
  unfold dt_leb, fields.
  cbn [cmp year month day hour minute second microsecond].
  destruct (year v ?= y); try (intros; assumption).
  destruct (month v ?= m); try (intros; assumption).
  destruct (day v ?= d); try (intros; assumption).
  destruct (Z.compare_spec (hour v) 0) as [H0 | H0 | H0];
    destruct (Z.compare_spec (hour v) 10) as [H10 | H10 | H10];
    try lia; try reflexivity; intros H; try discriminate H.
Qed.

(** X13.  The window of the dashboard starts where the window of the
    notification cycle starts, at 22:00 of the day before the reading of
    the clock, and ends at 10:00 of the day of the reading, twelve hours
    later; so every start time that the closed notification window holds
    is also in the dashboard window.  The dashboard window exists exactly
    when the notification window does (not on 0001-01-01). *)
Theorem dashboard_window_extends_the_notification_window (now : datetime) :
  fst <$> PcJobs.window now
  = datetime_sub (replace_midnight now) (timedelta_hours 2) /\
  forall start_time end_time,
    PcJobs.window now = Some (start_time, end_time) ->
    end_time = mkDatetime (year now) (month now) (day now) 10 0 0 0 /\
    hour start_time = 22 /\
    toordinal start_time = toordinal now - 1 /\
    to_micros end_time - to_micros start_time = 12 * 3600 * 1000000 /\
    forall v,
      sql_between v start_time (replace_midnight now) = true ->
      PcJobs.ge v start_time && PcJobs.le v end_time = true.
Proof.
  unfold PcJobs.window, PcJobs.date_minus_days, replace_midnight.
  rewrite two_hours_before_midnight. fold (toordinal now).
  replace (toordinal now + - (1)) with (toordinal now - 1) by lia.
  destruct ((0 <? toordinal now - 1) && (toordinal now - 1 <=? MAXORDINAL))
    eqn:Hrange; [|split; [reflexivity | discriminate]].
  apply andb_true_iff in Hrange as [Hlo Hhi].
  apply Z.ltb_lt in Hlo. apply Z.leb_le in Hhi.
  pose proof (ord2ymd_correct (toordinal now - 1) ltac:(lia)) as Hord.
  destruct (ord2ymd (toordinal now - 1)) as [[y m] d].
  destruct Hord as (Hord & _).
  split; [reflexivity|].
  intros start_time end_time [= <- <-].
  split; [reflexivity|]. split; [reflexivity|].
  split; [exact Hord|]. split.
  - unfold to_micros. cbn [hour minute second microsecond].
    unfold toordinal at 2. cbn [year month day]. rewrite Hord.
    fold (toordinal now). unfold toordinal at 1. cbn [year month day].
    fold (toordinal now). lia.
  - intros [v|]; [|discriminate]. unfold sql_between, PcJobs.ge, PcJobs.le.
    rewrite !andb_true_iff. intros [Hge Hle]. split; [exact Hge|].
    now apply before_midnight_before_ten.
Qed.

(** At 06:00 on 2024-03-10 the dashboard window runs from 22:00 on the
    9th to 10:00 on the 10th. *)
Lemma dashboard_window_extends_the_notification_window_witness :
  PcJobs.window Sample.six_in_the_morning
  = Some (mkDatetime 2024 3 9 22 0 0 0, mkDatetime 2024 3 10 10 0 0 0) /\
  to_micros (mkDatetime 2024 3 10 10 0 0 0)
  - to_micros (mkDatetime 2024 3 9 22 0 0 0) = 12 * 3600 * 1000000.
Proof.
  assert (PcJobs.window Sample.six_in_the_morning
          = Some (mkDatetime 2024 3 9 22 0 0 0, mkDatetime 2024 3 10 10 0 0 0))
    as Hwindow by (vm_compute; reflexivity).
  split; [exact Hwindow|].
  destruct (dashboard_window_extends_the_notification_window
              Sample.six_in_the_morning) as [_ H].
  destruct (H _ _ Hwindow) as (_ & _ & _ & Hspan & _). exact Hspan.
Defined.

Lemma count_two {A : Type} (p q : A -> bool) (l : list A) :
  (forall x, p x && q x = false) ->
  (length (List.filter p l) + length (List.filter q l) <= length l)%nat /\
  ((length (List.filter p l) + length (List.filter q l) = length l)%nat <->
   forall x, x ∈ l -> p x || q x = true).
Proof.
  intros Hpq. induction l as [|x l [IHle IHeq]].
  - split; [reflexivity|]. split; [intros _ x Hx; inversion Hx | reflexivity].
  - pose proof (List.filter_length_le p l) as Hp.
    pose proof (List.filter_length_le q l) as Hq.
    cbn [List.filter length]. specialize (Hpq x).
    destruct (p x) eqn:Px, (q x) eqn:Qx; try discriminate Hpq;
      cbn [length]; (split; [lia|]); split.
    + intros Hlen y Hy. apply elem_of_cons in Hy as [-> | Hy];
        [now rewrite Px | apply IHeq; [lia | exact Hy]].
    + intros Hall.
      assert (length (List.filter p l) + length (List.filter q l) = length l)%nat
        by (apply IHeq; intros y Hy; apply Hall; now apply list_elem_of_further).
      lia.
    + intros Hlen y Hy. apply elem_of_cons in Hy as [-> | Hy];
        [now rewrite Px, Qx | apply IHeq; [lia | exact Hy]].
    + intros Hall.
      assert (length (List.filter p l) + length (List.filter q l) = length l)%nat
        by (apply IHeq; intros y Hy; apply Hall; now apply list_elem_of_further).
      lia.
    + intros Hlen. lia.
    + intros Hall. specialize (Hall x (list_elem_of_here _ _)).
      rewrite Px, Qx in Hall. discriminate.
Qed.

(** X14.  On the cards of the dashboard, the failures are the runs of
    the window with the status [Failed] only: a run that was stopped,
    aborted or terminated, that is still running or whose status is
    unknown is counted neither as a success nor as a failure, so the two
    counts add up to the total exactly when every run of the window
    either succeeded or failed, and the failures are at most the runs of
    the dashboard window that did not succeed.  The runs of the window
    are those of the frame that have a start time within the closed
    window. *)
Theorem dashboard_failures_count_only_failed_runs
  (df_wf : list PcJobs.Wf.row) (df_sess : list PcJobs.Sess.row)
  (start_time end_time : datetime) :
  let m := PcJobs.metrics df_wf df_sess start_time end_time in
  let today := PcJobs.df_today df_wf start_time end_time in
  (PcJobs.successes m + PcJobs.failures m <= PcJobs.total_runs m)%nat /\
  ((PcJobs.successes m + PcJobs.failures m = PcJobs.total_runs m)%nat <->
   forall r, r ∈ today ->
             PcJobs.Wf.Status r = "Succeeded" \/ PcJobs.Wf.Status r = "Failed") /\
  (PcJobs.failures m
   <= length (List.filter
                (fun r => negb (String.eqb (PcJobs.Wf.Status r) "Succeeded"))
                today))%nat /\
  (PcJobs.failed_sessions m <= PcJobs.total_sessions m)%nat /\
  forall r,
    r ∈ today <->
    r ∈ df_wf /\
    exists start,
      PcJobs.Wf.START_TIME r = Some start /\
      dt_leb start_time start = true /\ dt_leb start end_time = true.
Proof.
  cbv zeta. unfold PcJobs.metrics.
  cbn [PcJobs.successes PcJobs.failures PcJobs.total_runs
       PcJobs.failed_sessions PcJobs.total_sessions].
  set (today := PcJobs.df_today df_wf start_time end_time).
  destruct (count_two
              (fun r => String.eqb (PcJobs.Wf.Status r) "Succeeded")
              (fun r => String.eqb (PcJobs.Wf.Status r) "Failed") today)
    as [Hle Heq].
  { intros r. destruct (String.eqb_spec (PcJobs.Wf.Status r) "Succeeded") as [->|];
      reflexivity. }
  split; [exact Hle|]. split; [|split; [|split]].
  - rewrite Heq. split; intros H r Hr; specialize (H r Hr).
    + apply orb_true_iff in H as [H | H]; apply String.eqb_eq in H; auto.
    + apply orb_true_iff. rewrite !String.eqb_eq. exact H.
  - clear. induction today as [|r today IH]; [reflexivity|].
    cbn [List.filter].
    destruct (String.eqb_spec (PcJobs.Wf.Status r) "Failed") as [->|];
      cbn [negb length]; [cbn; lia|].
    destruct (negb _); cbn [length]; lia.
  - apply List.filter_length_le.
  - intros r. subst today. unfold PcJobs.df_today.
    rewrite list_elem_of_In, filter_In, <- list_elem_of_In.
    unfold PcJobs.ge, PcJobs.le.
    destruct (PcJobs.Wf.START_TIME r) as [start|].
    + rewrite andb_true_iff. split.
      * intros (Hin & H1 & H2). eauto.
      * intros (Hin & s & [= <-] & H1 & H2). auto.
    + split; [intros (_ & H); discriminate | intros (_ & s & H & _); discriminate].
Qed.

(** The lookups of the literal tables, evaluated. *)
Ltac lookup_tables :=
  repeat match goal with
         | |- context [PcJobs.status_colors !! ?k] =>
             let v := eval vm_compute in (PcJobs.status_colors !! k) in
             replace (PcJobs.status_colors !! k) with v by (vm_compute; reflexivity)
         | |- context [PcJobs.status_to_num !! ?k] =>
             let v := eval vm_compute in (PcJobs.status_to_num !! k) in
             replace (PcJobs.status_to_num !! k) with v by (vm_compute; reflexivity)
         end.

(** X15.  The three status tables of the dashboard agree with each
    other and with the status labels of the queries: every label that the
    queries give to a status code has a colour and a number, except
    [Unknown], which has neither; the colour of the heat map at the number
    of a label is the colour the label has in the charts; and the labels
    shown in red are those of the codes 3, 4, 5 and 15, of which only
    [Failed], the label of the code 3, is counted on the failures
    card. *)
Theorem dashboard_status_tables_agree (code : Z) :
  let label := run_status_case code in
  (PcJobs.status_colors !! label = None <-> label = "Unknown") /\
  (PcJobs.status_to_num !! label = None <-> label = "Unknown") /\
  (forall num, PcJobs.status_to_num !! label = Some num ->
               stop_colour num = PcJobs.status_colors !! label) /\
  (PcJobs.status_colors !! label = Some "red" <-> code ∈ [3; 4; 5; 15]) /\
  (label = "Failed" <-> code = 3).
Proof.
  cbv zeta. unfold run_status_case.
  repeat match goal with
         | |- context [if ?c =? ?k then _ else _] =>
             destruct (Z.eqb_spec c k) as [-> | ?]
         end;
    lookup_tables; rewrite ?elem_of_cons, ?elem_of_nil;
    (split; [split; [discriminate || reflexivity | discriminate || reflexivity]|]);
    (split; [split; [discriminate || reflexivity | discriminate || reflexivity]|]);
    (split; [intros num [= <-]; vm_compute; reflexivity || (intros num H; discriminate H)|]);
    (split; [split; [try discriminate; intros _; lia | try (intros _; reflexivity); lia]
            | split; [try discriminate; intros _; lia | try (intros _; reflexivity); lia]]).
Qed.

End Dashboard.

(* ===================================================================== *)
(** ** A batch job without a status text *)
(* ===================================================================== *)

Section NullStatus.
Import PyStr PyDatetime Effects Monitor Spec Vocabulary.

(** X16.  When both databases answer and one of the batch jobs fetched
    for the window has the status [NULL], the cycle makes no post at all:
    building the MDM chat message raises the error of [None.lower()]
    before the first delivery, so neither the PowerCenter reports nor the
    MDM reports are sent, and the cycle ends with the error line of its
    handler.  (The clock is taken to show the same time at every
    reading of the cycle.) *)
Theorem null_job_status_ends_the_cycle_without_a_post
  (cfg : Config) (h : Host) (t : Trace) (pc : PcDatabase) (mdm : MdmDatabase)
  (now yesterday_10pm : datetime) (row : Job.row) :
  pc_db h = Ok pc ->
  mdm_db h = Ok mdm ->
  (forall k, clock h k = now) ->
  datetime_sub (replace_midnight now) (timedelta_hours 2) = Some yesterday_10pm ->
  row ∈ jobs_query mdm yesterday_10pm (replace_midnight now) ->
  Job.Status row = None ->
  exists t',
    monitor cfg h t = (Ok tt, t') /\
    posts t' = posts t /\
    last (stdout t')
    = Some ("❌ Error during monitoring: "
            +:+ "'NoneType' object has no attribute 'lower'").
Proof.
  intros Hpc Hmdm Hclock Hsub Hrow Hnull.
  rewrite monitor_unfold.
  set (t0 := mkTrace _ (posts t) _).
  destruct (check_pc_service_run cfg h t0) as (t1 & E1 & P1 & _).
  destruct (check_mdm_apps_run cfg h) as (sit & prd & _ & _ & _ & Hrun).
  destruct (Hrun t1) as (t2 & E2 & P2 & _).
  assert (forall t3,
             datetime_sub (replace_midnight (clock h (clock_reads t3)))
                          (timedelta_hours 2) = Some yesterday_10pm) as Hsub'
    by (intros t3; now rewrite Hclock).
  pose proof (get_recent_workflows_and_sessions_run h t2 pc _ Hpc (Hsub' t2)) as E3.
  set (t3 := mkTrace (stdout t2 ++ ["Fetching PC workflows and sessions"])
                     (posts t2) (S (clock_reads t2))) in E3.
  pose proof (get_recent_jobs_run h t3 mdm _ Hmdm (Hsub' t3)) as E4.
  set (t4 := mkTrace (stdout t3 ++ ["Fetching MDM jobs"])
                     (posts t3) (S (clock_reads t3))) in E4.
  rewrite !Hclock in E3, E4.
  set (workflows := wf_query pc _ _) in E3.
  set (sessions := sess_query pc _ _) in E3.
  set (jobs := jobs_query mdm _ _) in *.
  assert (~ statuses_known jobs) as Hn.
  { intros Hk. unfold statuses_known in Hk. rewrite Forall_forall in Hk.
    exact (Hk row Hrow Hnull). }
  set (status := [("DEV", pc_up h "DEV" (BAT_DEV cfg));
                  ("SIT", pc_up h "SIT" (BAT_SIT cfg));
                  ("PRD", pc_up h "PRD" (BAT_PRD cfg))]) in E1.
  destruct (format_pc_chat_ok h status workflows sessions false t4)
    as (pc_chat & t5 & E5 & P5).
  eexists. unfold try_except, cycle_body.
  rewrite (bind_ok _ _ _ _ _ E1), (bind_ok _ _ _ _ _ E2),
          (bind_ok _ _ _ _ _ E3).
  cbn [fst snd].
  rewrite (bind_ok _ _ _ _ _ E4), (bind_ok _ _ _ _ _ E5),
          (bind_raise _ _ _ _ _
             (format_mdm_chat_raises h _ jobs false t5 Hn)).
  split; [reflexivity|]. cbn [posts stdout]. split.
  - rewrite P5. subst t4 t3. cbn [posts]. rewrite P2, P1. reflexivity.
  - apply last_snoc.
Qed.

(** With the job of 22:30 lacking a status type, the cycle of 06:00
    posts nothing and prints the error. *)
Lemma null_job_status_ends_the_cycle_without_a_post_witness :
  exists t',
    monitor Sample.config Scenes.null_status_host empty_trace = (Ok tt, t') /\
    posts t' = [] /\
    last (stdout t')
    = Some ("❌ Error during monitoring: "
            +:+ "'NoneType' object has no attribute 'lower'").
Proof.
  apply (null_job_status_ends_the_cycle_without_a_post
           Sample.config Scenes.null_status_host empty_trace
           Sample.boundary_pc_db Scenes.null_status_mdm_db
           Sample.six_in_the_morning (mkDatetime 2024 3 9 22 0 0 0)
           (Job.mk "BOBatchGroupSap" "Party" (Sample.on_9th 22 30) None None "" 0)).
  - reflexivity.
  - reflexivity.
  - reflexivity.
  - vm_compute. reflexivity.
  - replace (jobs_query Scenes.null_status_mdm_db (mkDatetime 2024 3 9 22 0 0 0)
                        (replace_midnight Sample.six_in_the_morning))
      with (mdm_job_rows Scenes.null_status_mdm_db) by (vm_compute; reflexivity).
    apply list_elem_of_further, list_elem_of_here.
  - reflexivity.
Defined.

End NullStatus.
